(** * s3_vectors_rag_hands_on: provisioning, ingestion polling and teardown

    A shallow embedding of [sync.py], [cleanup.py] and [infra.py].

    The Python code talks to AWS through boto3 clients, prints to standard
    output and raises exceptions.  The embedding keeps all three visible:

    - every client call is a constructor of [Call], answered by an oracle
      that sees the whole history of earlier interactions, so a theorem
      quantified over the oracle holds for every behaviour of the services;
    - a computation is a function from a [World] (history of interactions,
      lines printed so far, closure cells) to a new world and an [Outcome]
      (a returned value, a raised exception, or a loop that ran out of fuel);
    - durations, which the Python code holds in floats, are exact rationals. *)

From Stdlib Require Import Ascii String List ZArith QArith Lia Lqa Bool DecimalString.
Import ListNotations.
Local Close Scope Q_scope.
Local Open Scope list_scope.
Local Open Scope string_scope.

(* ================================================================== *)
(** * The Python runtime and the AWS services                          *)
(* ================================================================== *)

Module Py.

(** ** Exceptions *)

(** The exception classes botocore generates for the clients used here
    ([client.exceptions.X]); every one of them is a subclass of
    [botocore.exceptions.ClientError].  [OtherClientError] stands for a
    [ClientError] of none of these classes. *)
Inductive client_exception : Type :=
| ResourceNotFoundException
| ConflictException
| NotFoundException
| NoSuchEntityException
| OtherClientError.

(** An error response of a service: the class it is raised as, the value of
    [error.response.get("Error", {}).get("Code")] and [str(error)]. *)
Record ServiceError : Type := mkServiceError
  { error_class : client_exception;
    error_code : option string;
    error_str : string }.

Inductive exn : Type :=
| ClientError (err : ServiceError)
| ValueError (msg : string)
| TimeoutError (msg : string)
| FileNotFoundError (msg : string).

(** [str(exc)] *)
Definition str_exc (e : exn) : string :=
  match e with
  | ClientError err => error_str err
  | ValueError msg => msg
  | TimeoutError msg => msg
  | FileNotFoundError msg => msg
  end.

(** The classes named in the [except] clauses of the program. *)
Inductive exc_type : Type :=
| T_Exception
| T_ClientError
| T_ResourceNotFoundException
| T_ConflictException
| T_NotFoundException
| T_NoSuchEntityException
| T_ValueError
| T_TimeoutError.

Definition client_exception_eqb (a b : client_exception) : bool :=
  match a, b with
  | ResourceNotFoundException, ResourceNotFoundException => true
  | ConflictException, ConflictException => true
  | NotFoundException, NotFoundException => true
  | NoSuchEntityException, NoSuchEntityException => true
  | OtherClientError, OtherClientError => true
  | _, _ => false
  end.

Definition is_client_error (e : exn) (c : client_exception) : bool :=
  match e with
  | ClientError err => client_exception_eqb (error_class err) c
  | _ => false
  end.

(** [isinstance(e, t)] *)
Definition isinstance (e : exn) (t : exc_type) : bool :=
  match t with
  | T_Exception => true
  | T_ClientError => match e with ClientError _ => true | _ => false end
  | T_ResourceNotFoundException => is_client_error e ResourceNotFoundException
  | T_ConflictException => is_client_error e ConflictException
  | T_NotFoundException => is_client_error e NotFoundException
  | T_NoSuchEntityException => is_client_error e NoSuchEntityException
  | T_ValueError => match e with ValueError _ => true | _ => false end
  | T_TimeoutError => match e with TimeoutError _ => true | _ => false end
  end.

(** [error.response.get("Error", {}).get("Code")] *)
Definition response_code (error : exn) : option string :=
  match error with
  | ClientError err => error_code err
  | _ => None
  end.

(** [code == s] *)
Definition code_is (code : option string) (s : string) : bool :=
  match code with
  | Some c => String.eqb c s
  | None => false
  end.

(** ** Data exchanged with the services *)

Inductive IngestionStatus : Type :=
| STARTING | IN_PROGRESS | COMPLETE | FAILED | STOPPING | STOPPED.

Definition status_eqb (a b : IngestionStatus) : bool :=
  match a, b with
  | STARTING, STARTING | IN_PROGRESS, IN_PROGRESS | COMPLETE, COMPLETE
  | FAILED, FAILED | STOPPING, STOPPING | STOPPED, STOPPED => true
  | _, _ => false
  end.

Definition status_str (s : IngestionStatus) : string :=
  match s with
  | STARTING => "STARTING"
  | IN_PROGRESS => "IN_PROGRESS"
  | COMPLETE => "COMPLETE"
  | FAILED => "FAILED"
  | STOPPING => "STOPPING"
  | STOPPED => "STOPPED"
  end.

(** [job["statistics"]]: every counter may be missing. *)
Record Statistics : Type := mkStatistics
  { numberOfDocumentsScanned : option Z;
    numberOfNewDocumentsIndexed : option Z;
    numberOfModifiedDocumentsIndexed : option Z;
    numberOfDocumentsFailed : option Z }.

(** The [ingestionJob] dictionary of a [get_ingestion_job] response.
    [statistics] and [failureReasons] are optional keys. *)
Record Job : Type := mkJob
  { status : IngestionStatus;
    statistics : option Statistics;
    failureReasons : option (list string) }.

(** The [dataSource] dictionary of a [get_data_source] response. *)
Record DataSourceData : Type := mkDataSourceData
  { ds_name : string;
    ds_dataSourceConfiguration : string;
    ds_description : option string }.

(** Keyword arguments of [update_data_source]. *)
Record UpdateDataSourceArgs : Type := mkUpdateDataSourceArgs
  { upd_knowledgeBaseId : string;
    upd_dataSourceId : string;
    upd_name : string;
    upd_dataSourceConfiguration : string;
    upd_dataDeletionPolicy : string;
    upd_description : option string }.

(** What iterating over [paginator.paginate(...)] produces: pages, one
    after the other, until the listing ends or a request fails.  The
    sequence is the answer to the call that creates the iterator; a page
    reaches the program, and the history, when the loop asks for it. *)
Inductive PageStream (P : Type) : Type :=
| PagesEnd
| PagesError (err : ServiceError)
| PagesCons (page : P) (rest : PageStream P).
Arguments PagesEnd {P}.
Arguments PagesError {P} err.
Arguments PagesCons {P} page rest.

(** A page of [list_objects_v2]: the keys of [page.get("Contents")], when
    the page has that entry. *)
Record ObjectPage : Type := mkObjectPage
  { Contents : option (list string) }.

(** An entry of [AttachedPolicies]. *)
Record AttachedPolicy : Type := mkAttachedPolicy
  { PolicyName : string;
    PolicyArn : string }.

(** A summary in a page of [list_knowledge_bases] or [list_data_sources]:
    its optional [name] and its identifier. *)
Record Summary : Type := mkSummary
  { summary_name : option string;
    summary_id : string }.

(** A path met by [local_dir.rglob("*")]: [str(path)], whether
    [path.is_file()], and [path.relative_to(local_dir).as_posix()]. *)
Record DirEntry : Type := mkDirEntry
  { entry_path : string;
    entry_is_file : bool;
    entry_relative : string }.

(** A small JSON value, for the policy documents given to [json.dumps]. *)
#[local] Unset Elimination Schemes.
Inductive json : Type :=
| JStr (s : string)
| JList (l : list json)
| JObj (fields : list (string * json)).
#[local] Set Elimination Schemes.

(** ** Requests *)

(** One constructor per client method of the services; the index is the
    type of the part of the response the program reads. *)
Inductive Call : Type -> Type :=
(* bedrock-agent *)
| GetKnowledgeBase (knowledgeBaseId : string) : Call unit
| DeleteKnowledgeBase (knowledgeBaseId : string) : Call unit
| ListKnowledgeBases : Call (PageStream (list Summary))
| CreateKnowledgeBase (name roleArn embeddingModelArn vectorBucketArn indexArn : string) : Call string
| GetDataSource (knowledgeBaseId dataSourceId : string) : Call DataSourceData
| UpdateDataSource (kwargs : UpdateDataSourceArgs) : Call unit
| DeleteDataSource (knowledgeBaseId dataSourceId : string) : Call unit
| ListDataSources (knowledgeBaseId : string) : Call (PageStream (list Summary))
| CreateDataSource (knowledgeBaseId name description bucketArn inclusionPrefix : string) : Call string
| StartIngestionJob (knowledgeBaseId dataSourceId clientToken : string) : Call string
| GetIngestionJob (knowledgeBaseId dataSourceId ingestionJobId : string) : Call Job
| StopIngestionJob (knowledgeBaseId dataSourceId ingestionJobId : string) : Call unit
(* s3vectors *)
| GetVectorBucket (vectorBucketName : string) : Call string
| CreateVectorBucket (vectorBucketName : string) : Call unit
| DeleteVectorBucket (vectorBucketName : string) : Call unit
| GetIndex (vectorBucketName indexName : string) : Call string
| CreateIndex (vectorBucketName indexName dataType : string) (dimension : Z) (distanceMetric : string) : Call unit
| DeleteIndex (vectorBucketName indexName : string) : Call unit
(* s3 *)
| HeadBucket (Bucket : string) : Call unit
| CreateBucket (Bucket : string) (LocationConstraint : option string) : Call unit
| UploadFile (Filename Bucket Key : string) : Call unit
| ListObjectsV2 (Bucket : string) : Call (PageStream ObjectPage)
| DeleteObjects (Bucket : string) (Keys : list string) : Call unit
| DeleteBucket (Bucket : string) : Call unit
(* iam *)
| GetRole (RoleName : string) : Call string
| CreateRole (RoleName AssumeRolePolicyDocument Description : string) : Call string
| PutRolePolicy (RoleName PolicyName PolicyDocument : string) : Call unit
| ListRolePolicies (RoleName : string) : Call (option (list string))
| DeleteRolePolicy (RoleName PolicyName : string) : Call unit
| ListAttachedRolePolicies (RoleName : string) : Call (option (list AttachedPolicy))
| DetachRolePolicy (RoleName PolicyArn : string) : Call unit
| DeleteRole (RoleName : string) : Call unit.

(** ** Worlds *)

(** What has happened so far: a client call together with its answer, a
    page (or the error) a paginator delivered to the loop that iterates
    over it, or a completed [time.sleep]. *)
Inductive Event : Type :=
| Called {R : Type} (c : Call R) (r : ServiceError + R)
| Paged {P : Type} (c : Call (PageStream P)) (r : ServiceError + P)
| Slept (seconds : Q).

(** The services: the answer to a call may depend on everything that
    happened before it. *)
Definition Oracle : Type := forall R : Type, list Event -> Call R -> ServiceError + R.

(** [last_status] is the cell of [sync.main] that its nested function
    [on_update] captures with [nonlocal]. *)
Record World : Type := mkWorld
  { history : list Event;
    stdout : list string;
    last_status : option IngestionStatus }.

Definition initial_world : World :=
  {| history := []; stdout := []; last_status := None |}.

(** ** Computations *)

Inductive Outcome (A : Type) : Type :=
| Returned (a : A)
| Raised (e : exn)
| OutOfFuel.
Arguments Returned {A} a.
Arguments Raised {A} e.
Arguments OutOfFuel {A}.

Definition M (A : Type) : Type := World -> World * Outcome A.

Definition ret {A} (a : A) : M A := fun w => (w, Returned a).

Definition bind {A B} (m : M A) (k : A -> M B) : M B :=
  fun w =>
    match m w with
    | (w', Returned a) => k a w'
    | (w', Raised e) => (w', Raised e)
    | (w', OutOfFuel) => (w', OutOfFuel)
    end.

Definition raise {A} (e : exn) : M A := fun w => (w, Raised e).

Definition out_of_fuel {A} : M A := fun w => (w, OutOfFuel).

Definition record_event (ev : Event) (w : World) : World :=
  {| history := history w ++ [ev];
     stdout := stdout w;
     last_status := last_status w |}.

Definition print_line (line : string) (w : World) : World :=
  {| history := history w;
     stdout := stdout w ++ [line];
     last_status := last_status w |}.

(** [print(line)] *)
Definition print (line : string) : M unit :=
  fun w => (print_line line w, Returned tt).

(** A client call: the oracle answers, the exchange is recorded, and an
    error response is raised as a [ClientError]. *)
Definition call (oracle : Oracle) {R} (c : Call R) : M R :=
  fun w =>
    let r := oracle R (history w) c in
    let w' := record_event (Called c r) w in
    match r with
    | inl err => (w', Raised (ClientError err))
    | inr v => (w', Returned v)
    end.

(** [time.sleep(seconds)]; CPython refuses a negative length. *)
Definition sleep (seconds : Q) : M unit :=
  fun w =>
    if Qle_bool 0 seconds
    then (record_event (Slept seconds) w, Returned tt)
    else (w, Raised (ValueError "sleep length must be non-negative")).

(** [try: body  except T1 as e: h1 e  except T2 as e: h2 e ...  else: orelse].
    The first clause whose class the exception is an instance of handles
    it; an exception no clause matches propagates. *)
Definition try_except {A B} (body : M A)
    (handlers : list (exc_type * (exn -> M B))) (orelse : A -> M B) : M B :=
  fun w =>
    match body w with
    | (w', Returned a) => orelse a w'
    | (w', Raised e) =>
        match find (fun h => isinstance e (fst h)) handlers with
        | Some (_, h) => h e w'
        | None => (w', Raised e)
        end
    | (w', OutOfFuel) => (w', OutOfFuel)
    end.

(** [for x in xs: body x] *)
Fixpoint for_each {A} (xs : list A) (body : A -> M unit) : M unit :=
  match xs with
  | [] => ret tt
  | x :: rest => bind (body x) (fun _ => for_each rest body)
  end.

(** [d.get(key, [])] for an optional list. *)
Definition get_or_empty {A} (o : option (list A)) : list A :=
  match o with Some l => l | None => [] end.

(** Truth value of a [str | None]: [None] and the empty string are false. *)
Definition truthy (o : option string) : option string :=
  match o with
  | Some "" => None
  | Some s => Some s
  | None => None
  end.

(** [str(n)] for an [int]. *)
Definition str_int (n : Z) : string := NilZero.string_of_int (Z.to_int n).

(** The code printed by [{code}] in an f-string. *)
Definition str_code (code : option string) : string :=
  match code with Some c => c | None => "None" end.

End Py.

Export Py.

Declare Scope py_scope.
Delimit Scope py_scope with py.
Notation "x <- m ;; k" := (bind m (fun x => k))
  (at level 61, m at next level, right associativity) : py_scope.
Notation "m ;; k" := (bind m (fun _ => k))
  (at level 61, right associativity) : py_scope.
Local Open Scope py_scope.

(** The configuration object [Settings()], as far as the program reads it. *)
Record Settings : Type := mkSettings
  { AWS_REGION : string;
    DOCUMENT_S3_BUCKET : string;
    DOCUMENT_S3_PREFIX : string;
    VECTOR_BUCKET_NAME : string;
    VECTOR_INDEX_NAME : string;
    BEDROCK_EMBEDDING_MODEL_ARN : string;
    BEDROCK_EMBEDDING_DIMENSION : Z;
    KNOWLEDGE_BASE_NAME : string;
    LOCAL_DATA_DIR : string;
    BEDROCK_ROLE_NAME : string;
    KNOWLEDGE_BASE_ID : option string;
    DATA_SOURCE_ID : option string }.

(* ================================================================== *)
(** * sync.py                                                          *)
(* ================================================================== *)

Module Sync.
Section Sync.

Variable oracle : Oracle.
Variable settings : Settings.

(** [str(uuid.uuid4())]: a token the program does not choose. *)
Variable uuid4 : list Event -> string.
(** [time.strftime("%Y-%m-%d %H:%M:%S", time.localtime())] *)
Variable strftime_now : list Event -> string.
(** How an f-string prints a float. *)
Variable float_str : Q -> string.

Definition start_sync (knowledge_base_id data_source_id : string) : M string :=
  fun w =>
    call oracle
      (StartIngestionJob knowledge_base_id data_source_id (uuid4 (history w))) w.

(** [status in {"COMPLETE", "FAILED", "STOPPED"}] *)
Definition terminal (s : IngestionStatus) : bool :=
  match s with
  | COMPLETE | FAILED | STOPPED => true
  | STARTING | IN_PROGRESS | STOPPING => false
  end.

Definition timeout_message (ingestion_job_id : string) (timeout_seconds : Q) : string :=
  "Ingestion job " ++ ingestion_job_id ++ " did not finish within "
    ++ float_str timeout_seconds ++ " seconds".

(** The [while waited <= timeout_seconds] loop of [wait_for_sync]; one unit
    of fuel pays for one evaluation of the loop condition. *)
Fixpoint wait_for_sync_loop
    (knowledge_base_id data_source_id ingestion_job_id : string)
    (poll_seconds timeout_seconds : Q)
    (on_update : option (IngestionStatus -> Job -> M unit))
    (fuel : nat) (waited : Q) : M Job :=
  match fuel with
  | O => out_of_fuel
  | S fuel' =>
      if Qle_bool waited timeout_seconds then
        job <- call oracle
                 (GetIngestionJob knowledge_base_id data_source_id ingestion_job_id) ;;
        (match on_update with
         | Some f => f (status job) job
         | None => ret tt
         end) ;;
        if terminal (status job) then ret job
        else
          sleep poll_seconds ;;
          wait_for_sync_loop knowledge_base_id data_source_id ingestion_job_id
            poll_seconds timeout_seconds on_update fuel' (waited + poll_seconds)%Q
      else
        raise (TimeoutError (timeout_message ingestion_job_id timeout_seconds))
  end.

Definition wait_for_sync
    (knowledge_base_id data_source_id ingestion_job_id : string)
    (poll_seconds timeout_seconds : Q)
    (on_update : option (IngestionStatus -> Job -> M unit))
    (fuel : nat) : M Job :=
  wait_for_sync_loop knowledge_base_id data_source_id ingestion_job_id
    poll_seconds timeout_seconds on_update fuel 0%Q.

Definition default_poll_seconds : Q := 20.
Definition default_timeout_seconds : Q := 3600.

Definition sync_data_source (knowledge_base_id data_source_id : string) (fuel : nat) : M Job :=
  ingestion_job_id <- start_sync knowledge_base_id data_source_id ;;
  wait_for_sync knowledge_base_id data_source_id ingestion_job_id
    default_poll_seconds default_timeout_seconds None fuel.

Definition _format_stat (value : option Z) : string :=
  match value with
  | None => "?"
  | Some n => str_int n
  end.

(** [stats.get(key)] where [stats = job.get("statistics", {})] *)
Definition stats_get (stats : option Statistics) (key : Statistics -> option Z) : option Z :=
  match stats with
  | Some s => key s
  | None => None
  end.

(** [status != last_status] *)
Definition status_differs (s : IngestionStatus) (last : option IngestionStatus) : bool :=
  match last with
  | None => true
  | Some l => negb (status_eqb s l)
  end.

Definition set_last_status (s : option IngestionStatus) : M unit :=
  fun w =>
    ({| history := history w; stdout := stdout w; last_status := s |}, Returned tt).

(** The nested function [on_update] of [main]. *)
Definition on_update (st : IngestionStatus) (job : Job) : M unit :=
  fun w =>
    if status_differs st (last_status w) then
      (let stats := statistics job in
       let scanned := _format_stat (stats_get stats numberOfDocumentsScanned) in
       let failed := _format_stat (stats_get stats numberOfDocumentsFailed) in
       let timestamp := strftime_now (history w) in
       print ("[" ++ timestamp ++ "] status=" ++ status_str st
                ++ " scanned=" ++ scanned ++ " failed=" ++ failed) ;;
       set_last_status (Some st)) w
    else (w, Returned tt).

(** The argument of the [SystemExit] that ends [main]. *)
Inductive SystemExit : Type :=
| ExitCode (code : Z)
| ExitMessage (msg : string).

(** The exit status of the process for a [SystemExit]: the integer, or 1
    when the argument is a message. *)
Definition exit_status (e : SystemExit) : Z :=
  match e with
  | ExitCode code => code
  | ExitMessage _ => 1%Z
  end.

(** [final_job.get("failureReasons", []) or []] *)
Definition failure_reasons (job : Job) : list string :=
  get_or_empty (failureReasons job).

(** [0 if status == "COMPLETE" and not failures else 1] *)
Definition exit_code_of (job : Job) : Z :=
  if status_eqb (status job) COMPLETE
     && match failure_reasons job with [] => true | _ => false end
  then 0%Z else 1%Z.

(** [main].  Every path of the Python function ends in [raise SystemExit]
    unless another exception escapes; the embedding returns the argument of
    that [SystemExit]. *)
Definition main (fuel : nat) : M SystemExit :=
  match truthy (KNOWLEDGE_BASE_ID settings), truthy (DATA_SOURCE_ID settings) with
  | Some knowledge_base_id, Some data_source_id =>
      print ("Starting ingestion job for knowledge base " ++ knowledge_base_id
               ++ " and data source " ++ data_source_id ++ "…") ;;
      ingestion_job_id <- start_sync knowledge_base_id data_source_id ;;
      print ("Started ingestion job " ++ ingestion_job_id
               ++ ". Polling every 20.0 seconds…") ;;
      set_last_status None ;;
      try_except
        (wait_for_sync knowledge_base_id data_source_id ingestion_job_id
           default_poll_seconds default_timeout_seconds (Some on_update) fuel)
        [ (T_TimeoutError, fun exc => print (str_exc exc) ;; ret (ExitCode 1%Z)) ]
        (fun final_job =>
           let stats := statistics final_job in
           print "Ingestion summary:" ;;
           print ("  status: " ++ status_str (status final_job)) ;;
           print ("  documents: "
                    ++ "scanned=" ++ _format_stat (stats_get stats numberOfDocumentsScanned) ++ " "
                    ++ "indexed_new=" ++ _format_stat (stats_get stats numberOfNewDocumentsIndexed) ++ " "
                    ++ "indexed_modified=" ++ _format_stat (stats_get stats numberOfModifiedDocumentsIndexed) ++ " "
                    ++ "failed=" ++ _format_stat (stats_get stats numberOfDocumentsFailed)) ;;
           ret (ExitCode (exit_code_of final_job)))
  | _, _ =>
      ret (ExitMessage
             "Knowledge base ID and data source ID must be configured in Settings before running sync.")
  end.

End Sync.
End Sync.

(* ================================================================== *)
(** * cleanup.py                                                       *)
(* ================================================================== *)

Module Cleanup.

(** The values an attribute of a [CleanupSummary] holds. *)
Inductive pyval : Type :=
| PyNone
| PyBool (b : bool)
| PyInt (n : Z).

(** [value is False] *)
Definition is_False (v : pyval) : bool :=
  match v with
  | PyBool false => true
  | _ => false
  end.

(** [value is True] *)
Definition is_True (v : pyval) : bool :=
  match v with
  | PyBool true => true
  | _ => false
  end.

Record CleanupSummary : Type := mkCleanupSummary
  { knowledge_base_deleted : option bool;
    data_source_deleted : option bool;
    vector_index_deleted : option bool;
    vector_bucket_deleted : option bool;
    documents_deleted : Z;
    document_bucket_deleted : option bool;
    iam_role_deleted : option bool }.

(** [CleanupSummary()] *)
Definition empty_summary : CleanupSummary :=
  {| knowledge_base_deleted := None;
     data_source_deleted := None;
     vector_index_deleted := None;
     vector_bucket_deleted := None;
     documents_deleted := 0%Z;
     document_bucket_deleted := None;
     iam_role_deleted := None |}.

Definition flag (o : option bool) : pyval :=
  match o with
  | None => PyNone
  | Some b => PyBool b
  end.

(** [self.__dict__.items()]: the fields in the order of their declaration. *)
Definition dict_items (self : CleanupSummary) : list (string * pyval) :=
  [ ("knowledge_base_deleted", flag (knowledge_base_deleted self));
    ("data_source_deleted", flag (data_source_deleted self));
    ("vector_index_deleted", flag (vector_index_deleted self));
    ("vector_bucket_deleted", flag (vector_bucket_deleted self));
    ("documents_deleted", PyInt (documents_deleted self));
    ("document_bucket_deleted", flag (document_bucket_deleted self));
    ("iam_role_deleted", flag (iam_role_deleted self)) ].

(** The loop of [failures] over the items, with its accumulator. *)
Fixpoint failures_loop (items : list (string * pyval)) (failure_keys : list string)
    : list string :=
  match items with
  | [] => failure_keys
  | (key, value) :: rest =>
      if String.eqb key "documents_deleted" then failures_loop rest failure_keys
      else if is_False value then failures_loop rest (failure_keys ++ [key])
      else failures_loop rest failure_keys
  end.

Definition failures (self : CleanupSummary) : list string :=
  failures_loop (dict_items self) [].

(** [getattr(summary, key)] *)
Fixpoint lookup (key : string) (items : list (string * pyval)) : option pyval :=
  match items with
  | [] => None
  | (k, v) :: rest => if String.eqb k key then Some v else lookup key rest
  end.

Record DataSourceInfo : Type := mkDataSourceInfo
  { knowledge_base_id : string;
    data_source_id : string;
    name : string;
    configuration : string;
    description : option string }.

(** [sorted(keys)] for strings. *)
Fixpoint insert_sorted (x : string) (l : list string) : list string :=
  match l with
  | [] => [x]
  | y :: rest => if String.leb x y then x :: l else y :: insert_sorted x rest
  end.

Definition sorted (l : list string) : list string :=
  fold_right insert_sorted [] l.

Section Cleanup.

Variable oracle : Oracle.
Variable settings : Settings.

Definition resolve_knowledge_base_id : M (option string) :=
  match truthy (KNOWLEDGE_BASE_ID settings) with
  | None =>
      raise (ValueError
        "Settings.KNOWLEDGE_BASE_ID が未設定です。config.py または .env に ID を記載してください。")
  | Some kb_id =>
      try_except
        (call oracle (GetKnowledgeBase kb_id))
        [ (T_ResourceNotFoundException, fun _ =>
             print "[cleanup] WARN  設定済みの Knowledge Base ID は既に削除済みのようです" ;;
             ret None) ]
        (fun _ =>
           print ("[cleanup] 設定値の Knowledge Base ID を利用します: " ++ kb_id) ;;
           ret (Some kb_id))
  end.

Definition resolve_data_source (knowledge_base_id : string) : M (option DataSourceInfo) :=
  match truthy (DATA_SOURCE_ID settings) with
  | None =>
      raise (ValueError
        "Settings.DATA_SOURCE_ID が未設定です。config.py または .env に ID を記載してください。")
  | Some data_source_id =>
      try_except
        (call oracle (GetDataSource knowledge_base_id data_source_id))
        [ (T_ResourceNotFoundException, fun _ =>
             print "[cleanup] WARN  設定済みの Data Source ID は既に削除済みのようです" ;;
             ret None) ]
        (fun data =>
           let info :=
             {| knowledge_base_id := knowledge_base_id;
                data_source_id := data_source_id;
                name := ds_name data;
                configuration := ds_dataSourceConfiguration data;
                description := ds_description data |} in
           print ("[cleanup] Data Source を特定しました: " ++ data_source_id
                    ++ " (name=" ++ ds_name data ++ ")") ;;
           ret (Some info))
  end.

Definition delete_data_source (info : DataSourceInfo) : M (option bool) :=
  print ("[cleanup] データソース削除を開始します "
           ++ "(knowledge_base_id=" ++ knowledge_base_id info
           ++ ", data_source_id=" ++ data_source_id info ++ ")") ;;
  let update_kwargs :=
    {| upd_knowledgeBaseId := knowledge_base_id info;
       upd_dataSourceId := data_source_id info;
       upd_name := name info;
       upd_dataSourceConfiguration := configuration info;
       upd_dataDeletionPolicy := "RETAIN";
       upd_description := description info |} in
  try_except
    (call oracle (UpdateDataSource update_kwargs) ;;
     print "[cleanup] dataDeletionPolicy を RETAIN に更新しました")
    [ (T_ResourceNotFoundException, fun _ =>
         print "[cleanup] WARN  データソースが見つからなかったため更新をスキップします");
      (T_ClientError, fun error =>
         let code := response_code error in
         print ("[cleanup] WARN  dataDeletionPolicy の更新に失敗しましたが削除を試みます: "
                  ++ str_code code) ;;
         print ("[cleanup] WARN  " ++ str_exc error)) ]
    (fun _ => ret tt) ;;
  try_except
    (call oracle (DeleteDataSource (knowledge_base_id info) (data_source_id info)))
    [ (T_ResourceNotFoundException, fun _ =>
         print "[cleanup] WARN  データソースは既に削除済みでした" ;;
         ret None);
      (T_ConflictException, fun _ =>
         print "[cleanup] WARN  データソースの削除処理が既に進行中です" ;;
         ret (Some true));
      (T_ClientError, fun error =>
         let code := response_code error in
         print ("[cleanup] ERROR データソース削除に失敗しました: " ++ str_code code) ;;
         print ("[cleanup] ERROR " ++ str_exc error) ;;
         ret (Some false)) ]
    (fun _ =>
       print "[cleanup] データソース削除完了" ;;
       ret (Some true)).

Definition delete_knowledge_base (knowledge_base_id : string) : M (option bool) :=
  print ("[cleanup] Knowledge Base 削除を開始します (id=" ++ knowledge_base_id ++ ")") ;;
  try_except
    (call oracle (DeleteKnowledgeBase knowledge_base_id))
    [ (T_ResourceNotFoundException, fun _ =>
         print "[cleanup] WARN  Knowledge Base は既に削除済みでした" ;;
         ret None);
      (T_ConflictException, fun _ =>
         print "[cleanup] WARN  Knowledge Base の削除処理が既に進行中です" ;;
         ret (Some true));
      (T_ClientError, fun error =>
         let code := response_code error in
         print ("[cleanup] ERROR Knowledge Base 削除に失敗しました: " ++ str_code code) ;;
         print ("[cleanup] ERROR " ++ str_exc error) ;;
         ret (Some false)) ]
    (fun _ =>
       print "[cleanup] Knowledge Base 削除完了" ;;
       ret (Some true)).

Definition delete_vector_index : M (option bool) :=
  print ("[cleanup] S3 Vectors インデックス削除を開始します "
           ++ "(bucket=" ++ VECTOR_BUCKET_NAME settings
           ++ ", index=" ++ VECTOR_INDEX_NAME settings ++ ")") ;;
  try_except
    (call oracle (DeleteIndex (VECTOR_BUCKET_NAME settings) (VECTOR_INDEX_NAME settings)))
    [ (T_NotFoundException, fun _ =>
         print "[cleanup] WARN  S3 Vectors インデックスは既に存在しませんでした" ;;
         ret None);
      (T_ConflictException, fun _ =>
         print "[cleanup] WARN  S3 Vectors インデックス削除が競合しました (再試行で解消する場合があります)" ;;
         ret (Some false));
      (T_ClientError, fun error =>
         let code := response_code error in
         print ("[cleanup] ERROR S3 Vectors インデックス削除に失敗しました: " ++ str_code code) ;;
         print ("[cleanup] ERROR " ++ str_exc error) ;;
         ret (Some false)) ]
    (fun _ =>
       print "[cleanup] S3 Vectors インデックス削除完了" ;;
       ret (Some true)).

Definition delete_vector_bucket : M (option bool) :=
  print ("[cleanup] S3 Vectors バケット削除を開始します (name="
           ++ VECTOR_BUCKET_NAME settings ++ ")") ;;
  try_except
    (call oracle (DeleteVectorBucket (VECTOR_BUCKET_NAME settings)))
    [ (T_NotFoundException, fun _ =>
         print "[cleanup] WARN  S3 Vectors バケットは既に存在しませんでした" ;;
         ret None);
      (T_ConflictException, fun _ =>
         print "[cleanup] WARN  S3 Vectors バケット削除が競合しました。残っているインデックスがないか確認してください" ;;
         ret (Some false));
      (T_ClientError, fun error =>
         let code := response_code error in
         print ("[cleanup] ERROR S3 Vectors バケット削除に失敗しました: " ++ str_code code) ;;
         print ("[cleanup] ERROR " ++ str_exc error) ;;
         ret (Some false)) ]
    (fun _ =>
       print "[cleanup] S3 Vectors バケット削除完了" ;;
       ret (Some true)).

Definition _chunk_delete (keys : list string) : M unit :=
  match keys with
  | [] => ret tt
  | _ :: _ => call oracle (DeleteObjects (DOCUMENT_S3_BUCKET settings) keys)
  end.

(** The [for page in paginator.paginate(...)] loop of
    [empty_document_bucket].  The local variable [deleted] outlives an
    exception raised inside the [try] block, so the loop hands it back next
    to its outcome. *)
Fixpoint purge_pages (pages : PageStream ObjectPage) (deleted : Z)
    : World -> World * (Z * Outcome unit) :=
  fun w =>
    let listing := ListObjectsV2 (DOCUMENT_S3_BUCKET settings) in
    match pages with
    | PagesEnd => (w, (deleted, Returned tt))
    | PagesError err =>
        (record_event (Paged listing (inl err)) w, (deleted, Raised (ClientError err)))
    | PagesCons page rest =>
        let w := record_event (Paged listing (inr page)) w in
        let keys := get_or_empty (Contents page) in
        match keys with
        | [] => purge_pages rest deleted w
        | _ :: _ =>
            match _chunk_delete keys w with
            | (w', Returned _) =>
                purge_pages rest (deleted + Z.of_nat (length keys)) w'
            | (w', Raised e) => (w', (deleted, Raised e))
            | (w', OutOfFuel) => (w', (deleted, OutOfFuel))
            end
        end
    end.

(** The [try] block of [empty_document_bucket], started with [deleted = 0]. *)
Definition purge_try : World -> World * (Z * Outcome unit) :=
  fun w =>
    match call oracle (ListObjectsV2 (DOCUMENT_S3_BUCKET settings)) w with
    | (w', Returned pages) => purge_pages pages 0%Z w'
    | (w', Raised e) => (w', (0%Z, Raised e))
    | (w', OutOfFuel) => (w', (0%Z, OutOfFuel))
    end.

Definition empty_document_bucket : M Z :=
  fun w0 =>
    let w := print_line ("[cleanup] S3 ドキュメントバケット内のオブジェクトを削除します: "
                           ++ DOCUMENT_S3_BUCKET settings) w0 in
    match purge_try w with
    | (w', (deleted, Returned _)) =>
        ((if Z.eqb deleted 0%Z
          then print "[cleanup] 削除対象のオブジェクトはありませんでした"
          else print ("[cleanup] " ++ str_int deleted ++ " 件のオブジェクトを削除しました")) ;;
         ret deleted) w'
    | (w', (deleted, Raised error)) =>
        if isinstance error T_ClientError then
          (let code := response_code error in
           if code_is code "NoSuchBucket" then
             print "[cleanup] WARN  S3 ドキュメントバケットは既に存在しませんでした" ;;
             ret 0%Z
           else
             print ("[cleanup] ERROR S3 ドキュメントバケット内の削除に失敗しました: "
                      ++ str_code code) ;;
             print ("[cleanup] ERROR " ++ str_exc error) ;;
             ret deleted) w'
        else (w', Raised error)
    | (w', (_, OutOfFuel)) => (w', OutOfFuel)
    end.

Definition delete_document_bucket : M (option bool) :=
  print ("[cleanup] S3 ドキュメントバケット削除を開始します: " ++ DOCUMENT_S3_BUCKET settings) ;;
  try_except
    (call oracle (DeleteBucket (DOCUMENT_S3_BUCKET settings)))
    [ (T_ClientError, fun error =>
         let code := response_code error in
         if code_is code "NoSuchBucket" then
           print "[cleanup] WARN  S3 ドキュメントバケットは既に存在しませんでした" ;;
           ret None
         else if code_is code "BucketNotEmpty" then
           print "[cleanup] WARN  S3 ドキュメントバケットにオブジェクトが残っているため削除できませんでした" ;;
           ret (Some false)
         else
           print ("[cleanup] ERROR S3 ドキュメントバケット削除に失敗しました: " ++ str_code code) ;;
           print ("[cleanup] ERROR " ++ str_exc error) ;;
           ret (Some false)) ]
    (fun _ =>
       print "[cleanup] S3 ドキュメントバケット削除完了" ;;
       ret (Some true)).

(** [delete_iam_role].  The inner [try] can leave the function with
    [return None]; the body of the outer [try] yields [true] when it did,
    and the [else] clause of the outer [try] runs only when it did not. *)
Definition delete_iam_role : M (option bool) :=
  let role_name := BEDROCK_ROLE_NAME settings in
  print ("[cleanup] IAMロール削除を開始します (role=" ++ role_name ++ ")") ;;
  try_except
    (returned <-
       try_except
         (policy_response <- call oracle (ListRolePolicies role_name) ;;
          for_each (get_or_empty policy_response) (fun policy_name =>
            call oracle (DeleteRolePolicy role_name policy_name) ;;
            print ("[cleanup] インラインポリシー削除: " ++ policy_name)))
         [ (T_NoSuchEntityException, fun _ =>
              print "[cleanup] WARN  IAMロールは既に削除済みでした" ;;
              ret true) ]
         (fun _ => ret false) ;;
     if returned : bool then ret true
     else
       attached_policies <- call oracle (ListAttachedRolePolicies role_name) ;;
       for_each (get_or_empty attached_policies) (fun policy =>
         call oracle (DetachRolePolicy role_name (PolicyArn policy)) ;;
         print ("[cleanup] マネージドポリシーをデタッチ: " ++ PolicyName policy)) ;;
       call oracle (DeleteRole role_name) ;;
       ret false)
    [ (T_NoSuchEntityException, fun _ =>
         print "[cleanup] WARN  IAMロールは既に削除済みでした" ;;
         ret None);
      (T_ClientError, fun error =>
         let code := response_code error in
         print ("[cleanup] ERROR IAMロール削除に失敗しました: " ++ str_code code) ;;
         print ("[cleanup] ERROR " ++ str_exc error) ;;
         ret (Some false)) ]
    (fun returned =>
       if returned : bool then ret None
       else
         print "[cleanup] IAMロール削除完了" ;;
         ret (Some true)).

Definition label_map : list (string * string) :=
  [ ("knowledge_base_deleted", "Knowledge Base");
    ("data_source_deleted", "Data Source");
    ("vector_index_deleted", "S3 Vectors インデックス");
    ("vector_bucket_deleted", "S3 Vectors バケット");
    ("document_bucket_deleted", "S3 ドキュメントバケット");
    ("iam_role_deleted", "IAMロール") ].

(** The report printed at the end of [cleanup_all].  Every key of
    [label_map] is a field of the summary, so [getattr] finds it. *)
Definition report (summary : CleanupSummary) : M unit :=
  for_each label_map (fun entry =>
    let '(key, label) := entry in
    let value := match lookup key (dict_items summary) with
                 | Some v => v
                 | None => PyNone
                 end in
    if is_True value then
      print ("[cleanup] " ++ label ++ ": 削除済み")
    else if is_False value then
      print ("[cleanup] WARN  " ++ label ++ ": 削除に失敗しました")
    else
      print ("[cleanup] " ++ label ++ ": スキップまたは不要でした")).

Definition set_knowledge_base_deleted (v : option bool) (s : CleanupSummary) : CleanupSummary :=
  {| knowledge_base_deleted := v;
     data_source_deleted := data_source_deleted s;
     vector_index_deleted := vector_index_deleted s;
     vector_bucket_deleted := vector_bucket_deleted s;
     documents_deleted := documents_deleted s;
     document_bucket_deleted := document_bucket_deleted s;
     iam_role_deleted := iam_role_deleted s |}.

Definition set_data_source_deleted (v : option bool) (s : CleanupSummary) : CleanupSummary :=
  {| knowledge_base_deleted := knowledge_base_deleted s;
     data_source_deleted := v;
     vector_index_deleted := vector_index_deleted s;
     vector_bucket_deleted := vector_bucket_deleted s;
     documents_deleted := documents_deleted s;
     document_bucket_deleted := document_bucket_deleted s;
     iam_role_deleted := iam_role_deleted s |}.

Definition set_vector_index_deleted (v : option bool) (s : CleanupSummary) : CleanupSummary :=
  {| knowledge_base_deleted := knowledge_base_deleted s;
     data_source_deleted := data_source_deleted s;
     vector_index_deleted := v;
     vector_bucket_deleted := vector_bucket_deleted s;
     documents_deleted := documents_deleted s;
     document_bucket_deleted := document_bucket_deleted s;
     iam_role_deleted := iam_role_deleted s |}.

Definition set_vector_bucket_deleted (v : option bool) (s : CleanupSummary) : CleanupSummary :=
  {| knowledge_base_deleted := knowledge_base_deleted s;
     data_source_deleted := data_source_deleted s;
     vector_index_deleted := vector_index_deleted s;
     vector_bucket_deleted := v;
     documents_deleted := documents_deleted s;
     document_bucket_deleted := document_bucket_deleted s;
     iam_role_deleted := iam_role_deleted s |}.

Definition set_documents_deleted (n : Z) (s : CleanupSummary) : CleanupSummary :=
  {| knowledge_base_deleted := knowledge_base_deleted s;
     data_source_deleted := data_source_deleted s;
     vector_index_deleted := vector_index_deleted s;
     vector_bucket_deleted := vector_bucket_deleted s;
     documents_deleted := n;
     document_bucket_deleted := document_bucket_deleted s;
     iam_role_deleted := iam_role_deleted s |}.

Definition set_document_bucket_deleted (v : option bool) (s : CleanupSummary) : CleanupSummary :=
  {| knowledge_base_deleted := knowledge_base_deleted s;
     data_source_deleted := data_source_deleted s;
     vector_index_deleted := vector_index_deleted s;
     vector_bucket_deleted := vector_bucket_deleted s;
     documents_deleted := documents_deleted s;
     document_bucket_deleted := v;
     iam_role_deleted := iam_role_deleted s |}.

Definition set_iam_role_deleted (v : option bool) (s : CleanupSummary) : CleanupSummary :=
  {| knowledge_base_deleted := knowledge_base_deleted s;
     data_source_deleted := data_source_deleted s;
     vector_index_deleted := vector_index_deleted s;
     vector_bucket_deleted := vector_bucket_deleted s;
     documents_deleted := documents_deleted s;
     document_bucket_deleted := document_bucket_deleted s;
     iam_role_deleted := v |}.

Definition cleanup_all : M CleanupSummary :=
  print "[cleanup] クリーンアップを開始します (全リソース削除モード / ドキュメント含む)" ;;
  let summary := empty_summary in
  resolved <-
    try_except resolve_knowledge_base_id
      [ (T_ValueError, fun exc =>
           print ("[cleanup] ERROR " ++ str_exc exc) ;;
           ret (None, set_knowledge_base_deleted (Some false) summary)) ]
      (fun knowledge_base_id => ret (knowledge_base_id, summary)) ;;
  let '(knowledge_base_id, summary) := resolved in
  summary <-
    match truthy knowledge_base_id with
    | Some knowledge_base_id =>
        resolved <-
          try_except (resolve_data_source knowledge_base_id)
            [ (T_ValueError, fun exc =>
                 print ("[cleanup] ERROR " ++ str_exc exc) ;;
                 ret (None, set_data_source_deleted (Some false) summary)) ]
            (fun data_source_info => ret (data_source_info, summary)) ;;
        let '(data_source_info, summary) := resolved in
        summary <-
          match data_source_info with
          | Some info =>
              r <- delete_data_source info ;;
              ret (set_data_source_deleted r summary)
          | None =>
              print "[cleanup] Data Source: 設定された ID は既に削除済みとみなします" ;;
              ret summary
          end ;;
        r <- delete_knowledge_base knowledge_base_id ;;
        ret (set_knowledge_base_deleted r summary)
    | None =>
        print "[cleanup] Knowledge Base: 設定された ID は既に削除済みとみなします" ;;
        ret summary
    end ;;
  r <- delete_vector_index ;;
  let summary := set_vector_index_deleted r summary in
  r <- delete_vector_bucket ;;
  let summary := set_vector_bucket_deleted r summary in
  n <- empty_document_bucket ;;
  let summary := set_documents_deleted n summary in
  r <- delete_document_bucket ;;
  let summary := set_document_bucket_deleted r summary in
  r <- delete_iam_role ;;
  let summary := set_iam_role_deleted r summary in
  report summary ;;
  print ("[cleanup] 削除したドキュメント数: " ++ str_int (documents_deleted summary)) ;;
  print "[cleanup] クリーンアップ完了" ;;
  ret summary.

(** [main(argv)]; the process ends with [sys.exit(main(sys.argv[1:]))]. *)
Definition main (argv : list string) : M Z :=
  summary <- cleanup_all ;;
  let failures := failures summary in
  match failures with
  | _ :: _ =>
      print ("[cleanup] WARN  一部のリソースで削除が失敗しました: "
               ++ String.concat ", " (sorted failures)) ;;
      ret 1%Z
  | [] => ret 0%Z
  end.

End Cleanup.
End Cleanup.

(* ================================================================== *)
(** * infra.py                                                         *)
(* ================================================================== *)

Module Infra.

Record KnowledgeBaseResources : Type := mkKnowledgeBaseResources
  { knowledge_base_id : string;
    data_source_id : string;
    vector_bucket_arn : string;
    vector_index_arn : string }.

(** [dataclasses.asdict(resources)] *)
Definition asdict (r : KnowledgeBaseResources) : list (string * string) :=
  [ ("knowledge_base_id", knowledge_base_id r);
    ("data_source_id", data_source_id r);
    ("vector_bucket_arn", vector_bucket_arn r);
    ("vector_index_arn", vector_index_arn r) ].

(** [s.replace("//", "/")] *)
Fixpoint replace_double_slash (s : string) : string :=
  match s with
  | String "/"%char (String "/"%char rest) => String "/"%char (replace_double_slash rest)
  | String c rest => String c (replace_double_slash rest)
  | EmptyString => EmptyString
  end.

Definition trust_policy : json :=
  JObj [ ("Version", JStr "2012-10-17");
         ("Statement", JList [ JObj [ ("Effect", JStr "Allow");
                                      ("Principal", JObj [ ("Service", JStr "bedrock.amazonaws.com") ]);
                                      ("Action", JStr "sts:AssumeRole") ] ]) ].

(** The policy dictionaries of [ensure_bedrock_kb_role]: one [Allow]
    statement with the given actions and resource. *)
Definition allow_policy (actions : list string) (resource : json) : json :=
  JObj [ ("Version", JStr "2012-10-17");
         ("Statement", JList [ JObj [ ("Effect", JStr "Allow");
                                      ("Action", JList (map JStr actions));
                                      ("Resource", resource) ] ]) ].

Section Infra.

Variable oracle : Oracle.
Variable settings : Settings.

(** [json.dumps] *)
Variable json_dumps : json -> string.
(** The local file system: [Path(d).exists()] and what [Path(d).rglob("*")]
    yields. *)
Variable path_exists : string -> bool.
Variable rglob : string -> list DirEntry.

Definition ensure_document_bucket : M string :=
  try_except
    (call oracle (HeadBucket (DOCUMENT_S3_BUCKET settings)))
    [ (T_ClientError, fun error =>
         let error_code := response_code error in
         if negb (code_is error_code "404" || code_is error_code "NoSuchBucket"
                    || code_is error_code "NotFound")
         then raise error
         else
           call oracle
             (CreateBucket (DOCUMENT_S3_BUCKET settings)
                (if String.eqb (AWS_REGION settings) "us-east-1"
                 then None else Some (AWS_REGION settings)))) ]
    (fun _ => ret tt) ;;
  ret ("arn:aws:s3:::" ++ DOCUMENT_S3_BUCKET settings).

Definition upload_sample_documents : M unit :=
  let local_dir := LOCAL_DATA_DIR settings in
  if negb (path_exists local_dir) then
    raise (FileNotFoundError ("Local data directory not found: " ++ local_dir))
  else
    for_each (rglob local_dir) (fun path =>
      if negb (entry_is_file path) then ret tt
      else
        let relative_key := entry_relative path in
        let s3_key := replace_double_slash (DOCUMENT_S3_PREFIX settings ++ relative_key) in
        call oracle (UploadFile (entry_path path) (DOCUMENT_S3_BUCKET settings) s3_key)).

Definition ensure_vector_bucket_and_index : M (string * string) :=
  vector_bucket_arn <-
    try_except
      (call oracle (GetVectorBucket (VECTOR_BUCKET_NAME settings)))
      [ (T_NotFoundException, fun _ =>
           call oracle (CreateVectorBucket (VECTOR_BUCKET_NAME settings)) ;;
           call oracle (GetVectorBucket (VECTOR_BUCKET_NAME settings))) ]
      (fun bucket_response => ret bucket_response) ;;
  index_arn <-
    try_except
      (call oracle (GetIndex (VECTOR_BUCKET_NAME settings) (VECTOR_INDEX_NAME settings)))
      [ (T_NotFoundException, fun _ =>
           call oracle
             (CreateIndex (VECTOR_BUCKET_NAME settings) (VECTOR_INDEX_NAME settings)
                "float32" (BEDROCK_EMBEDDING_DIMENSION settings) "cosine") ;;
           call oracle (GetIndex (VECTOR_BUCKET_NAME settings) (VECTOR_INDEX_NAME settings))) ]
      (fun index_response => ret index_response) ;;
  ret (vector_bucket_arn, index_arn).

Definition ensure_bedrock_kb_role
    (document_bucket_arn vector_bucket_arn vector_index_arn : string) : M string :=
  let role_name := BEDROCK_ROLE_NAME settings in
  role_arn <-
    try_except
      (call oracle (GetRole role_name))
      [ (T_NoSuchEntityException, fun _ =>
           call oracle
             (CreateRole role_name (json_dumps trust_policy)
                "Role for Bedrock Knowledge Base to access S3 and models")) ]
      (fun response => ret response) ;;
  let s3_policy :=
    allow_policy ["s3:GetObject"; "s3:ListBucket"]
      (JList [JStr document_bucket_arn; JStr (document_bucket_arn ++ "/*")]) in
  call oracle (PutRolePolicy role_name "S3Access" (json_dumps s3_policy)) ;;
  let s3vectors_resources :=
    app [vector_bucket_arn; vector_bucket_arn ++ "/*"]
      (if String.eqb vector_index_arn "" then []
       else [vector_index_arn; vector_bucket_arn ++ "/index/*"]) in
  let s3vectors_policy :=
    allow_policy ["s3vectors:*"] (JList (map JStr s3vectors_resources)) in
  call oracle (PutRolePolicy role_name "S3VectorsAccess" (json_dumps s3vectors_policy)) ;;
  let bedrock_policy := allow_policy ["bedrock:InvokeModel"] (JStr "*") in
  call oracle (PutRolePolicy role_name "BedrockModelAccess" (json_dumps bedrock_policy)) ;;
  ret role_arn.

(** The nested [for] loops over the pages of a listing and the summaries
    of a page: the identifier of the first summary with the given name. *)
Fixpoint find_by_name (listing : Call (PageStream (list Summary))) (wanted : string)
    (pages : PageStream (list Summary)) : M (option string) :=
  fun w =>
    match pages with
    | PagesEnd => (w, Returned None)
    | PagesError err =>
        (record_event (Paged listing (inl err)) w, Raised (ClientError err))
    | PagesCons page rest =>
        let w := record_event (Paged listing (inr page)) w in
        match find (fun s => match summary_name s with
                             | Some n => String.eqb n wanted
                             | None => false
                             end) page with
        | Some s => (w, Returned (Some (summary_id s)))
        | None => find_by_name listing wanted rest w
        end
    end.

Definition get_or_create_knowledge_base
    (vector_bucket_arn vector_index_arn role_arn : string) : M string :=
  pages <- call oracle ListKnowledgeBases ;;
  found <- find_by_name ListKnowledgeBases (KNOWLEDGE_BASE_NAME settings) pages ;;
  match found with
  | Some id => ret id
  | None =>
      call oracle
        (CreateKnowledgeBase (KNOWLEDGE_BASE_NAME settings) role_arn
           (BEDROCK_EMBEDDING_MODEL_ARN settings) vector_bucket_arn vector_index_arn)
  end.

Definition get_or_create_data_source
    (knowledge_base_id document_bucket_arn : string) : M string :=
  pages <- call oracle (ListDataSources knowledge_base_id) ;;
  found <- find_by_name (ListDataSources knowledge_base_id) "s3-sample-documents" pages ;;
  match found with
  | Some id => ret id
  | None =>
      call oracle
        (CreateDataSource knowledge_base_id "s3-sample-documents"
           "Sample documents uploaded from data/input"
           document_bucket_arn (DOCUMENT_S3_PREFIX settings))
  end.

Definition _provision_document_bucket : M string :=
  try_except ensure_document_bucket
    [ (T_Exception, fun exc =>
         print ("[FAIL] document bucket: " ++ str_exc exc) ;;
         raise exc) ]
    (fun document_bucket_arn =>
       print "[SUCCESS] document bucket" ;;
       ret document_bucket_arn).

Definition _provision_sample_documents : M unit :=
  try_except upload_sample_documents
    [ (T_Exception, fun exc =>
         print ("[FAIL] sample document upload: " ++ str_exc exc) ;;
         raise exc) ]
    (fun _ => print "[SUCCESS] sample document upload").

Definition _provision_bedrock_kb_role
    (document_bucket_arn vector_bucket_arn vector_index_arn : string) : M string :=
  try_except
    (ensure_bedrock_kb_role document_bucket_arn vector_bucket_arn vector_index_arn)
    [ (T_Exception, fun exc =>
         print ("[FAIL] Bedrock knowledge base role: " ++ str_exc exc) ;;
         raise exc) ]
    (fun role_arn =>
       print "[SUCCESS] Bedrock knowledge base role" ;;
       ret role_arn).

Definition _provision_vector_bucket_and_index : M (string * string) :=
  try_except ensure_vector_bucket_and_index
    [ (T_Exception, fun exc =>
         print ("[FAIL] S3 Vectors bucket and index: " ++ str_exc exc) ;;
         raise exc) ]
    (fun arns =>
       print "[SUCCESS] S3 Vectors bucket and index" ;;
       ret arns).

Definition _provision_knowledge_base
    (vector_bucket_arn vector_index_arn role_arn : string) : M string :=
  try_except
    (get_or_create_knowledge_base vector_bucket_arn vector_index_arn role_arn)
    [ (T_Exception, fun exc =>
         print ("[FAIL] knowledge base: " ++ str_exc exc) ;;
         raise exc) ]
    (fun knowledge_base_id =>
       print "[SUCCESS] knowledge base" ;;
       ret knowledge_base_id).

Definition _provision_data_source
    (knowledge_base_id document_bucket_arn : string) : M string :=
  try_except
    (get_or_create_data_source knowledge_base_id document_bucket_arn)
    [ (T_Exception, fun exc =>
         print ("[FAIL] data source: " ++ str_exc exc) ;;
         raise exc) ]
    (fun data_source_id =>
       print "[SUCCESS] data source" ;;
       ret data_source_id).

Definition provision_all : M KnowledgeBaseResources :=
  document_bucket_arn <- _provision_document_bucket ;;
  _provision_sample_documents ;;
  arns <- _provision_vector_bucket_and_index ;;
  let '(vector_bucket_arn, vector_index_arn) := arns in
  role_arn <- _provision_bedrock_kb_role document_bucket_arn vector_bucket_arn vector_index_arn ;;
  knowledge_base_id <- _provision_knowledge_base vector_bucket_arn vector_index_arn role_arn ;;
  data_source_id <- _provision_data_source knowledge_base_id document_bucket_arn ;;
  ret {| knowledge_base_id := knowledge_base_id;
         data_source_id := data_source_id;
         vector_bucket_arn := vector_bucket_arn;
         vector_index_arn := vector_index_arn |}.

End Infra.
End Infra.

(* ================================================================== *)
(** * Observations on histories                                        *)
(* ================================================================== *)

Module Trace.

(** A [get_ingestion_job] request. *)
Definition is_poll (ev : Event) : bool :=
  match ev with
  | Called (GetIngestionJob _ _ _) _ => true
  | _ => false
  end.

(** A [stop_ingestion_job] request. *)
Definition is_stop_request (ev : Event) : bool :=
  match ev with
  | Called (StopIngestionJob _ _ _) _ => true
  | _ => false
  end.

Definition is_sleep (ev : Event) : bool :=
  match ev with
  | Slept _ => true
  | _ => false
  end.

Definition count (p : Event -> bool) (evs : list Event) : nat :=
  length (filter p evs).

(** The status of the job a [get_ingestion_job] request fetched. *)
Definition fetched_status (ev : Event) : option IngestionStatus :=
  match ev with
  | @Called R c r =>
      match c in Call R0 return ServiceError + R0 -> option IngestionStatus with
      | GetIngestionJob _ _ _ =>
          fun r => match r with inr job => Some (status job) | inl _ => None end
      | _ => fun _ => None
      end r
  | _ => None
  end.

(** The statuses fetched, in the order of the polls. *)
Fixpoint fetched (evs : list Event) : list IngestionStatus :=
  match evs with
  | [] => []
  | ev :: rest =>
      match fetched_status ev with
      | Some s => s :: fetched rest
      | None => fetched rest
      end
  end.

(** How many statuses of the list differ from the one before them, [last]
    being the one before the first. *)
Fixpoint status_changes (last : option IngestionStatus) (l : list IngestionStatus) : nat :=
  match l with
  | [] => 0
  | s :: rest =>
      (if Sync.status_differs s last then 1 else 0) + status_changes (Some s) rest
  end.

(** The keys of a [delete_objects] request, whatever its answer. *)
Definition delete_request (ev : Event) : option (list string) :=
  match ev with
  | Called (DeleteObjects _ keys) _ => Some keys
  | _ => None
  end.

(** The number of keys of a [delete_objects] request the service accepted. *)
Definition accepted_keys (ev : Event) : Z :=
  match ev with
  | Called (DeleteObjects _ keys) (inr _) => Z.of_nat (length keys)
  | _ => 0%Z
  end.

(** The number of keys submitted for deletion in requests that succeeded. *)
Definition submitted (evs : list Event) : Z :=
  fold_right (fun ev n => (accepted_keys ev + n)%Z) 0%Z evs.

(** The error an exchange ended in. *)
Definition event_error (ev : Event) : option ServiceError :=
  match ev with
  | Called _ (inl err) => Some err
  | Paged _ (inl err) => Some err
  | _ => None
  end.

(** The last exchange of the history failed with the error code
    [NoSuchBucket]. *)
Definition ends_with_no_such_bucket (evs : list Event) : bool :=
  match last (map event_error evs) None with
  | Some err => code_is (error_code err) "NoSuchBucket"
  | None => false
  end.

(** The keys of a page of [list_objects_v2] the paginator delivered. *)
Definition delivered_keys (ev : Event) : option (list string) :=
  match ev with
  | @Paged P c (inr page) =>
      match c in Call R return R -> option (list string) with
      | ListObjectsV2 _ =>
          fun pages =>
            match pages with
            | PagesCons pg _ => Some (get_or_empty (Contents pg))
            | _ => None
            end
      | _ => fun _ => None
      end (PagesCons page PagesEnd)
  | _ => None
  end.

(** [filter_map f l]: the values [f] gives on the elements of [l]. *)
Fixpoint filter_map {A B} (f : A -> option B) (l : list A) : list B :=
  match l with
  | [] => []
  | x :: rest =>
      match f x with
      | Some y => y :: filter_map f rest
      | None => filter_map f rest
      end
  end.

(** A callback that returns normally and makes no request of its own. *)
Definition quiet (on_update : option (IngestionStatus -> Job -> M unit)) : Prop :=
  match on_update with
  | None => True
  | Some f =>
      forall st job w, exists w', f st job w = (w', Returned tt) /\ history w' = history w
  end.

(** The job never leaves the non-terminal statuses, whenever it is polled. *)
Definition never_terminal (oracle : Oracle) (kb ds jid : string) : Prop :=
  forall h, exists job,
    oracle Job h (GetIngestionJob kb ds jid) = inr job /\
    Sync.terminal (status job) = false.

(** A computation that returns a value in every world. *)
Definition always_returns {A} (m : M A) : Prop :=
  forall w, exists w' a, m w = (w', Returned a).

(** A computation that, in every world, returns a value or raises the
    [ClientError] of an error response. *)
Definition returns_or_client_error {A} (m : M A) : Prop :=
  forall w, exists w',
    (exists a, m w = (w', Returned a)) \/
    (exists err, m w = (w', Raised (ClientError err))).

(** The handler a list of [except] clauses selects for a [ClientError], if
    there is one, always returns. *)
Definition handles_client_errors {B} (handlers : list (exc_type * (exn -> M B))) : Prop :=
  forall err,
    match find (fun h => isinstance (ClientError err) (fst h)) handlers with
    | Some (_, h) => always_returns (h (ClientError err))
    | None => False
    end.

(** The items [failures] counts. *)
Definition counted (item : string * Cleanup.pyval) : bool :=
  negb (String.eqb (fst item) "documents_deleted") && Cleanup.is_False (snd item).

(** The lookups of the teardown are answered with the resource or with
    "not found". *)
Definition lookups_answer (oracle : Oracle) : Prop :=
  (forall h kb err,
      oracle unit h (GetKnowledgeBase kb) = inl err ->
      error_class err = ResourceNotFoundException) /\
  (forall h kb ds err,
      oracle DataSourceData h (GetDataSource kb ds) = inl err ->
      error_class err = ResourceNotFoundException).

(** The world after the line a provisioning step prints when it succeeds,
    and after the line it prints when it fails with [e]. *)
Definition succeeded (label : string) (w : World) : World :=
  print_line ("[SUCCESS] " ++ label) w.

Definition failed (label : string) (e : exn) (w : World) : World :=
  print_line ("[FAIL] " ++ label ++ ": " ++ str_exc e) w.

Definition nonempty {A} (l : list A) : bool :=
  match l with
  | [] => false
  | _ :: _ => true
  end.

End Trace.

(* ================================================================== *)
(** * Concrete services                                                *)
(* ================================================================== *)

Module Fixtures.

Definition settings : Settings :=
  {| AWS_REGION := "ap-northeast-1";
     DOCUMENT_S3_BUCKET := "docs";
     DOCUMENT_S3_PREFIX := "knowledge-base/documents/";
     VECTOR_BUCKET_NAME := "vectors";
     VECTOR_INDEX_NAME := "index";
     BEDROCK_EMBEDDING_MODEL_ARN :=
       "arn:aws:bedrock:us-east-1::foundation-model/amazon.titan-embed-text-v2:0";
     BEDROCK_EMBEDDING_DIMENSION := 1024;
     KNOWLEDGE_BASE_NAME := "s3-vectors-rag-hands-on";
     LOCAL_DATA_DIR := "data/input";
     BEDROCK_ROLE_NAME := "BedrockKnowledgeBaseRole";
     KNOWLEDGE_BASE_ID := Some "KB1";
     DATA_SOURCE_ID := Some "DS1" |}.

Definition uuid4 (h : list Event) : string := "00000000-0000-4000-8000-000000000000".
Definition strftime_now (h : list Event) : string := "2025-01-01 00:00:00".
Definition float_str (q : Q) : string :=
  str_int (Qnum q / Z.pos (Qden q)) ++ ".0".

Definition error (cls : client_exception) (code : string) : ServiceError :=
  {| error_class := cls; error_code := Some code; error_str := code |}.

Definition job_with (s : IngestionStatus) : Job :=
  {| status := s; statistics := None; failureReasons := None |}.

(** A job that answers the polls with the statuses of [script], one after
    the other, and with [after] once the script is exhausted. *)
Definition scripted_job (script : list IngestionStatus) (after : IngestionStatus) : Oracle :=
  fun R h c =>
    match c in Call R0 return ServiceError + R0 with
    | StartIngestionJob _ _ _ => inr "JOB1"
    | GetIngestionJob _ _ _ =>
        inr (job_with (nth (Trace.count Trace.is_poll h) script after))
    | _ => inl (error OtherClientError "AccessDeniedException")
    end.

Definition five_polls : Oracle :=
  scripted_job [STARTING; STARTING; IN_PROGRESS; IN_PROGRESS; COMPLETE] COMPLETE.

(** A job that stays in progress for ever. *)
Definition endless_job : Oracle :=
  fun R h c =>
    match c in Call R0 return ServiceError + R0 with
    | StartIngestionJob _ _ _ => inr "JOB1"
    | GetIngestionJob _ _ _ => inr (job_with IN_PROGRESS)
    | _ => inl (error OtherClientError "AccessDeniedException")
    end.

(** A job that is complete at the first poll, with the given failure
    reasons. *)
Definition finished_job (s : IngestionStatus) (reasons : option (list string)) : Oracle :=
  fun R h c =>
    match c in Call R0 return ServiceError + R0 with
    | StartIngestionJob _ _ _ => inr "JOB1"
    | GetIngestionJob _ _ _ =>
        inr {| status := s; statistics := None; failureReasons := reasons |}
    | _ => inl (error OtherClientError "AccessDeniedException")
    end.

(** A callback that prints the status it is given. *)
Definition observer (st : IngestionStatus) (job : Job) : M unit :=
  print (status_str st).

(** Services in which every resource exists and every request succeeds.
    The document bucket lists three keys over three pages, the second page
    being empty. *)
Definition healthy : Oracle :=
  fun R h c =>
    match c in Call R0 return ServiceError + R0 with
    | GetKnowledgeBase _ => inr tt
    | DeleteKnowledgeBase _ => inr tt
    | ListKnowledgeBases => inr (PagesCons [] PagesEnd)
    | CreateKnowledgeBase _ _ _ _ _ => inr "KB1"
    | GetDataSource _ _ =>
        inr {| ds_name := "s3-sample-documents";
               ds_dataSourceConfiguration := "S3";
               ds_description := None |}
    | UpdateDataSource _ => inr tt
    | DeleteDataSource _ _ => inr tt
    | ListDataSources _ => inr (PagesCons [] PagesEnd)
    | CreateDataSource _ _ _ _ _ => inr "DS1"
    | StartIngestionJob _ _ _ => inr "JOB1"
    | GetIngestionJob _ _ _ => inr (job_with COMPLETE)
    | StopIngestionJob _ _ _ => inr tt
    | GetVectorBucket _ => inr "arn:aws:s3vectors:::bucket/vectors"
    | CreateVectorBucket _ => inr tt
    | DeleteVectorBucket _ => inr tt
    | GetIndex _ _ => inr "arn:aws:s3vectors:::bucket/vectors/index/index"
    | CreateIndex _ _ _ _ _ => inr tt
    | DeleteIndex _ _ => inr tt
    | HeadBucket _ => inr tt
    | CreateBucket _ _ => inr tt
    | UploadFile _ _ _ => inr tt
    | ListObjectsV2 _ =>
        inr (PagesCons {| Contents := Some ["a.md"; "b.md"] |}
               (PagesCons {| Contents := None |}
                  (PagesCons {| Contents := Some ["c.md"] |} PagesEnd)))
    | DeleteObjects _ _ => inr tt
    | DeleteBucket _ => inr tt
    | GetRole _ => inr "arn:aws:iam:::role/BedrockKnowledgeBaseRole"
    | CreateRole _ _ _ => inr "arn:aws:iam:::role/BedrockKnowledgeBaseRole"
    | PutRolePolicy _ _ _ => inr tt
    | ListRolePolicies _ => inr (Some ["S3Access"; "S3VectorsAccess"; "BedrockModelAccess"])
    | DeleteRolePolicy _ _ => inr tt
    | ListAttachedRolePolicies _ => inr (Some [])
    | DetachRolePolicy _ _ => inr tt
    | DeleteRole _ => inr tt
    end.

(** [get_knowledge_base] is refused for lack of permission. *)
Definition resolve_denied : Oracle :=
  fun R h c =>
    match c in Call R0 return ServiceError + R0 with
    | GetKnowledgeBase _ => inl (error OtherClientError "AccessDeniedException")
    | c' => healthy _ h c'
    end.

(** The three deletions of the teardown answer that an operation is
    already in progress. *)
Definition conflicts : Oracle :=
  fun R h c =>
    match c in Call R0 return ServiceError + R0 with
    | DeleteDataSource _ _ => inl (error ConflictException "ConflictException")
    | DeleteKnowledgeBase _ => inl (error ConflictException "ConflictException")
    | DeleteIndex _ _ => inl (error ConflictException "ConflictException")
    | c' => healthy _ h c'
    end.

(** The document bucket disappears after its first page has been purged. *)
Definition bucket_vanishes : Oracle :=
  fun R h c =>
    match c in Call R0 return ServiceError + R0 with
    | ListObjectsV2 _ =>
        inr (PagesCons {| Contents := Some ["a.md"; "b.md"] |}
               (PagesError (error OtherClientError "NoSuchBucket")))
    | c' => healthy _ h c'
    end.

(** The document bucket cannot be deleted. *)
Definition bucket_not_empty : Oracle :=
  fun R h c =>
    match c in Call R0 return ServiceError + R0 with
    | DeleteBucket _ => inl (error OtherClientError "BucketNotEmpty")
    | c' => healthy _ h c'
    end.

Definition json_dumps (j : json) : string := "{}".
Definition path_exists (d : string) : bool := true.
Definition rglob (d : string) : list DirEntry :=
  [ {| entry_path := "data/input/guide"; entry_is_file := false; entry_relative := "guide" |};
    {| entry_path := "data/input/guide/a.md"; entry_is_file := true;
       entry_relative := "guide/a.md" |} ].

(** [get_data_source] is refused for lack of permission. *)
Definition source_denied : Oracle :=
  fun R h c =>
    match c in Call R0 return ServiceError + R0 with
    | GetDataSource _ _ => inl (error OtherClientError "AccessDeniedException")
    | c' => healthy _ h c'
    end.

(** The requests that open the six provisioning steps. *)
Inductive opening : Type :=
| OpenDocumentBucket
| OpenUpload
| OpenVectors
| OpenRole
| OpenKnowledgeBase
| OpenDataSource.

Definition opens (o : opening) {R} (c : Call R) : bool :=
  match o, c with
  | OpenDocumentBucket, HeadBucket _ => true
  | OpenUpload, UploadFile _ _ _ => true
  | OpenVectors, GetVectorBucket _ => true
  | OpenRole, GetRole _ => true
  | OpenKnowledgeBase, ListKnowledgeBases => true
  | OpenDataSource, ListDataSources _ => true
  | _, _ => false
  end.

Definition denied : ServiceError := error OtherClientError "AccessDeniedException".

(** Services that refuse the request opening the given step and are
    healthy otherwise. *)
Definition deny (o : opening) : Oracle :=
  fun R h c => if opens o c then inl denied else healthy R h c.

(** A provisioning run against services that refuse the opening request
    of one step. *)
Definition refused_run (o : opening) : World * Outcome Infra.KnowledgeBaseResources :=
  Infra.provision_all (deny o) settings json_dumps path_exists rglob initial_world.

End Fixtures.

(* ================================================================== *)
(** * More observations on histories                                   *)
(* ================================================================== *)

Module Observe.

(** ** Kinds of exchanges *)

Definition is_get_knowledge_base (ev : Event) : bool :=
  match ev with
  | Called (GetKnowledgeBase _) _ => true
  | _ => false
  end.

Definition is_get_data_source (ev : Event) : bool :=
  match ev with
  | Called (GetDataSource _ _) _ => true
  | _ => false
  end.

(** [update_data_source] or [delete_data_source]. *)
Definition is_data_source_change (ev : Event) : bool :=
  match ev with
  | Called (UpdateDataSource _) _ => true
  | Called (DeleteDataSource _ _) _ => true
  | _ => false
  end.

Definition is_delete_knowledge_base (ev : Event) : bool :=
  match ev with
  | Called (DeleteKnowledgeBase _) _ => true
  | _ => false
  end.

Definition is_delete_index (ev : Event) : bool :=
  match ev with
  | Called (DeleteIndex _ _) _ => true
  | _ => false
  end.

Definition is_delete_vector_bucket (ev : Event) : bool :=
  match ev with
  | Called (DeleteVectorBucket _) _ => true
  | _ => false
  end.

(** The listing of the document bucket, one of its pages, or a
    [delete_objects] request. *)
Definition is_document_exchange (ev : Event) : bool :=
  match ev with
  | Called (ListObjectsV2 _) _ => true
  | Called (DeleteObjects _ _) _ => true
  | @Paged P c _ =>
      match c with
      | ListObjectsV2 _ => true
      | _ => false
      end
  | _ => false
  end.

Definition is_delete_bucket (ev : Event) : bool :=
  match ev with
  | Called (DeleteBucket _) _ => true
  | _ => false
  end.

(** One of the five IAM requests of [delete_iam_role]. *)
Definition is_role_request (ev : Event) : bool :=
  match ev with
  | Called (ListRolePolicies _) _ => true
  | Called (DeleteRolePolicy _ _) _ => true
  | Called (ListAttachedRolePolicies _) _ => true
  | Called (DetachRolePolicy _ _) _ => true
  | Called (DeleteRole _) _ => true
  | _ => false
  end.

(** A request to the knowledge-base service made by the teardown. *)
Definition is_knowledge_base_service (ev : Event) : bool :=
  is_get_knowledge_base ev || is_get_data_source ev
  || is_data_source_change ev || is_delete_knowledge_base ev.

(** A request that creates a resource. *)
Definition is_create (ev : Event) : bool :=
  match ev with
  | Called (CreateBucket _ _) _ => true
  | Called (CreateVectorBucket _) _ => true
  | Called (CreateIndex _ _ _ _ _) _ => true
  | Called (CreateRole _ _ _) _ => true
  | Called (CreateKnowledgeBase _ _ _ _ _) _ => true
  | Called (CreateDataSource _ _ _ _ _) _ => true
  | _ => false
  end.

Definition is_put_role_policy (ev : Event) : bool :=
  match ev with
  | Called (PutRolePolicy _ _ _) _ => true
  | _ => false
  end.

(** The name of the policy a [put_role_policy] request writes. *)
Definition policy_written (ev : Event) : option string :=
  match ev with
  | Called (PutRolePolicy _ name _) _ => Some name
  | _ => None
  end.

(** The file and the key of an [upload_file] request. *)
Definition uploaded (ev : Event) : option (string * string) :=
  match ev with
  | Called (UploadFile path _ key) _ => Some (path, key)
  | _ => None
  end.

(** ** Shapes of histories *)

(** Every exchange of the segment is of kind [p]. *)
Definition all (p : Event -> bool) (segment : list Event) : Prop :=
  forallb p segment = true.

(** The segment is one exchange, of kind [p]. *)
Definition one (p : Event -> bool) (segment : list Event) : Prop :=
  exists ev, segment = [ev] /\ p ev = true.

(** The history is a sequence of segments, one for each shape of the list,
    in the order of the list. *)
Fixpoint phases (shapes : list (list Event -> Prop)) (evs : list Event) : Prop :=
  match shapes with
  | [] => evs = []
  | shape :: rest =>
      exists segment later,
        evs = (segment ++ later)%list /\ shape segment /\ phases rest later
  end.

(** Whatever its outcome, the computation only adds exchanges of kind [p]
    to the history. *)
Definition footprint {A} (p : Event -> bool) (m : M A) : Prop :=
  forall w, exists evs,
    history (fst (m w)) = (history w ++ evs)%list /\ forallb p evs = true.

(** Whatever its outcome, the computation leaves the lines printed as they
    were. *)
Definition silent {A} (m : M A) : Prop :=
  forall w, stdout (fst (m w)) = stdout w.

(** ** Services *)

(** Every resource of the teardown is reported absent. *)
Definition nothing_exists (oracle : Oracle) (settings : Settings) : Prop :=
  (forall h kb, exists err,
      oracle unit h (GetKnowledgeBase kb) = inl err /\
      error_class err = ResourceNotFoundException) /\
  (forall h, exists err,
      oracle unit h (DeleteIndex (VECTOR_BUCKET_NAME settings) (VECTOR_INDEX_NAME settings))
        = inl err /\
      error_class err = NotFoundException) /\
  (forall h, exists err,
      oracle unit h (DeleteVectorBucket (VECTOR_BUCKET_NAME settings)) = inl err /\
      error_class err = NotFoundException) /\
  (forall h, exists err,
      oracle (PageStream ObjectPage) h (ListObjectsV2 (DOCUMENT_S3_BUCKET settings))
        = inr (PagesError err) /\
      code_is (error_code err) "NoSuchBucket" = true) /\
  (forall h, exists err,
      oracle unit h (DeleteBucket (DOCUMENT_S3_BUCKET settings)) = inl err /\
      code_is (error_code err) "NoSuchBucket" = true) /\
  (forall h, exists err,
      oracle (option (list string)) h (ListRolePolicies (BEDROCK_ROLE_NAME settings))
        = inl err /\
      error_class err = NoSuchEntityException).

(** The steps of [cleanup_all] that follow the knowledge base: from the
    deletion of the vector index to the report. *)
Definition later_steps (oracle : Oracle) (settings : Settings)
    (summary : Cleanup.CleanupSummary) : M Cleanup.CleanupSummary :=
  bind (Cleanup.delete_vector_index oracle settings) (fun r =>
  let summary := Cleanup.set_vector_index_deleted r summary in
  bind (Cleanup.delete_vector_bucket oracle settings) (fun r =>
  let summary := Cleanup.set_vector_bucket_deleted r summary in
  bind (Cleanup.empty_document_bucket oracle settings) (fun n =>
  let summary := Cleanup.set_documents_deleted n summary in
  bind (Cleanup.delete_document_bucket oracle settings) (fun r =>
  let summary := Cleanup.set_document_bucket_deleted r summary in
  bind (Cleanup.delete_iam_role oracle settings) (fun r =>
  let summary := Cleanup.set_iam_role_deleted r summary in
  bind (Cleanup.report summary) (fun _ =>
  bind (print ("[cleanup] 削除したドキュメント数: "
                 ++ str_int (Cleanup.documents_deleted summary))) (fun _ =>
  bind (print "[cleanup] クリーンアップ完了") (fun _ =>
  ret summary)))))))).

(** The steps of [cleanup_all] that come before: the two lookups and the
    deletions of the data source and of the knowledge base.
    [cleanup_all] is these steps followed by [later_steps]. *)
Definition knowledge_base_steps (oracle : Oracle) (settings : Settings)
    : M Cleanup.CleanupSummary :=
  print "[cleanup] クリーンアップを開始します (全リソース削除モード / ドキュメント含む)" ;;
  let summary := Cleanup.empty_summary in
  resolved <-
    try_except (Cleanup.resolve_knowledge_base_id oracle settings)
      [ (T_ValueError, fun exc =>
           print ("[cleanup] ERROR " ++ str_exc exc) ;;
           ret (None, Cleanup.set_knowledge_base_deleted (Some false) summary)) ]
      (fun knowledge_base_id => ret (knowledge_base_id, summary)) ;;
  let '(knowledge_base_id, summary) := resolved in
  match truthy knowledge_base_id with
  | Some knowledge_base_id =>
      resolved <-
        try_except (Cleanup.resolve_data_source oracle settings knowledge_base_id)
          [ (T_ValueError, fun exc =>
               print ("[cleanup] ERROR " ++ str_exc exc) ;;
               ret (None, Cleanup.set_data_source_deleted (Some false) summary)) ]
          (fun data_source_info => ret (data_source_info, summary)) ;;
      let '(data_source_info, summary) := resolved in
      summary <-
        match data_source_info with
        | Some info =>
            r <- Cleanup.delete_data_source oracle info ;;
            ret (Cleanup.set_data_source_deleted r summary)
        | None =>
            print "[cleanup] Data Source: 設定された ID は既に削除済みとみなします" ;;
            ret summary
        end ;;
      r <- Cleanup.delete_knowledge_base oracle knowledge_base_id ;;
      ret (Cleanup.set_knowledge_base_deleted r summary)
  | None =>
      print "[cleanup] Knowledge Base: 設定された ID は既に削除済みとみなします" ;;
      ret summary
  end.

(** The exchanges that are not of kind [p]. *)
Definition outside (p : Event -> bool) (ev : Event) : bool := negb (p ev).

(** The shapes of the steps of [later_steps], in their order. *)
Definition later_shapes : list (list Event -> Prop) :=
  [ one is_delete_index;
    one is_delete_vector_bucket;
    all is_document_exchange;
    one is_delete_bucket;
    all is_role_request ].

(** ** Provisioning *)

(** The error codes [ensure_document_bucket] reads as a missing bucket. *)
Definition bucket_is_missing (err : ServiceError) : bool :=
  code_is (error_code err) "404" || code_is (error_code err) "NoSuchBucket"
  || code_is (error_code err) "NotFound".

(** The summary carries the wanted name. *)
Definition named (wanted : string) (s : Summary) : bool :=
  match summary_name s with
  | Some n => String.eqb n wanted
  | None => false
  end.

(** A listing that delivers the given pages and then goes on as [rest]. *)
Fixpoint pages_then {P} (pages : list P) (rest : PageStream P) : PageStream P :=
  match pages with
  | [] => rest
  | page :: pages => PagesCons page (pages_then pages rest)
  end.

(** The pages a paginator delivered, as exchanges. *)
Definition delivered {P} (listing : Call (PageStream P)) (pages : list P) : list Event :=
  map (fun page => Paged listing (inr page)) pages.

(** The upload of a file of the local directory, when it succeeds. *)
Definition upload_of (settings : Settings) (entry : DirEntry) : Event :=
  Called (UploadFile (entry_path entry) (DOCUMENT_S3_BUCKET settings)
            (Infra.replace_double_slash
               (DOCUMENT_S3_PREFIX settings ++ entry_relative entry)))
         (inr tt).

Definition is_create_vector_bucket (ev : Event) : bool :=
  match ev with
  | Called (CreateVectorBucket _) _ => true
  | _ => false
  end.

Definition is_create_index (ev : Event) : bool :=
  match ev with
  | Called (CreateIndex _ _ _ _ _) _ => true
  | _ => false
  end.

(** The string has two slashes in a row. *)
Fixpoint has_double_slash (s : string) : bool :=
  match s with
  | String "/"%char (String "/"%char _) => true
  | String _ rest => has_double_slash rest
  | EmptyString => false
  end.

(** The listing always shows, on some page, a summary with the wanted name,
    and the first such summary has the identifier [id]. *)
Definition lists_name (oracle : Oracle) (listing : Call (PageStream (list Summary)))
    (wanted id : string) : Prop :=
  forall h, exists before page rest s,
    oracle _ h listing = inr (pages_then before (PagesCons page rest)) /\
    Forall (fun p => find (named wanted) p = None) before /\
    find (named wanted) page = Some s /\
    summary_id s = id.

(** Every resource of the provisioning exists already: the buckets, the
    index and the role answer, the local directory is there, uploads and
    policy updates are accepted, and the listings show the knowledge base
    and the data source. *)
Definition everything_exists (oracle : Oracle) (settings : Settings)
    (path_exists : string -> bool) (vb vi role kb ds : string) : Prop :=
  (forall h, oracle unit h (HeadBucket (DOCUMENT_S3_BUCKET settings)) = inr tt) /\
  path_exists (LOCAL_DATA_DIR settings) = true /\
  (forall h p k, oracle unit h (UploadFile p (DOCUMENT_S3_BUCKET settings) k) = inr tt) /\
  (forall h, oracle string h (GetVectorBucket (VECTOR_BUCKET_NAME settings)) = inr vb) /\
  (forall h, oracle string h
               (GetIndex (VECTOR_BUCKET_NAME settings) (VECTOR_INDEX_NAME settings))
             = inr vi) /\
  (forall h, oracle string h (GetRole (BEDROCK_ROLE_NAME settings)) = inr role) /\
  (forall h n d, oracle unit h (PutRolePolicy (BEDROCK_ROLE_NAME settings) n d) = inr tt) /\
  lists_name oracle ListKnowledgeBases (KNOWLEDGE_BASE_NAME settings) kb /\
  lists_name oracle (ListDataSources kb) "s3-sample-documents" ds.

End Observe.

(* ================================================================== *)
(** * More services and configurations                                 *)
(* ================================================================== *)

Module Scenarios.

(** A configuration whose knowledge-base ID is the empty string. *)
Definition unconfigured : Settings :=
  {| AWS_REGION := "ap-northeast-1";
     DOCUMENT_S3_BUCKET := "docs";
     DOCUMENT_S3_PREFIX := "knowledge-base/documents/";
     VECTOR_BUCKET_NAME := "vectors";
     VECTOR_INDEX_NAME := "index";
     BEDROCK_EMBEDDING_MODEL_ARN :=
       "arn:aws:bedrock:us-east-1::foundation-model/amazon.titan-embed-text-v2:0";
     BEDROCK_EMBEDDING_DIMENSION := 1024;
     KNOWLEDGE_BASE_NAME := "s3-vectors-rag-hands-on";
     LOCAL_DATA_DIR := "data/input";
     BEDROCK_ROLE_NAME := "BedrockKnowledgeBaseRole";
     KNOWLEDGE_BASE_ID := Some "";
     DATA_SOURCE_ID := Some "DS1" |}.

(** Services that refuse every request. *)
Definition unreachable : Oracle :=
  fun R h c => inl Fixtures.denied.

Definition missing (cls : client_exception) (code : string) : ServiceError :=
  {| error_class := cls; error_code := Some code; error_str := code |}.

(** An account in which none of the resources exists: every lookup,
    listing and deletion is answered with "not found". *)
Definition empty_account : Oracle :=
  fun R h c =>
    match c in Call R0 return ServiceError + R0 with
    | GetKnowledgeBase _ =>
        inl (missing ResourceNotFoundException "ResourceNotFoundException")
    | GetDataSource _ _ =>
        inl (missing ResourceNotFoundException "ResourceNotFoundException")
    | DeleteDataSource _ _ =>
        inl (missing ResourceNotFoundException "ResourceNotFoundException")
    | DeleteKnowledgeBase _ =>
        inl (missing ResourceNotFoundException "ResourceNotFoundException")
    | DeleteIndex _ _ => inl (missing NotFoundException "NotFoundException")
    | DeleteVectorBucket _ => inl (missing NotFoundException "NotFoundException")
    | ListObjectsV2 _ => inr (PagesError (missing OtherClientError "NoSuchBucket"))
    | DeleteBucket _ => inl (missing OtherClientError "NoSuchBucket")
    | ListRolePolicies _ => inl (missing NoSuchEntityException "NoSuchEntity")
    | c' => Fixtures.healthy _ h c'
    end.

(** The data source of the fixtures, as [resolve_data_source] builds it. *)
Definition data_source : Cleanup.DataSourceInfo :=
  {| Cleanup.knowledge_base_id := "KB1";
     Cleanup.data_source_id := "DS1";
     Cleanup.name := "s3-sample-documents";
     Cleanup.configuration := "S3";
     Cleanup.description := None |}.

(** A configuration without a data-source ID. *)
Definition without_data_source : Settings :=
  {| AWS_REGION := "ap-northeast-1";
     DOCUMENT_S3_BUCKET := "docs";
     DOCUMENT_S3_PREFIX := "knowledge-base/documents/";
     VECTOR_BUCKET_NAME := "vectors";
     VECTOR_INDEX_NAME := "index";
     BEDROCK_EMBEDDING_MODEL_ARN :=
       "arn:aws:bedrock:us-east-1::foundation-model/amazon.titan-embed-text-v2:0";
     BEDROCK_EMBEDDING_DIMENSION := 1024;
     KNOWLEDGE_BASE_NAME := "s3-vectors-rag-hands-on";
     LOCAL_DATA_DIR := "data/input";
     BEDROCK_ROLE_NAME := "BedrockKnowledgeBaseRole";
     KNOWLEDGE_BASE_ID := Some "KB1";
     DATA_SOURCE_ID := None |}.

(** An account in which every resource of the provisioning exists: the
    knowledge base is on the second page of its listing. *)
Definition provisioned : Oracle :=
  fun R h c =>
    match c in Call R0 return ServiceError + R0 with
    | ListKnowledgeBases =>
        inr (PagesCons [ {| summary_name := Some "other"; summary_id := "KB0" |} ]
               (PagesCons [ {| summary_name := None; summary_id := "KB9" |};
                            {| summary_name := Some "s3-vectors-rag-hands-on";
                               summary_id := "KB1" |} ]
                  (PagesError Fixtures.denied)))
    | ListDataSources _ =>
        inr (PagesCons [ {| summary_name := Some "s3-sample-documents";
                            summary_id := "DS1" |} ] PagesEnd)
    | c' => Fixtures.healthy _ h c'
    end.

(** An account in which nothing has been provisioned yet: the vector
    bucket and the index are reported absent until they have been
    created. *)
Definition fresh_account : Oracle :=
  fun R h c =>
    match c in Call R0 return ServiceError + R0 with
    | HeadBucket _ => inl (missing OtherClientError "404")
    | GetVectorBucket _ =>
        if existsb Observe.is_create_vector_bucket h
        then inr "arn:aws:s3vectors:::bucket/vectors"
        else inl (missing NotFoundException "NotFoundException")
    | GetIndex _ _ =>
        if existsb Observe.is_create_index h
        then inr "arn:aws:s3vectors:::bucket/vectors/index/index"
        else inl (missing NotFoundException "NotFoundException")
    | GetRole _ => inl (missing NoSuchEntityException "NoSuchEntity")
    | c' => Fixtures.healthy _ h c'
    end.

(** A region in which [create_bucket] takes no location constraint. *)
Definition us_east_1 : Settings :=
  {| AWS_REGION := "us-east-1";
     DOCUMENT_S3_BUCKET := "docs";
     DOCUMENT_S3_PREFIX := "knowledge-base/documents/";
     VECTOR_BUCKET_NAME := "vectors";
     VECTOR_INDEX_NAME := "index";
     BEDROCK_EMBEDDING_MODEL_ARN :=
       "arn:aws:bedrock:us-east-1::foundation-model/amazon.titan-embed-text-v2:0";
     BEDROCK_EMBEDDING_DIMENSION := 1024;
     KNOWLEDGE_BASE_NAME := "s3-vectors-rag-hands-on";
     LOCAL_DATA_DIR := "data/input";
     BEDROCK_ROLE_NAME := "BedrockKnowledgeBaseRole";
     KNOWLEDGE_BASE_ID := Some "KB1";
     DATA_SOURCE_ID := Some "DS1" |}.

(** A file system without the local data directory. *)
Definition no_directory (d : string) : bool := false.

End Scenarios.

(* ================================================================== *)
(** * chatbot.py                                                       *)
(* ================================================================== *)

Module Chatbot.
Local Open Scope list_scope.

Definition MAX_REFERENCE_PREVIEW_LENGTH : nat := 120.

Section Chatbot.

(** A [str] is a sequence of characters (code points): slicing and [len]
    count characters, so the text of this module is a list of them.  [lit]
    gives the characters of a literal of the source, and [ellipsis] is the
    character U+2026. *)
Variable char : Type.
Variable lit : string -> list char.
Variable ellipsis : char.

(** What the runtime client raises, every one of them an [Exception], and
    [str(exc)]. *)
Variable exception : Type.
Variable str_exception : exception -> list char.

(** [settings.BEDROCK_RESPONSE_MODEL_ARN] *)
Variable BEDROCK_RESPONSE_MODEL_ARN : list char.

(** The values of the dictionaries the module builds. *)
#[local] Unset Elimination Schemes.
Inductive jv : Type :=
| JText (s : list char)
| JInt (n : Z)
| JBool (b : bool)
| JArr (items : list jv)
| JDict (entries : list (string * jv)).
#[local] Set Elimination Schemes.

(** A dictionary, its keys in the order of their insertion. *)
Definition dict : Type := list (string * jv).

(** [json.dumps(d, indent=2)] *)
Variable json_dumps : dict -> list char.

(** [bool(d)] *)
Definition nonempty {A} (l : list A) : bool :=
  match l with
  | [] => false
  | _ :: _ => true
  end.

(** [if o:] for an optional text or dictionary. *)
Definition given {A} (o : option (list A)) : option (list A) :=
  match o with
  | Some (x :: l) => Some (x :: l)
  | _ => None
  end.

Definition equals_filter (key : list char) (value : jv) : dict :=
  [ ("equals", JDict [ ("key", JText key); ("value", value) ]) ].

Definition equals_filter_bool (key : list char) (value : bool) : dict :=
  [ ("equals", JDict [ ("key", JText key); ("value", JBool value) ]) ].

Definition greater_or_equals_filter (key : list char) (value : Z) : dict :=
  [ ("greaterThanOrEquals", JDict [ ("key", JText key); ("value", JInt value) ]) ].

Definition and_all (conditions : list dict) : dict :=
  [ ("andAll", JArr (map JDict (filter nonempty conditions))) ].

(** The keyword arguments of [retrieve_and_generate]: the text of [input]
    and, of the configuration of the knowledge base, the identifier, the
    model and the vector search configuration. *)
Record Request : Type := mkRequest
  { text : list char;
    knowledgeBaseId : list char;
    modelArn : list char;
    vectorSearchConfiguration : dict }.

(** What [_print_response] reads of a reference, a citation and a
    response; a key that is missing is [None]. *)
Record Reference : Type := mkReference
  { content_text : option (list char);
    s3_uri : option (list char) }.

Record Citation : Type := mkCitation
  { retrievedReferences : option (list Reference) }.

Record Response : Type := mkResponse
  { output_text : option (list char);
    citations : option (list Citation) }.

(** The requests made so far and the texts printed so far. *)
Record Session : Type := mkSession
  { asked : list Request;
    printed : list (list char) }.

(** The service: its answer may depend on the requests made before. *)
Variable runtime : list Request -> Request -> exception + Response.

Definition print (line : list char) (s : Session) : Session :=
  {| asked := asked s; printed := printed s ++ [line] |}.

Definition vector_config (metadata_filter : option dict) (number_of_results : Z)
    (search_type : option (list char)) : dict :=
  [ ("numberOfResults", JInt number_of_results) ]
  ++ match given metadata_filter with
     | Some f => [ ("filter", JDict f) ]
     | None => []
     end
  ++ match given search_type with
     | Some t => [ ("overrideSearchType", JText t) ]
     | None => []
     end.

Definition ask_knowledge_base (question knowledge_base_id : list char)
    (metadata_filter : option dict) (number_of_results : Z)
    (search_type : option (list char)) : Session -> Session * (exception + Response) :=
  fun s =>
    let request :=
      {| text := question;
         knowledgeBaseId := knowledge_base_id;
         modelArn := BEDROCK_RESPONSE_MODEL_ARN;
         vectorSearchConfiguration :=
           vector_config metadata_filter number_of_results search_type |} in
    ({| asked := asked s ++ [request]; printed := printed s |},
     runtime (asked s) request).

Record QueryScenario : Type := mkQueryScenario
  { label : list char;
    question : list char;
    metadata_filter : option dict;
    number_of_results : Z }.

(** [d.get(key, default)] *)
Definition get_or {A} (o : option A) (default : A) : A :=
  match o with
  | Some a => a
  | None => default
  end.

(** The line printed for a reference. *)
Definition reference_line (reference : Reference) : list char :=
  let ref := get_or (content_text reference) [] in
  let uri := get_or (s3_uri reference) [] in
  let preview := firstn MAX_REFERENCE_PREVIEW_LENGTH ref in
  let ellipsis :=
    if Nat.ltb MAX_REFERENCE_PREVIEW_LENGTH (length ref) then [ellipsis] else [] in
  lit "  - " ++ uri ++ lit ": " ++ preview ++ ellipsis.

Definition _print_response (label : list char) (response : Response)
    : Session -> Session :=
  fun s =>
    let answer := get_or (output_text response) (lit "(no answer)") in
    let s := print (lit "=== " ++ label ++ lit " ===") s in
    let s := print answer s in
    match get_or (citations response) [] with
    | [] =>
        let s := print (lit "(no citations returned)") s in
        print [] s
    | citation :: more =>
        let s := print (lit "Sources:") s in
        let s :=
          fold_left
            (fun s citation =>
               fold_left (fun s reference => print (reference_line reference) s)
                 (get_or (retrievedReferences citation) []) s)
            (citation :: more) s in
        print [] s
    end.

(** The scripted queries of [run_scenarios]. *)
Definition scenarios : list QueryScenario :=
  let domain := equals_filter (lit "domain") (JText (lit "auroradynamics.com")) in
  let is_internal_true := equals_filter_bool (lit "is_internal") true in
  let is_internal_false := equals_filter_bool (lit "is_internal") false in
  let security_tags := equals_filter (lit "tags") (JText (lit "security,governance")) in
  let press_tags := equals_filter (lit "tags") (JText (lit "press,announcement")) in
  let published_after_2025 :=
    greater_or_equals_filter (lit "published_at") 1750000000 in
  let metrics_tags := equals_filter (lit "tags") (JText (lit "metrics,operations")) in
  let catalog_tags := equals_filter (lit "tags") (JText (lit "services,catalog")) in
  [ {| label := lit "No filter overview";
       question :=
         lit "Give me a broad overview of Aurora Dynamics as described in our knowledge base.";
       metadata_filter := None;
       number_of_results := 4 |};
    {| label := lit "Domain filter";
       question := lit "Summarize the public description of Aurora Dynamics.";
       metadata_filter := Some domain;
       number_of_results := 4 |};
    {| label := lit "Internal security docs";
       question := lit "What security governance guidance is available?";
       metadata_filter := Some (and_all [is_internal_true; security_tags]);
       number_of_results := 4 |};
    {| label := lit "Press announcement";
       question := lit "What recent announcement did Aurora make?";
       metadata_filter :=
         Some (and_all [is_internal_false; press_tags; published_after_2025]);
       number_of_results := 4 |};
    {| label := lit "Metrics spotlight";
       question := lit "Share key operational metrics for Aurora Dynamics.";
       metadata_filter := Some (and_all [is_internal_true; metrics_tags]);
       number_of_results := 4 |};
    {| label := lit "Catalog lookup (hybrid search)";
       question := lit "List the solution offerings Aurora provides to customers.";
       metadata_filter := Some catalog_tags;
       number_of_results := 4 |} ].

(** One round of the loop of [run_scenarios]. *)
Definition run_scenario (knowledge_base_id : list char) (scenario : QueryScenario)
    : Session -> Session :=
  fun s =>
    match ask_knowledge_base (question scenario) knowledge_base_id
            (metadata_filter scenario) (number_of_results scenario) None s with
    | (s, inl exc) =>
        let s := print (lit "=== " ++ label scenario ++ lit " ===") s in
        let s := print (lit "Query failed: " ++ str_exception exc) s in
        let s :=
          match given (metadata_filter scenario) with
          | Some f => print (lit "Filter used: " ++ json_dumps f) s
          | None => s
          end in
        print [] s
    | (s, inr response) => _print_response (label scenario) response s
    end.

Definition run_scenarios (knowledge_base_id : list char) : Session -> Session :=
  fun s =>
    let s := print (lit "Running scripted knowledge base checks" ++ [ellipsis]) s in
    fold_left (fun s scenario => run_scenario knowledge_base_id scenario s) scenarios s.

(** The script: the message of [SystemExit], if it is raised. *)
Definition main (kb_id : option (list char)) : Session -> Session * option (list char) :=
  fun s =>
    match given kb_id with
    | None =>
        (s, Some (lit "Knowledge base ID must be configured in Settings before running scripted checks."))
    | Some kb_id => (run_scenarios kb_id s, None)
    end.

(** ** Observations *)

(** The references of a response, in the order of its citations. *)
Definition references (response : Response) : list Reference :=
  flat_map (fun citation => get_or (retrievedReferences citation) [])
    (get_or (citations response) []).

(** The request [run_scenarios] makes for a scenario. *)
Definition request_of (knowledge_base_id : list char) (scenario : QueryScenario)
    : Request :=
  {| text := question scenario;
     knowledgeBaseId := knowledge_base_id;
     modelArn := BEDROCK_RESPONSE_MODEL_ARN;
     vectorSearchConfiguration :=
       vector_config (metadata_filter scenario) (number_of_results scenario) None |}.

End Chatbot.
End Chatbot.

(* ================================================================== *)
(** * Properties of sync.py                                            *)
(* ================================================================== *)

Module SyncSpec.
Import Trace.
Local Open Scope list_scope.

Lemma status_eqb_eq (a b : IngestionStatus) : status_eqb a b = true -> a = b.
Proof. destruct a, b; simpl; congruence. Qed.

Lemma status_differs_false (s : IngestionStatus) (last : option IngestionStatus) :
  Sync.status_differs s last = false -> last = Some s.
Proof.
  destruct last as [l|]; simpl; [|discriminate].
  intros H. apply negb_false_iff in H. apply status_eqb_eq in H. now subst.
Qed.

Section Loop.

Variable oracle : Oracle.
Variable float_str : Q -> string.
Variable strftime_now : list Event -> string.
Variables kb ds jid : string.
Variables poll timeout : Q.

Let loop := Sync.wait_for_sync_loop oracle float_str kb ds jid poll timeout.

(** The callback of [main] returns normally and only prints. *)
Lemma on_update_quiet : quiet (Some (Sync.on_update strftime_now)).
Proof.
  intros st job w. unfold Sync.on_update.
  destruct (Sync.status_differs st (last_status w)); eexists; split; reflexivity.
Qed.

(** With a callback that prints every status it is given, the lines printed
    are the statuses fetched, duplicates included. *)
Lemma loop_observer (fuel : nat) :
  forall waited w w' r,
    loop (Some Fixtures.observer) fuel waited w = (w', r) ->
    exists evs,
      history w' = history w ++ evs /\
      stdout w' = stdout w ++ map status_str (fetched evs).
Proof.
  induction fuel as [|fuel IH]; intros waited w w' r Hrun.
  - inversion Hrun; subst. exists []. now rewrite !app_nil_r.
  - unfold loop in Hrun. simpl in Hrun.
    destruct (Qle_bool waited timeout).
    + unfold bind, call in Hrun.
      destruct (oracle Job (history w) (GetIngestionJob kb ds jid)) as [err|job] eqn:Ho.
      * inversion Hrun; subst. eexists [_]. split; [reflexivity|].
        simpl. now rewrite app_nil_r.
      * simpl in Hrun. destruct (Sync.terminal (status job)).
        -- inversion Hrun; subst. eexists [_]. split; [reflexivity|reflexivity].
        -- unfold sleep in Hrun. simpl in Hrun.
           destruct (Qle_bool 0 poll).
           ++ apply IH in Hrun. destruct Hrun as [evs [Hh Hs]].
              simpl in Hh, Hs.
              exists (Called (GetIngestionJob kb ds jid) (inr job) :: Slept poll :: evs). split.
              ** rewrite Hh, <- !app_assoc. reflexivity.
              ** rewrite Hs, <- app_assoc. reflexivity.
           ++ inversion Hrun; subst. eexists [_]. split; reflexivity.
    + inversion Hrun; subst. exists []. now rewrite !app_nil_r.
Qed.

(** With the callback of [main], a line is printed for a fetched status
    only when it differs from the status fetched before it. *)
Lemma loop_on_update (fuel : nat) :
  forall waited w w' r,
    loop (Some (Sync.on_update strftime_now)) fuel waited w = (w', r) ->
    exists evs lines,
      history w' = history w ++ evs /\
      stdout w' = stdout w ++ lines /\
      length lines = status_changes (last_status w) (fetched evs).
Proof.
  induction fuel as [|fuel IH]; intros waited w w' r Hrun.
  - inversion Hrun; subst. exists [], []. now rewrite !app_nil_r.
  - unfold loop in Hrun. simpl in Hrun.
    destruct (Qle_bool waited timeout).
    + unfold bind, call in Hrun.
      destruct (oracle Job (history w) (GetIngestionJob kb ds jid)) as [err|job] eqn:Ho.
      * inversion Hrun; subst. eexists [_], [].
        split; [reflexivity|]. split; [simpl; now rewrite app_nil_r|reflexivity].
      * unfold Sync.on_update in Hrun. simpl in Hrun.
        destruct (Sync.status_differs (status job) (last_status w)) eqn:Hd.
        -- simpl in Hrun. destruct (Sync.terminal (status job)).
           ++ inversion Hrun; subst. eexists [_], [_].
              split; [reflexivity|]. split; [reflexivity|].
              simpl. now rewrite Hd.
           ++ unfold sleep in Hrun. simpl in Hrun. destruct (Qle_bool 0 poll).
              ** apply IH in Hrun. destruct Hrun as [evs [lines [Hh [Hs Hl]]]].
                 simpl in Hh, Hs, Hl.
                 exists (Called (GetIngestionJob kb ds jid) (inr job) :: Slept poll :: evs).
                 eexists (_ :: lines).
                 split; [rewrite Hh, <- !app_assoc; reflexivity|].
                 split; [rewrite Hs, <- !app_assoc; reflexivity|].
                 simpl. now rewrite Hd, Hl.
              ** inversion Hrun; subst. eexists [_], [_].
                 split; [reflexivity|]. split; [reflexivity|].
                 simpl. now rewrite Hd.
        -- pose proof (status_differs_false _ _ Hd) as Hlast.
           destruct (Sync.terminal (status job)).
           ++ inversion Hrun; subst. eexists [_], [].
              split; [reflexivity|]. split; [simpl; now rewrite app_nil_r|].
              simpl. now rewrite Hd.
           ++ unfold sleep in Hrun. simpl in Hrun. destruct (Qle_bool 0 poll).
              ** apply IH in Hrun. destruct Hrun as [evs [lines [Hh [Hs Hl]]]].
                 simpl in Hh, Hs, Hl. rewrite Hlast in Hl.
                 exists (Called (GetIngestionJob kb ds jid) (inr job) :: Slept poll :: evs), lines.
                 split; [rewrite Hh, <- !app_assoc; reflexivity|].
                 split; [exact Hs|].
                 simpl. now rewrite Hd, Hl.
              ** inversion Hrun; subst. eexists [_], [].
                 split; [reflexivity|]. split; [simpl; now rewrite app_nil_r|].
                 simpl. now rewrite Hd.
    + inversion Hrun; subst. exists [], []. now rewrite !app_nil_r.
Qed.

End Loop.

Section Polling.

Variable oracle : Oracle.
Variable float_str : Q -> string.
Variables kb ds jid : string.
Variables poll timeout : Q.
Variable on_update : option (IngestionStatus -> Job -> M unit).

Let loop := Sync.wait_for_sync_loop oracle float_str kb ds jid poll timeout on_update.

Hypothesis on_update_is_quiet : quiet on_update.

(** What the callback leaves behind after a poll. *)
Lemma notify_quiet (job : Job) (w : World) :
  exists w',
    (match on_update with
     | Some f => f (status job) job
     | None => ret tt
     end) w = (w', Returned tt) /\ history w' = history w.
Proof.
  destruct on_update as [f|].
  - apply on_update_is_quiet.
  - exists w. split; reflexivity.
Qed.

(** One round of the loop on a job that is not finished: a poll, a sleep,
    and the loop again with [poll] more seconds waited. *)
Lemma loop_round (fuel : nat) (waited : Q) (w : World) :
  never_terminal oracle kb ds jid ->
  Qle_bool 0 poll = true ->
  Qle_bool waited timeout = true ->
  exists job w2,
    history w2
      = history w ++ [Called (GetIngestionJob kb ds jid) (inr job); Slept poll] /\
    loop (S fuel) waited w = loop fuel (waited + poll)%Q w2.
Proof.
  intros Hnever Hpoll Hle. unfold loop. simpl. rewrite Hle.
  unfold bind at 1. unfold call.
  destruct (Hnever (history w)) as [job [Ho Hnt]]. rewrite Ho.
  unfold bind at 1.
  destruct (notify_quiet job (record_event (Called (GetIngestionJob kb ds jid) (inr job)) w))
    as [w1 [Hcb Hh]].
  rewrite Hcb, Hnt. unfold bind, sleep. rewrite Hpoll.
  exists job, (record_event (Slept poll) w1). split; [|reflexivity].
  simpl. rewrite Hh. simpl. now rewrite <- app_assoc.
Qed.

(** The loop ends with the timeout error once the time waited exceeds the
    timeout. *)
Lemma loop_timeout (fuel : nat) (waited : Q) (w : World) :
  Qle_bool waited timeout = false ->
  loop (S fuel) waited w
    = (w, Raised (TimeoutError (Sync.timeout_message float_str jid timeout))).
Proof. intros Hgt. unfold loop. simpl. now rewrite Hgt. Qed.

(** The loop only adds to the history. *)
Lemma loop_extends_history (fuel : nat) :
  forall waited w, exists evs, history (fst (loop fuel waited w)) = history w ++ evs.
Proof.
  induction fuel as [|fuel IH]; intros waited w.
  - exists []. simpl. now rewrite app_nil_r.
  - unfold loop. simpl. destruct (Qle_bool waited timeout).
    + unfold bind at 1. unfold call.
      destruct (oracle Job (history w) (GetIngestionJob kb ds jid)) as [err|job].
      * eexists [_]. reflexivity.
      * unfold bind at 1.
        destruct (notify_quiet job
                    (record_event (Called (GetIngestionJob kb ds jid) (inr job)) w))
          as [w1 [Hcb Hh]].
        rewrite Hcb. destruct (Sync.terminal (status job)).
        -- eexists [_]. simpl. rewrite Hh. reflexivity.
        -- unfold bind, sleep. destruct (Qle_bool 0 poll).
           ++ destruct (IH (waited + poll)%Q (record_event (Slept poll) w1)) as [evs Hevs].
              fold loop. rewrite Hevs. simpl. rewrite Hh. simpl.
              rewrite <- !app_assoc. eexists. reflexivity.
           ++ eexists [_]. simpl. rewrite Hh. reflexivity.
    + exists []. simpl. now rewrite app_nil_r.
Qed.

(** When the time waited is within the timeout, the first thing the loop
    does is to poll. *)
Lemma loop_polls_first (fuel : nat) (waited : Q) (w : World) :
  Qle_bool waited timeout = true ->
  exists r evs,
    history (fst (loop (S fuel) waited w))
      = history w ++ Called (GetIngestionJob kb ds jid) r :: evs.
Proof.
  intros Hle. unfold loop. simpl. rewrite Hle.
  unfold bind at 1. unfold call.
  destruct (oracle Job (history w) (GetIngestionJob kb ds jid)) as [err|job].
  - eexists _, []. reflexivity.
  - unfold bind at 1.
    destruct (notify_quiet job
                (record_event (Called (GetIngestionJob kb ds jid) (inr job)) w))
      as [w1 [Hcb Hh]].
    rewrite Hcb. destruct (Sync.terminal (status job)).
    + eexists _, []. simpl. rewrite Hh. reflexivity.
    + unfold bind, sleep. destruct (Qle_bool 0 poll).
      * destruct (loop_extends_history fuel (waited + poll)%Q (record_event (Slept poll) w1))
          as [evs Hevs].
        fold loop. rewrite Hevs. simpl. rewrite Hh. simpl.
        rewrite <- !app_assoc. eexists _, _. reflexivity.
      * eexists _, []. simpl. rewrite Hh. reflexivity.
Qed.

(** A job found finished at a poll is returned at once. *)
Lemma loop_returns_terminal (fuel : nat) (waited : Q) (w : World) (job : Job) :
  Qle_bool waited timeout = true ->
  oracle Job (history w) (GetIngestionJob kb ds jid) = inr job ->
  Sync.terminal (status job) = true ->
  exists w',
    loop (S fuel) waited w = (w', Returned job) /\
    history w' = history w ++ [Called (GetIngestionJob kb ds jid) (inr job)].
Proof.
  intros Hle Ho Ht. unfold loop. simpl. rewrite Hle.
  unfold bind at 1. unfold call. rewrite Ho. unfold bind.
  destruct (notify_quiet job
              (record_event (Called (GetIngestionJob kb ds jid) (inr job)) w))
    as [w1 [Hcb Hh]].
  rewrite Hcb, Ht. exists w1. split; [reflexivity|]. now rewrite Hh.
Qed.

End Polling.

(** Whatever the callback does, a job that [wait_for_sync] returns is in a
    terminal status. *)
Lemma loop_returned_terminal
    (oracle : Oracle) (float_str : Q -> string) (kb ds jid : string) (poll timeout : Q)
    (on_update : option (IngestionStatus -> Job -> M unit)) (fuel : nat) :
  forall waited w w' job,
    Sync.wait_for_sync_loop oracle float_str kb ds jid poll timeout on_update fuel waited w
      = (w', Returned job) ->
    Sync.terminal (status job) = true.
Proof.
  induction fuel as [|fuel IH]; intros waited w w' job Hrun; [discriminate|].
  simpl in Hrun. destruct (Qle_bool waited timeout); [|discriminate].
  unfold bind at 1 in Hrun. unfold call in Hrun.
  destruct (oracle Job (history w) (GetIngestionJob kb ds jid)) as [err|fetched_job];
    [discriminate|].
  unfold bind at 1 in Hrun.
  destruct ((match on_update with
             | Some f => f (status fetched_job) fetched_job
             | None => ret tt
             end) (record_event (Called (GetIngestionJob kb ds jid) (inr fetched_job)) w))
    as [w1 [[]|e|]]; try discriminate.
  destruct (Sync.terminal (status fetched_job)) eqn:Ht.
  - inversion Hrun; subst. exact Ht.
  - unfold bind, sleep in Hrun. destruct (Qle_bool 0 poll); [|discriminate].
    exact (IH _ _ _ _ Hrun).
Qed.




(** C9: with a timeout that is not negative (zero included),
    [wait_for_sync] starts with a poll, so a poll precedes any timeout; and
    when the first poll finds the job in a terminal status, that job is
    returned at once, the poll being all that happened: no sleep. *)
Theorem wait_for_sync_polls_before_timing_out :
  forall (oracle : Oracle) (float_str : Q -> string) (kb ds jid : string)
         (poll timeout : Q) (on_update : option (IngestionStatus -> Job -> M unit))
         (fuel : nat) (w : World),
    (0 <= timeout)%Q ->
    quiet on_update ->
    (exists r evs,
        history (fst (Sync.wait_for_sync oracle float_str kb ds jid poll timeout
                        on_update (S fuel) w))
          = history w ++ Called (GetIngestionJob kb ds jid) r :: evs)
    /\
    (forall job,
        oracle Job (history w) (GetIngestionJob kb ds jid) = inr job ->
        Sync.terminal (status job) = true ->
        exists w',
          Sync.wait_for_sync oracle float_str kb ds jid poll timeout on_update (S fuel) w
            = (w', Returned job) /\
          history w' = history w ++ [Called (GetIngestionJob kb ds jid) (inr job)] /\
          count is_sleep (history w') = count is_sleep (history w)).
Proof.
  intros oracle float_str kb ds jid poll timeout on_update fuel w Htimeout Hquiet.
  assert (Hle : Qle_bool 0 timeout = true) by (now apply Qle_bool_iff).
  split.
  - apply loop_polls_first; assumption.
  - intros job Ho Ht.
    destruct (loop_returns_terminal oracle float_str kb ds jid poll timeout on_update
                Hquiet fuel 0%Q w job Hle Ho Ht) as [w' [Hrun Hh]].
    exists w'. split; [exact Hrun|]. split; [exact Hh|].
    rewrite Hh. unfold count. rewrite filter_app. simpl. now rewrite app_nil_r.
Qed.

(** A timeout of 0 and a job that has failed when it is first polled. *)
Lemma wait_for_sync_polls_before_timing_out_witness :
  (exists r evs,
      history (fst (Sync.wait_for_sync (Fixtures.finished_job FAILED None) Fixtures.float_str
                      "KB1" "DS1" "JOB1" 20 0 None 1 initial_world))
        = history initial_world ++ Called (GetIngestionJob "KB1" "DS1" "JOB1") r :: evs)
  /\
  (exists w',
      Sync.wait_for_sync (Fixtures.finished_job FAILED None) Fixtures.float_str
          "KB1" "DS1" "JOB1" 20 0 None 1 initial_world
        = (w', Returned (Fixtures.job_with FAILED)) /\
      history w'
        = history initial_world
            ++ [Called (GetIngestionJob "KB1" "DS1" "JOB1") (inr (Fixtures.job_with FAILED))] /\
      count is_sleep (history w') = count is_sleep (history initial_world)).
Proof.
  pose proof (wait_for_sync_polls_before_timing_out
                (Fixtures.finished_job FAILED None) Fixtures.float_str "KB1" "DS1" "JOB1"
                20 0 None 0 initial_world) as H.
  destruct H as [Hfirst Hreturn].
  - discriminate.
  - exact I.
  - split; [exact Hfirst|].
    apply (Hreturn (Fixtures.job_with FAILED)); reflexivity.
Defined.



(** C1 (as the code has it): [wait_for_sync] calls the callback at every
    poll, whatever the status fetched before: a callback that prints each
    status it is given prints the whole sequence of fetched statuses.  The
    filtering is done by the callback [main] passes, which prints a line for
    a fetched status only when it differs from the one fetched before. *)
Theorem wait_for_sync_calls_back_on_every_poll :
  forall (oracle : Oracle) (float_str : Q -> string) (strftime_now : list Event -> string)
         (kb ds jid : string) (poll timeout : Q) (fuel : nat) (w : World),
    (exists evs,
        let w' := fst (Sync.wait_for_sync oracle float_str kb ds jid poll timeout
                         (Some Fixtures.observer) fuel w) in
        history w' = history w ++ evs /\
        stdout w' = stdout w ++ map status_str (fetched evs))
    /\
    (exists evs lines,
        let w' := fst (Sync.wait_for_sync oracle float_str kb ds jid poll timeout
                         (Some (Sync.on_update strftime_now)) fuel w) in
        history w' = history w ++ evs /\
        stdout w' = stdout w ++ lines /\
        length lines = status_changes (last_status w) (fetched evs)).
Proof.
  intros. split.
  - destruct (Sync.wait_for_sync oracle float_str kb ds jid poll timeout
                (Some Fixtures.observer) fuel w) as [w' r] eqn:Hrun.
    exact (loop_observer _ _ _ _ _ _ _ _ _ _ _ _ Hrun).
  - destruct (Sync.wait_for_sync oracle float_str kb ds jid poll timeout
                (Some (Sync.on_update strftime_now)) fuel w) as [w' r] eqn:Hrun.
    exact (loop_on_update _ _ _ _ _ _ _ _ _ _ _ _ _ Hrun).
Qed.

(** With the callback of [main], the five polls below print three lines. *)
Example on_update_prints_three_lines :
  stdout (fst (Sync.wait_for_sync Fixtures.five_polls Fixtures.float_str
                 "KB1" "DS1" "JOB1" 20 3600
                 (Some (Sync.on_update Fixtures.strftime_now)) 10 initial_world))
  = [ "[2025-01-01 00:00:00] status=STARTING scanned=? failed=?";
      "[2025-01-01 00:00:00] status=IN_PROGRESS scanned=? failed=?";
      "[2025-01-01 00:00:00] status=COMPLETE scanned=? failed=?" ]%string.
Proof. vm_compute. reflexivity. Qed.

(** C1 (as stated) fails: for the polled statuses STARTING, STARTING,
    IN_PROGRESS, IN_PROGRESS, COMPLETE the callback given to [wait_for_sync]
    is called five times, also when the status has not changed. *)
Lemma wait_for_sync_calls_back_five_times :
  let run := Sync.wait_for_sync Fixtures.five_polls Fixtures.float_str
               "KB1" "DS1" "JOB1" 20 3600 (Some Fixtures.observer) 10 initial_world in
  fetched (history (fst run))
    = [STARTING; STARTING; IN_PROGRESS; IN_PROGRESS; COMPLETE] /\
  stdout (fst run)
    = ["STARTING"; "STARTING"; "IN_PROGRESS"; "IN_PROGRESS"; "COMPLETE"] /\
  length (stdout (fst run)) <> 3.
Proof. vm_compute. repeat split; discriminate. Qed.

End SyncSpec.

(* ================================================================== *)
(** * Properties of the runtime                                        *)
(* ================================================================== *)

Module PySpec.
Import Trace.
Local Open Scope list_scope.

Lemma bind_returned {A B} (m : M A) (k : A -> M B) (w w' : World) (b : B) :
  bind m k w = (w', Returned b) ->
  exists a w1, m w = (w1, Returned a) /\ k a w1 = (w', Returned b).
Proof.
  unfold bind. destruct (m w) as [w1 [a|e|]]; intros H; try discriminate.
  exists a, w1. split; [reflexivity|exact H].
Qed.

Lemma always_returns_ret {A} (a : A) : always_returns (ret a).
Proof. intros w. exists w, a. reflexivity. Qed.

Lemma always_returns_print (line : string) : always_returns (print line).
Proof. intros w. eexists _, tt. reflexivity. Qed.

Lemma always_returns_bind {A B} (m : M A) (k : A -> M B) :
  always_returns m -> (forall a, always_returns (k a)) -> always_returns (bind m k).
Proof.
  intros Hm Hk w. destruct (Hm w) as [w1 [a Ha]]. destruct (Hk a w1) as [w2 [b Hb]].
  exists w2, b. unfold bind. now rewrite Ha.
Qed.

Lemma always_returns_for_each {A} (xs : list A) (body : A -> M unit) :
  (forall x, always_returns (body x)) -> always_returns (for_each xs body).
Proof.
  intros Hbody. induction xs as [|x xs IH]; simpl.
  - apply always_returns_ret.
  - apply always_returns_bind; [apply Hbody|intros _; exact IH].
Qed.

Lemma client_error_of_return {A} (m : M A) :
  always_returns m -> returns_or_client_error m.
Proof. intros Hm w. destruct (Hm w) as [w' [a Ha]]. exists w'. left. now exists a. Qed.

Lemma client_error_call (oracle : Oracle) {R} (c : Call R) :
  returns_or_client_error (call oracle c).
Proof.
  intros w. unfold call. destruct (oracle R (history w) c) as [err|v]; eexists.
  - right. exists err. reflexivity.
  - left. exists v. reflexivity.
Qed.

Lemma client_error_bind {A B} (m : M A) (k : A -> M B) :
  returns_or_client_error m -> (forall a, returns_or_client_error (k a)) ->
  returns_or_client_error (bind m k).
Proof.
  intros Hm Hk w. unfold bind. destruct (Hm w) as [w1 [[a Ha]|[err He]]].
  - rewrite Ha. apply Hk.
  - rewrite He. exists w1. right. now exists err.
Qed.

Lemma client_error_for_each {A} (xs : list A) (body : A -> M unit) :
  (forall x, returns_or_client_error (body x)) ->
  returns_or_client_error (for_each xs body).
Proof.
  intros Hbody. induction xs as [|x xs IH]; simpl.
  - apply client_error_of_return, always_returns_ret.
  - apply client_error_bind; [apply Hbody|intros _; exact IH].
Qed.

(** A [try] statement whose body can only fail with a [ClientError], and
    whose clauses handle every [ClientError] without raising, returns. *)
Lemma always_returns_try_except {A B} (body : M A)
    (handlers : list (exc_type * (exn -> M B))) (orelse : A -> M B) :
  returns_or_client_error body ->
  handles_client_errors handlers ->
  (forall a, always_returns (orelse a)) ->
  always_returns (try_except body handlers orelse).
Proof.
  intros Hbody Hhandlers Horelse w. unfold try_except.
  destruct (Hbody w) as [w1 [[a Ha]|[err He]]].
  - rewrite Ha. apply Horelse.
  - rewrite He. specialize (Hhandlers err).
    destruct (find (fun h => isinstance (ClientError err) (fst h)) handlers) as [[t h]|];
      [apply Hhandlers|contradiction].
Qed.

(** A [try] statement whose body can only fail with a [ClientError] and
    whose clauses do not raise anything else can only fail with a
    [ClientError]. *)
Lemma client_error_try_except {A B} (body : M A)
    (handlers : list (exc_type * (exn -> M B))) (orelse : A -> M B) :
  returns_or_client_error body ->
  (forall t h e, In (t, h) handlers -> returns_or_client_error (h e)) ->
  (forall a, returns_or_client_error (orelse a)) ->
  returns_or_client_error (try_except body handlers orelse).
Proof.
  intros Hbody Hhandlers Horelse w. unfold try_except.
  destruct (Hbody w) as [w1 [[a Ha]|[err He]]].
  - rewrite Ha. apply Horelse.
  - rewrite He.
    destruct (find (fun h => isinstance (ClientError err) (fst h)) handlers)
      as [[t h]|] eqn:Hfind.
    + apply find_some in Hfind. destruct Hfind as [Hin _].
      exact (Hhandlers t h _ Hin w1).
    + exists w1. right. now exists err.
Qed.

Lemma last_cons {A} (l : list A) (a d : A) : last (a :: l) d = last l a.
Proof.
  revert a d. induction l as [|b l IH]; intros a d; [reflexivity|].
  change (last (a :: b :: l) d) with (last (b :: l) d).
  rewrite !IH. reflexivity.
Qed.

End PySpec.

(* ================================================================== *)
(** * Properties of cleanup.py                                         *)
(* ================================================================== *)

Module CleanupSpec.
Import Trace PySpec.
Local Open Scope list_scope.

(** ** The summary *)

Lemma is_False_iff (v : Cleanup.pyval) :
  Cleanup.is_False v = true <-> v = Cleanup.PyBool false.
Proof. destruct v as [|[]|]; simpl; split; congruence. Qed.

Lemma failures_loop_filter (items : list (string * Cleanup.pyval)) :
  forall acc,
    Cleanup.failures_loop items acc = acc ++ map fst (filter counted items).
Proof.
  induction items as [|[key value] items IH]; intros acc; simpl.
  - now rewrite app_nil_r.
  - unfold counted at 1. simpl.
    destruct (String.eqb key "documents_deleted"); simpl; [apply IH|].
    destruct (Cleanup.is_False value); simpl; [|apply IH].
    rewrite IH, <- app_assoc. reflexivity.
Qed.

Lemma failures_loop_In (items : list (string * Cleanup.pyval)) (k : string) :
  In k (Cleanup.failures_loop items [])
  <-> k <> "documents_deleted"%string /\ In (k, Cleanup.PyBool false) items.
Proof.
  rewrite failures_loop_filter. simpl. rewrite in_map_iff. split.
  - intros [[key value] [Hk Hin]]. simpl in Hk. subst key.
    apply filter_In in Hin. destruct Hin as [Hin Hc].
    unfold counted in Hc. simpl in Hc. apply andb_true_iff in Hc.
    destruct Hc as [Hne Hf]. apply is_False_iff in Hf. subst value.
    split; [|exact Hin].
    intros ->. discriminate.
  - intros [Hne Hin]. exists (k, Cleanup.PyBool false). split; [reflexivity|].
    apply filter_In. split; [exact Hin|].
    unfold counted. simpl. rewrite andb_true_r. apply negb_true_iff.
    now apply String.eqb_neq.
Qed.

Lemma dict_items_lookup (s : Cleanup.CleanupSummary) (k : string) :
  (k <> "documents_deleted"%string /\ In (k, Cleanup.PyBool false) (Cleanup.dict_items s))
  <-> Cleanup.lookup k (Cleanup.dict_items s) = Some (Cleanup.PyBool false).
Proof.
  destruct s as [kb dsrc vi vb n db role]. unfold Cleanup.dict_items.
  cbn [Cleanup.knowledge_base_deleted Cleanup.data_source_deleted
       Cleanup.vector_index_deleted Cleanup.vector_bucket_deleted
       Cleanup.documents_deleted Cleanup.document_bucket_deleted
       Cleanup.iam_role_deleted Cleanup.lookup].
  split.
  - intros [_ Hin]. simpl in Hin |- *.
    repeat (destruct Hin as [Hin|Hin];
            [injection Hin as <- Hv; simpl; try rewrite Hv; try reflexivity; discriminate|]).
    contradiction.
  - repeat match goal with
           | |- context [String.eqb ?a k] =>
               destruct (String.eqb_spec a k) as [<-|_]
           end;
      intros Hl; try discriminate;
      injection Hl as Hl; rewrite Hl;
      (split; [discriminate|simpl; tauto]).
Qed.

Section Summary.

Variable oracle : Oracle.
Variable settings : Settings.


End Summary.


(** ** The deletion steps never raise *)

Ltac returns :=
  repeat first
    [ apply always_returns_ret
    | apply always_returns_print
    | apply always_returns_bind
    | match goal with
      | |- always_returns (if ?b then _ else _) => destruct b
      end
    | intro ].

Ltac client_errors :=
  repeat first
    [ apply client_error_call
    | apply client_error_bind
    | apply client_error_for_each
    | apply client_error_of_return; solve [returns]
    | intro ].

Ltac handled :=
  let err := fresh "err" in
  let cls := fresh "cls" in
  intros [cls ? ?]; destruct cls; simpl; returns.

Section Deletions.

Variable oracle : Oracle.
Variable settings : Settings.

Lemma delete_data_source_returns (info : Cleanup.DataSourceInfo) :
  always_returns (Cleanup.delete_data_source oracle info).
Proof.
  unfold Cleanup.delete_data_source.
  apply always_returns_bind; [apply always_returns_print|intros _].
  apply always_returns_bind; [|intros _].
  - apply always_returns_try_except; [client_errors|handled|returns].
  - apply always_returns_try_except; [client_errors|handled|returns].
Qed.

Lemma delete_knowledge_base_returns (knowledge_base_id : string) :
  always_returns (Cleanup.delete_knowledge_base oracle knowledge_base_id).
Proof.
  unfold Cleanup.delete_knowledge_base.
  apply always_returns_bind; [apply always_returns_print|intros _].
  apply always_returns_try_except; [client_errors|handled|returns].
Qed.

Lemma delete_vector_index_returns :
  always_returns (Cleanup.delete_vector_index oracle settings).
Proof.
  unfold Cleanup.delete_vector_index.
  apply always_returns_bind; [apply always_returns_print|intros _].
  apply always_returns_try_except; [client_errors|handled|returns].
Qed.

Lemma delete_vector_bucket_returns :
  always_returns (Cleanup.delete_vector_bucket oracle settings).
Proof.
  unfold Cleanup.delete_vector_bucket.
  apply always_returns_bind; [apply always_returns_print|intros _].
  apply always_returns_try_except; [client_errors|handled|returns].
Qed.

Lemma delete_document_bucket_returns :
  always_returns (Cleanup.delete_document_bucket oracle settings).
Proof.
  unfold Cleanup.delete_document_bucket.
  apply always_returns_bind; [apply always_returns_print|intros _].
  apply always_returns_try_except; [client_errors|handled|returns].
Qed.

Lemma delete_iam_role_returns :
  always_returns (Cleanup.delete_iam_role oracle settings).
Proof.
  unfold Cleanup.delete_iam_role.
  apply always_returns_bind; [apply always_returns_print|intros _].
  apply always_returns_try_except; [|handled|returns].
  apply client_error_bind.
  - apply client_error_try_except.
    + client_errors.
    + intros t h e [Heq|[]]. injection Heq as <- <-.
      apply client_error_of_return. returns.
    + intros _. apply client_error_of_return. returns.
  - intros [|]; client_errors.
Qed.

Lemma report_returns (summary : Cleanup.CleanupSummary) :
  always_returns (Cleanup.report summary).
Proof.
  unfold Cleanup.report. apply always_returns_for_each. intros [key label].
  cbv zeta. returns.
Qed.

End Deletions.

(** ** Conflicts *)

(** C7: when the delete request is answered with a conflict (an operation
    is already in progress), [delete_data_source] and
    [delete_knowledge_base] return [True] and [delete_vector_index] returns
    [False]; in each case the delete request is made once and not again. *)
Theorem conflict_is_accepted_except_for_the_index :
  forall (oracle : Oracle) (settings : Settings),
    (forall (info : Cleanup.DataSourceInfo) (w : World) (err : ServiceError),
        (forall h,
            oracle unit h (DeleteDataSource (Cleanup.knowledge_base_id info)
                             (Cleanup.data_source_id info)) = inl err) ->
        error_class err = ConflictException ->
        exists w' upd r,
          Cleanup.delete_data_source oracle info w = (w', Returned (Some true)) /\
          history w'
            = history w
                ++ [Called (UpdateDataSource upd) r;
                    Called (DeleteDataSource (Cleanup.knowledge_base_id info)
                              (Cleanup.data_source_id info)) (inl err)])
    /\
    (forall (knowledge_base_id : string) (w : World) (err : ServiceError),
        oracle unit (history w) (DeleteKnowledgeBase knowledge_base_id) = inl err ->
        error_class err = ConflictException ->
        exists w',
          Cleanup.delete_knowledge_base oracle knowledge_base_id w
            = (w', Returned (Some true)) /\
          history w'
            = history w ++ [Called (DeleteKnowledgeBase knowledge_base_id) (inl err)])
    /\
    (forall (w : World) (err : ServiceError),
        oracle unit (history w)
          (DeleteIndex (VECTOR_BUCKET_NAME settings) (VECTOR_INDEX_NAME settings)) = inl err ->
        error_class err = ConflictException ->
        exists w',
          Cleanup.delete_vector_index oracle settings w = (w', Returned (Some false)) /\
          history w'
            = history w
                ++ [Called (DeleteIndex (VECTOR_BUCKET_NAME settings)
                              (VECTOR_INDEX_NAME settings)) (inl err)]).
Proof.
  intros oracle settings. split; [|split].
  - intros info w [cls code msg] Hdelete Hcls. simpl in Hcls. subst cls.
    unfold Cleanup.delete_data_source, bind, print, try_except, call. simpl.
    destruct (oracle unit (history w) _) as [[[] ucode umsg]|[]] eqn:Hupdate; simpl;
      rewrite Hdelete; simpl;
      eexists _, _, _; (split; [reflexivity|]); simpl;
      rewrite <- app_assoc; reflexivity.
  - intros knowledge_base_id w [cls code msg] Hdelete Hcls. simpl in Hcls. subst cls.
    unfold Cleanup.delete_knowledge_base, bind, print, try_except, call. simpl.
    rewrite Hdelete. simpl. eexists. split; reflexivity.
  - intros w [cls code msg] Hdelete Hcls. simpl in Hcls. subst cls.
    unfold Cleanup.delete_vector_index, bind, print, try_except, call. simpl.
    rewrite Hdelete. simpl. eexists. split; reflexivity.
Qed.

(** Services that answer the three deletions with a conflict. *)
Lemma conflict_is_accepted_except_for_the_index_witness :
  let info := {| Cleanup.knowledge_base_id := "KB1";
                 Cleanup.data_source_id := "DS1";
                 Cleanup.name := "s3-sample-documents";
                 Cleanup.configuration := "S3";
                 Cleanup.description := None |} in
  let err := Fixtures.error ConflictException "ConflictException" in
  (exists w' upd r,
      Cleanup.delete_data_source Fixtures.conflicts info initial_world
        = (w', Returned (Some true)) /\
      history w'
        = history initial_world
            ++ [Called (UpdateDataSource upd) r;
                Called (DeleteDataSource "KB1" "DS1") (inl err)])
  /\
  (exists w',
      Cleanup.delete_knowledge_base Fixtures.conflicts "KB1" initial_world
        = (w', Returned (Some true)) /\
      history w' = history initial_world ++ [Called (DeleteKnowledgeBase "KB1") (inl err)])
  /\
  (exists w',
      Cleanup.delete_vector_index Fixtures.conflicts Fixtures.settings initial_world
        = (w', Returned (Some false)) /\
      history w'
        = history initial_world ++ [Called (DeleteIndex "vectors" "index") (inl err)]).
Proof.
  intros info err.
  destruct (conflict_is_accepted_except_for_the_index Fixtures.conflicts Fixtures.settings)
    as [Hds [Hkb Hindex]].
  split; [|split].
  - apply (Hds info initial_world err); [intros h|]; reflexivity.
  - apply (Hkb "KB1"%string initial_world err); reflexivity.
  - apply (Hindex initial_world err); reflexivity.
Defined.

(** ** The purge of the document bucket *)

Section Purge.

Variable oracle : Oracle.
Variable settings : Settings.

Let listing := ListObjectsV2 (DOCUMENT_S3_BUCKET settings).

(** What the loop over the pages leaves in the history: the count it hands
    back is the number of keys of the delete requests that succeeded, a
    delete request is made for each page that came with keys and for no
    other, and the loop only stops early on an error response, which is
    then the last exchange. *)
Lemma purge_pages_trace (pages : PageStream ObjectPage) :
  forall (deleted : Z) (w : World),
    exists w' d out evs,
      Cleanup.purge_pages oracle settings pages deleted w = (w', (d, out)) /\
      history w' = history w ++ evs /\
      d = (deleted + submitted evs)%Z /\
      filter_map delete_request evs = filter nonempty (filter_map delivered_keys evs) /\
      match out with
      | Returned _ =>
          forall dflt,
            last (map event_error evs) dflt = dflt \/
            last (map event_error evs) dflt = None
      | Raised e =>
          exists err,
            e = ClientError err /\
            forall dflt, last (map event_error evs) dflt = Some err
      | OutOfFuel => False
      end.
Proof.
  induction pages as [|err|page rest IH]; intros deleted w.
  - exists w, deleted, (Returned tt), []. simpl.
    rewrite app_nil_r, Z.add_0_r. repeat split; auto.
  - eexists _, deleted, _, [_]. simpl. split; [reflexivity|].
    split; [reflexivity|]. rewrite Z.add_0_r. repeat split.
    exists err. split; reflexivity.
  - simpl. destruct (get_or_empty (Contents page)) as [|key keys] eqn:Hkeys.
    + destruct (IH deleted (record_event (Paged listing (inr page)) w))
        as [w' [d [out [evs [Hrun [Hh [Hd [Hreq Hlast]]]]]]]].
      exists w', d, out, (Paged listing (inr page) :: evs).
      split; [exact Hrun|]. split; [rewrite Hh; simpl; now rewrite <- app_assoc|].
      split; [exact Hd|]. split.
      * simpl. rewrite Hkeys. exact Hreq.
      * destruct out as [[]|e|]; [| |exact Hlast].
        -- intros dflt. right. simpl map. rewrite last_cons.
           destruct (Hlast None) as [H|H]; exact H.
        -- destruct Hlast as [err [He Hlast]]. exists err. split; [exact He|].
           intros dflt. simpl map. rewrite last_cons. apply Hlast.
    + unfold Cleanup._chunk_delete, call.
      match goal with
      | |- context [oracle unit ?h ?c] =>
          destruct (oracle unit h c) as [err|[]] eqn:Hdelete
      end.
      * eexists _, deleted, _, [_; _]. split; [reflexivity|].
        split; [simpl; rewrite <- app_assoc; reflexivity|].
        split; [simpl; lia|]. split.
        -- simpl. rewrite Hkeys. reflexivity.
        -- exists err. split; reflexivity.
      * match goal with
        | |- context [Cleanup.purge_pages oracle settings rest ?n ?w1] =>
            destruct (IH n w1) as [w' [d [out [evs [Hrun [Hh [Hd [Hreq Hlast]]]]]]]]
        end.
        exists w', d, out,
          (Paged listing (inr page)
             :: Called (DeleteObjects (DOCUMENT_S3_BUCKET settings) (key :: keys)) (inr tt)
             :: evs).
        split; [exact Hrun|].
        split; [rewrite Hh; simpl; rewrite <- !app_assoc; reflexivity|].
        split; [rewrite Hd; unfold submitted; cbn [fold_right accepted_keys]; lia|]. split.
        -- simpl. rewrite Hkeys. simpl. now rewrite Hreq.
        -- destruct out as [[]|e|]; [| |exact Hlast].
           ++ intros dflt. right. simpl map. rewrite !last_cons.
              destruct (Hlast None) as [H|H]; exact H.
           ++ destruct Hlast as [err [He Hlast]]. exists err. split; [exact He|].
              intros dflt. simpl map. rewrite !last_cons. apply Hlast.
Qed.

End Purge.

Section PurgeCount.

Variable oracle : Oracle.
Variable settings : Settings.

(** [empty_document_bucket] returns in every world; its result is 0 when
    the purge ended on an error response with the code [NoSuchBucket], and
    otherwise the number of keys of the delete requests that succeeded. *)
Lemma empty_document_bucket_trace (w : World) :
  exists w' evs n,
    Cleanup.empty_document_bucket oracle settings w = (w', Returned n) /\
    history w' = history w ++ evs /\
    n = (if ends_with_no_such_bucket evs then 0%Z else submitted evs) /\
    filter_map delete_request evs = filter nonempty (filter_map delivered_keys evs).
Proof.
  unfold Cleanup.empty_document_bucket, Cleanup.purge_try, call.
  set (w0 := print_line _ w).
  destruct (oracle (PageStream ObjectPage) (history w0)
              (ListObjectsV2 (DOCUMENT_S3_BUCKET settings))) as [err|pages] eqn:Hlist.
  - cbn [isinstance]. unfold bind, print, ret.
    destruct (code_is (response_code (ClientError err)) "NoSuchBucket") eqn:Hcode;
      eexists _, [_], 0%Z;
      (split; [reflexivity|]); (split; [reflexivity|]); (split; [|reflexivity]);
      unfold ends_with_no_such_bucket; simpl; simpl in Hcode; now rewrite Hcode.
  - match goal with
    | |- context [Cleanup.purge_pages oracle settings pages ?n ?w1] =>
        destruct (purge_pages_trace oracle settings pages n w1)
          as [w' [d [out [evs [Hrun [Hh [Hd [Hreq Hlast]]]]]]]];
        rewrite Hrun
    end.
    destruct out as [[]|e|]; [| |contradiction].
    + assert (Hend : ends_with_no_such_bucket
                       (Called (ListObjectsV2 (DOCUMENT_S3_BUCKET settings)) (inr pages)
                          :: evs) = false).
      { unfold ends_with_no_such_bucket. simpl map. rewrite last_cons.
        destruct (Hlast None) as [H|H]; now rewrite H. }
      unfold bind, print, ret.
      destruct (Z.eqb d 0);
        eexists _, (Called (ListObjectsV2 (DOCUMENT_S3_BUCKET settings)) (inr pages) :: evs), d;
        (split; [reflexivity|]);
        (split; [simpl; rewrite Hh; simpl; rewrite <- app_assoc; reflexivity|]);
        (split; [|exact Hreq]);
        rewrite Hend; simpl; lia.
    + destruct Hlast as [err [-> Hlast]]. cbn [isinstance]. unfold bind, print, ret.
      assert (Hend : ends_with_no_such_bucket
                       (Called (ListObjectsV2 (DOCUMENT_S3_BUCKET settings)) (inr pages)
                          :: evs)
                     = code_is (response_code (ClientError err)) "NoSuchBucket").
      { unfold ends_with_no_such_bucket. simpl map. now rewrite last_cons, Hlast. }
      destruct (code_is (response_code (ClientError err)) "NoSuchBucket");
        eexists _, (Called (ListObjectsV2 (DOCUMENT_S3_BUCKET settings)) (inr pages) :: evs), _;
        (split; [reflexivity|]);
        (split; [simpl; rewrite Hh; simpl; rewrite <- app_assoc; reflexivity|]);
        (split; [|exact Hreq]);
        rewrite Hend; simpl; lia.
Qed.

(** The count in the summary [cleanup_all] returns is the one
    [empty_document_bucket] returned, whatever [delete_document_bucket]
    returned after it. *)
Lemma cleanup_all_stores_the_count (w w' : World) (s : Cleanup.CleanupSummary) :
  Cleanup.cleanup_all oracle settings w = (w', Returned s) ->
  exists wa wb wc r,
    Cleanup.empty_document_bucket oracle settings wa
      = (wb, Returned (Cleanup.documents_deleted s)) /\
    Cleanup.delete_document_bucket oracle settings wb = (wc, Returned r) /\
    Cleanup.document_bucket_deleted s = r.
Proof.
  unfold Cleanup.cleanup_all. intros H.
  apply bind_returned in H. destruct H as (_ & w1 & _ & H). cbv zeta in H.
  apply bind_returned in H. destruct H as ([kb summary0] & w2 & _ & H).
  apply bind_returned in H. destruct H as (summary1 & w3 & _ & H).
  apply bind_returned in H. destruct H as (r1 & w4 & _ & H). cbv zeta in H.
  apply bind_returned in H. destruct H as (r2 & wa & _ & H). cbv zeta in H.
  apply bind_returned in H. destruct H as (n & wb & Hcount & H). cbv zeta in H.
  apply bind_returned in H. destruct H as (r & wc & Hbucket & H). cbv zeta in H.
  apply bind_returned in H. destruct H as (r3 & w5 & _ & H). cbv zeta in H.
  apply bind_returned in H. destruct H as (_ & w6 & _ & H).
  apply bind_returned in H. destruct H as (_ & w7 & _ & H).
  apply bind_returned in H. destruct H as (_ & w8 & _ & H).
  inversion H; subst. exists wa, wb, wc, r. simpl. auto.
Qed.

End PurgeCount.




(** ** The lookups *)

Lemma truthy_Some (o : option string) (s : string) :
  truthy o = Some s -> truthy (Some s) = Some s.
Proof. destruct o as [[|c rest]|]; simpl; intros H; inversion H; reflexivity. Qed.

Section Lookups.

Variable oracle : Oracle.
Variable settings : Settings.

Lemma resolve_knowledge_base_id_guarded {B}
    (handler : exn -> M B) (orelse : option string -> M B) :
  lookups_answer oracle ->
  (forall e, always_returns (handler e)) ->
  (forall a, always_returns (orelse a)) ->
  always_returns
    (try_except (Cleanup.resolve_knowledge_base_id oracle settings)
       [(T_ValueError, handler)] orelse).
Proof.
  intros [Hkb _] Hhandler Horelse w.
  unfold try_except at 1. unfold Cleanup.resolve_knowledge_base_id.
  destruct (truthy (KNOWLEDGE_BASE_ID settings)) as [kb|].
  - unfold try_except, call.
    destruct (oracle unit (history w) (GetKnowledgeBase kb)) as [[cls code msg]|[]] eqn:Ho.
    + apply Hkb in Ho. simpl in Ho. subst cls. simpl. apply Horelse.
    + simpl. apply Horelse.
  - simpl. apply Hhandler.
Qed.

Lemma resolve_data_source_guarded {B} (knowledge_base_id : string)
    (handler : exn -> M B) (orelse : option Cleanup.DataSourceInfo -> M B) :
  lookups_answer oracle ->
  (forall e, always_returns (handler e)) ->
  (forall a, always_returns (orelse a)) ->
  always_returns
    (try_except (Cleanup.resolve_data_source oracle settings knowledge_base_id)
       [(T_ValueError, handler)] orelse).
Proof.
  intros [_ Hds] Hhandler Horelse w.
  unfold try_except at 1. unfold Cleanup.resolve_data_source.
  destruct (truthy (DATA_SOURCE_ID settings)) as [ds|].
  - unfold try_except, call.
    destruct (oracle DataSourceData (history w) (GetDataSource knowledge_base_id ds))
      as [[cls code msg]|data] eqn:Ho.
    + apply Hds in Ho. simpl in Ho. subst cls. simpl. apply Horelse.
    + simpl. apply Horelse.
  - simpl. apply Hhandler.
Qed.

(** When the two lookups are answered with the resource or with "not
    found", [cleanup_all] returns a summary: no later step raises. *)
Lemma cleanup_all_returns_when_lookups_answer :
  lookups_answer oracle -> always_returns (Cleanup.cleanup_all oracle settings).
Proof.
  intros Hlookups. unfold Cleanup.cleanup_all.
  apply always_returns_bind; [apply always_returns_print|intros _]. cbv zeta.
  apply always_returns_bind.
  { apply resolve_knowledge_base_id_guarded; [exact Hlookups| |]; returns. }
  intros [kb summary0].
  apply always_returns_bind.
  { destruct (truthy kb) as [knowledge_base_id|]; [|returns].
    apply always_returns_bind.
    { apply resolve_data_source_guarded; [exact Hlookups| |]; returns. }
    intros [info summary1].
    apply always_returns_bind.
    { destruct info as [info|]; [|returns].
      apply always_returns_bind; [apply delete_data_source_returns|returns]. }
    intros summary2.
    apply always_returns_bind; [apply delete_knowledge_base_returns|returns]. }
  intros summary1.
  apply always_returns_bind; [apply delete_vector_index_returns|intros r1]. cbv zeta.
  apply always_returns_bind; [apply delete_vector_bucket_returns|intros r2]. cbv zeta.
  apply always_returns_bind.
  { intros w. destruct (empty_document_bucket_trace oracle settings w)
      as [w' [evs [n [Hrun _]]]]. now exists w', n. }
  intros n. cbv zeta.
  apply always_returns_bind; [apply delete_document_bucket_returns|intros r3]. cbv zeta.
  apply always_returns_bind; [apply delete_iam_role_returns|intros r4]. cbv zeta.
  apply always_returns_bind; [apply report_returns|intros _].
  returns.
Qed.

End Lookups.

(** C4 does not hold of the code: an error response to a lookup, other
    than "not found", is not captured in the summary: [cleanup_all] raises
    it.  This holds for the lookup of the knowledge base and, once that one
    has succeeded, for the lookup of the data source. *)
Theorem cleanup_all_raises_when_a_lookup_is_refused :
  forall (oracle : Oracle) (settings : Settings) (w : World) (kb : string)
         (err : ServiceError),
    truthy (KNOWLEDGE_BASE_ID settings) = Some kb ->
    error_class err <> ResourceNotFoundException ->
    (oracle unit (history w) (GetKnowledgeBase kb) = inl err ->
     exists w', Cleanup.cleanup_all oracle settings w = (w', Raised (ClientError err)))
    /\
    (forall ds,
        truthy (DATA_SOURCE_ID settings) = Some ds ->
        oracle unit (history w) (GetKnowledgeBase kb) = inr tt ->
        oracle DataSourceData (history w ++ [Called (GetKnowledgeBase kb) (inr tt)])
          (GetDataSource kb ds) = inl err ->
        exists w', Cleanup.cleanup_all oracle settings w = (w', Raised (ClientError err))).
Proof.
  intros oracle settings w kb [cls code msg] Hkb Hcls. simpl in Hcls. split.
  - intros Hget.
    unfold Cleanup.cleanup_all, Cleanup.resolve_knowledge_base_id.
    rewrite Hkb. unfold bind, print, try_except, call. simpl.
    rewrite Hget. destruct cls; simpl; try contradiction; eexists; reflexivity.
  - intros ds Hds Hget Hsource.
    pose proof (truthy_Some _ _ Hkb) as Hkb'.
    unfold Cleanup.cleanup_all, Cleanup.resolve_knowledge_base_id,
      Cleanup.resolve_data_source.
    rewrite Hkb, Hds. unfold bind, print, try_except, call. simpl.
    rewrite Hget. destruct kb as [|c rest]; [discriminate|]. simpl.
    rewrite Hsource. destruct cls; simpl; try contradiction; eexists; reflexivity.
Qed.

(** Each of the two lookups refused with AccessDeniedException. *)
Lemma cleanup_all_raises_when_a_lookup_is_refused_witness :
  (exists w',
      Cleanup.cleanup_all Fixtures.resolve_denied Fixtures.settings initial_world
        = (w', Raised (ClientError Fixtures.denied)))
  /\
  (exists w',
      Cleanup.cleanup_all Fixtures.source_denied Fixtures.settings initial_world
        = (w', Raised (ClientError Fixtures.denied))).
Proof.
  split.
  - apply (proj1 (cleanup_all_raises_when_a_lookup_is_refused
                    Fixtures.resolve_denied Fixtures.settings initial_world "KB1"
                    Fixtures.denied eq_refl ltac:(discriminate))).
    reflexivity.
  - apply (proj2 (cleanup_all_raises_when_a_lookup_is_refused
                    Fixtures.source_denied Fixtures.settings initial_world "KB1"
                    Fixtures.denied eq_refl ltac:(discriminate)) "DS1"%string);
      reflexivity.
Defined.

End CleanupSpec.

(* ================================================================== *)
(** * Properties of infra.py                                           *)
(* ================================================================== *)

Module InfraSpec.
Import Trace PySpec.
Local Open Scope list_scope.

Section Provisioning.

Variable oracle : Oracle.
Variable settings : Settings.
Variable json_dumps : json -> string.
Variable path_exists : string -> bool.
Variable rglob : string -> list DirEntry.

(** A step wrapped in [try: ... except Exception as exc: print; raise
    else: print]: it returns what the step returns after the success line,
    and raises what the step raises after the failure line. *)
Lemma wrapped_step {A} (step : M A) (label : string) (w : World) :
  try_except step
    [ (T_Exception, fun exc =>
         print ("[FAIL] " ++ label ++ ": " ++ str_exc exc)%string ;; raise exc) ]
    (fun v => print ("[SUCCESS] " ++ label)%string ;; ret v) w
  = match step w with
    | (w1, Returned v) => (succeeded label w1, Returned v)
    | (w1, Raised e) => (failed label e w1, Raised e)
    | (w1, OutOfFuel) => (w1, OutOfFuel)
    end.
Proof. unfold try_except. destruct (step w) as [w1 [v|e|]]; reflexivity. Qed.

Lemma _provision_document_bucket_run (w : World) :
  Infra._provision_document_bucket oracle settings w
  = match Infra.ensure_document_bucket oracle settings w with
    | (w1, Returned v) => (succeeded "document bucket" w1, Returned v)
    | (w1, Raised e) => (failed "document bucket" e w1, Raised e)
    | (w1, OutOfFuel) => (w1, OutOfFuel)
    end.
Proof. exact (wrapped_step _ "document bucket" w). Qed.

Lemma _provision_sample_documents_run (w : World) :
  Infra._provision_sample_documents oracle settings path_exists rglob w
  = match Infra.upload_sample_documents oracle settings path_exists rglob w with
    | (w1, Returned v) => (succeeded "sample document upload" w1, Returned tt)
    | (w1, Raised e) => (failed "sample document upload" e w1, Raised e)
    | (w1, OutOfFuel) => (w1, OutOfFuel)
    end.
Proof.
  unfold Infra._provision_sample_documents, try_except.
  destruct (Infra.upload_sample_documents oracle settings path_exists rglob w)
    as [w1 [v|e|]]; reflexivity.
Qed.

Lemma _provision_vector_bucket_and_index_run (w : World) :
  Infra._provision_vector_bucket_and_index oracle settings w
  = match Infra.ensure_vector_bucket_and_index oracle settings w with
    | (w1, Returned v) => (succeeded "S3 Vectors bucket and index" w1, Returned v)
    | (w1, Raised e) => (failed "S3 Vectors bucket and index" e w1, Raised e)
    | (w1, OutOfFuel) => (w1, OutOfFuel)
    end.
Proof. exact (wrapped_step _ "S3 Vectors bucket and index" w). Qed.

Lemma _provision_bedrock_kb_role_run (d vb vi : string) (w : World) :
  Infra._provision_bedrock_kb_role oracle settings json_dumps d vb vi w
  = match Infra.ensure_bedrock_kb_role oracle settings json_dumps d vb vi w with
    | (w1, Returned v) => (succeeded "Bedrock knowledge base role" w1, Returned v)
    | (w1, Raised e) => (failed "Bedrock knowledge base role" e w1, Raised e)
    | (w1, OutOfFuel) => (w1, OutOfFuel)
    end.
Proof. exact (wrapped_step _ "Bedrock knowledge base role" w). Qed.

Lemma _provision_knowledge_base_run (vb vi role : string) (w : World) :
  Infra._provision_knowledge_base oracle settings vb vi role w
  = match Infra.get_or_create_knowledge_base oracle settings vb vi role w with
    | (w1, Returned v) => (succeeded "knowledge base" w1, Returned v)
    | (w1, Raised e) => (failed "knowledge base" e w1, Raised e)
    | (w1, OutOfFuel) => (w1, OutOfFuel)
    end.
Proof. exact (wrapped_step _ "knowledge base" w). Qed.

Lemma _provision_data_source_run (kb d : string) (w : World) :
  Infra._provision_data_source oracle settings kb d w
  = match Infra.get_or_create_data_source oracle settings kb d w with
    | (w1, Returned v) => (succeeded "data source" w1, Returned v)
    | (w1, Raised e) => (failed "data source" e w1, Raised e)
    | (w1, OutOfFuel) => (w1, OutOfFuel)
    end.
Proof. exact (wrapped_step _ "data source" w). Qed.

End Provisioning.

Ltac ran lemma H := rewrite lemma, H; cbv beta iota zeta.

(** C6: when a step raises, [provision_all] raises the same exception; the
    world it leaves is the one the failing step left plus the failure line
    of that step, so no later step has run, nothing has been undone, and no
    result is returned.  One statement per step, each under the assumption
    that the steps before it returned. *)
Theorem provision_all_fails_fast :
  forall (oracle : Oracle) (settings : Settings) (json_dumps : json -> string)
         (path_exists : string -> bool) (rglob : string -> list DirEntry)
         (w : World) (e : exn),
    let provision_all := Infra.provision_all oracle settings json_dumps path_exists rglob in
    let document_bucket := Infra.ensure_document_bucket oracle settings in
    let upload := Infra.upload_sample_documents oracle settings path_exists rglob in
    let vectors := Infra.ensure_vector_bucket_and_index oracle settings in
    let role := Infra.ensure_bedrock_kb_role oracle settings json_dumps in
    let knowledge_base := Infra.get_or_create_knowledge_base oracle settings in
    let data_source := Infra.get_or_create_data_source oracle settings in
    (forall w1,
        document_bucket w = (w1, Raised e) ->
        provision_all w = (failed "document bucket" e w1, Raised e))
    /\
    (forall w1 d w2,
        document_bucket w = (w1, Returned d) ->
        upload (succeeded "document bucket" w1) = (w2, Raised e) ->
        provision_all w = (failed "sample document upload" e w2, Raised e))
    /\
    (forall w1 d w2 w3,
        document_bucket w = (w1, Returned d) ->
        upload (succeeded "document bucket" w1) = (w2, Returned tt) ->
        vectors (succeeded "sample document upload" w2) = (w3, Raised e) ->
        provision_all w = (failed "S3 Vectors bucket and index" e w3, Raised e))
    /\
    (forall w1 d w2 w3 vb vi w4,
        document_bucket w = (w1, Returned d) ->
        upload (succeeded "document bucket" w1) = (w2, Returned tt) ->
        vectors (succeeded "sample document upload" w2) = (w3, Returned (vb, vi)) ->
        role d vb vi (succeeded "S3 Vectors bucket and index" w3) = (w4, Raised e) ->
        provision_all w = (failed "Bedrock knowledge base role" e w4, Raised e))
    /\
    (forall w1 d w2 w3 vb vi w4 r w5,
        document_bucket w = (w1, Returned d) ->
        upload (succeeded "document bucket" w1) = (w2, Returned tt) ->
        vectors (succeeded "sample document upload" w2) = (w3, Returned (vb, vi)) ->
        role d vb vi (succeeded "S3 Vectors bucket and index" w3) = (w4, Returned r) ->
        knowledge_base vb vi r (succeeded "Bedrock knowledge base role" w4)
          = (w5, Raised e) ->
        provision_all w = (failed "knowledge base" e w5, Raised e))
    /\
    (forall w1 d w2 w3 vb vi w4 r w5 kb w6,
        document_bucket w = (w1, Returned d) ->
        upload (succeeded "document bucket" w1) = (w2, Returned tt) ->
        vectors (succeeded "sample document upload" w2) = (w3, Returned (vb, vi)) ->
        role d vb vi (succeeded "S3 Vectors bucket and index" w3) = (w4, Returned r) ->
        knowledge_base vb vi r (succeeded "Bedrock knowledge base role" w4)
          = (w5, Returned kb) ->
        data_source kb d (succeeded "knowledge base" w5) = (w6, Raised e) ->
        provision_all w = (failed "data source" e w6, Raised e)).
Proof.
  intros oracle settings json_dumps path_exists rglob w e.
  cbv zeta. unfold Infra.provision_all, bind.
  split; [|split; [|split; [|split; [|split]]]].
  - intros w1 H1.
    ran _provision_document_bucket_run H1. reflexivity.
  - intros w1 d w2 H1 H2.
    ran _provision_document_bucket_run H1.
    ran _provision_sample_documents_run H2. reflexivity.
  - intros w1 d w2 w3 H1 H2 H3.
    ran _provision_document_bucket_run H1.
    ran _provision_sample_documents_run H2.
    ran _provision_vector_bucket_and_index_run H3. reflexivity.
  - intros w1 d w2 w3 vb vi w4 H1 H2 H3 H4.
    ran _provision_document_bucket_run H1.
    ran _provision_sample_documents_run H2.
    ran _provision_vector_bucket_and_index_run H3.
    ran _provision_bedrock_kb_role_run H4. reflexivity.
  - intros w1 d w2 w3 vb vi w4 r w5 H1 H2 H3 H4 H5.
    ran _provision_document_bucket_run H1.
    ran _provision_sample_documents_run H2.
    ran _provision_vector_bucket_and_index_run H3.
    ran _provision_bedrock_kb_role_run H4.
    ran _provision_knowledge_base_run H5. reflexivity.
  - intros w1 d w2 w3 vb vi w4 r w5 kb w6 H1 H2 H3 H4 H5 H6.
    ran _provision_document_bucket_run H1.
    ran _provision_sample_documents_run H2.
    ran _provision_vector_bucket_and_index_run H3.
    ran _provision_bedrock_kb_role_run H4.
    ran _provision_knowledge_base_run H5.
    ran _provision_data_source_run H6. reflexivity.
Qed.

(** C3 (as the code has it): the result of [provision_all] holds four
    identifiers (knowledge-base ID, data-source ID, vector-bucket ARN and
    vector-index ARN), each one the value its provisioning step returned;
    all six steps have returned, in order, when [provision_all] returns. *)
Theorem provision_all_returns_what_the_steps_returned :
  forall (oracle : Oracle) (settings : Settings) (json_dumps : json -> string)
         (path_exists : string -> bool) (rglob : string -> list DirEntry)
         (w w' : World) (r : Infra.KnowledgeBaseResources),
    Infra.provision_all oracle settings json_dumps path_exists rglob w = (w', Returned r) ->
    exists w1 d w2 w3 vb vi w4 role w5 kb ds,
      Infra._provision_document_bucket oracle settings w = (w1, Returned d) /\
      Infra._provision_sample_documents oracle settings path_exists rglob w1
        = (w2, Returned tt) /\
      Infra._provision_vector_bucket_and_index oracle settings w2
        = (w3, Returned (vb, vi)) /\
      Infra._provision_bedrock_kb_role oracle settings json_dumps d vb vi w3
        = (w4, Returned role) /\
      Infra._provision_knowledge_base oracle settings vb vi role w4 = (w5, Returned kb) /\
      Infra._provision_data_source oracle settings kb d w5 = (w', Returned ds) /\
      r = {| Infra.knowledge_base_id := kb;
             Infra.data_source_id := ds;
             Infra.vector_bucket_arn := vb;
             Infra.vector_index_arn := vi |} /\
      Infra.asdict r
        = [ ("knowledge_base_id", kb); ("data_source_id", ds);
            ("vector_bucket_arn", vb); ("vector_index_arn", vi) ]%string.
Proof.
  intros oracle settings json_dumps path_exists rglob w w' r H.
  unfold Infra.provision_all in H.
  apply bind_returned in H. destruct H as (d & w1 & H1 & H).
  apply bind_returned in H. destruct H as ([] & w2 & H2 & H).
  apply bind_returned in H. destruct H as ([vb vi] & w3 & H3 & H).
  apply bind_returned in H. destruct H as (role & w4 & H4 & H).
  apply bind_returned in H. destruct H as (kb & w5 & H5 & H).
  apply bind_returned in H. destruct H as (ds & w6 & H6 & H).
  inversion H; subst.
  exists w1, d, w2, w3, vb, vi, w4, role, w5, kb, ds.
  repeat split; assumption.
Qed.

(** A run in which every resource is found. *)
Lemma provision_all_returns_what_the_steps_returned_witness :
  exists w1 d w2 w3 vb vi w4 role w5 kb ds,
    Infra._provision_document_bucket Fixtures.healthy Fixtures.settings initial_world
      = (w1, Returned d) /\
    Infra._provision_sample_documents Fixtures.healthy Fixtures.settings
        Fixtures.path_exists Fixtures.rglob w1
      = (w2, Returned tt) /\
    Infra._provision_vector_bucket_and_index Fixtures.healthy Fixtures.settings w2
      = (w3, Returned (vb, vi)) /\
    Infra._provision_bedrock_kb_role Fixtures.healthy Fixtures.settings
        Fixtures.json_dumps d vb vi w3
      = (w4, Returned role) /\
    Infra._provision_knowledge_base Fixtures.healthy Fixtures.settings vb vi role w4
      = (w5, Returned kb) /\
    Infra._provision_data_source Fixtures.healthy Fixtures.settings kb d w5
      = (fst (Infra.provision_all Fixtures.healthy Fixtures.settings Fixtures.json_dumps
                Fixtures.path_exists Fixtures.rglob initial_world),
         Returned ds) /\
    {| Infra.knowledge_base_id := "KB1";
       Infra.data_source_id := "DS1";
       Infra.vector_bucket_arn := "arn:aws:s3vectors:::bucket/vectors";
       Infra.vector_index_arn := "arn:aws:s3vectors:::bucket/vectors/index/index" |}
      = {| Infra.knowledge_base_id := kb;
           Infra.data_source_id := ds;
           Infra.vector_bucket_arn := vb;
           Infra.vector_index_arn := vi |} /\
    Infra.asdict
        {| Infra.knowledge_base_id := "KB1";
           Infra.data_source_id := "DS1";
           Infra.vector_bucket_arn := "arn:aws:s3vectors:::bucket/vectors";
           Infra.vector_index_arn := "arn:aws:s3vectors:::bucket/vectors/index/index" |}
      = [ ("knowledge_base_id", kb); ("data_source_id", ds);
          ("vector_bucket_arn", vb); ("vector_index_arn", vi) ]%string.
Proof.
  apply (provision_all_returns_what_the_steps_returned
           Fixtures.healthy Fixtures.settings Fixtures.json_dumps
           Fixtures.path_exists Fixtures.rglob initial_world).
  vm_compute. reflexivity.
Defined.

(** C3 (as stated) fails: the result has four identifiers, not five, and
    the ARN of the document bucket, which the first step returned, is not
    one of them. *)
Lemma provision_all_returns_four_identifiers :
  exists r,
    snd (Infra.provision_all Fixtures.healthy Fixtures.settings Fixtures.json_dumps
           Fixtures.path_exists Fixtures.rglob initial_world) = Returned r /\
    snd (Infra._provision_document_bucket Fixtures.healthy Fixtures.settings initial_world)
      = Returned "arn:aws:s3:::docs"%string /\
    length (Infra.asdict r) = 4 /\
    length (Infra.asdict r) <> 5 /\
    ~ In "arn:aws:s3:::docs"%string (map snd (Infra.asdict r)).
Proof.
  eexists. split; [vm_compute; reflexivity|].
  split; [vm_compute; reflexivity|].
  split; [reflexivity|]. split; [discriminate|].
  simpl. intros [H|[H|[H|[H|[]]]]]; discriminate.
Qed.

(** Six runs, each refused at the opening request of one step. *)
Lemma provision_all_fails_fast_witness :
  let e := ClientError Fixtures.denied in
  (snd (Fixtures.refused_run Fixtures.OpenDocumentBucket) = Raised e /\
   stdout (fst (Fixtures.refused_run Fixtures.OpenDocumentBucket))
     = ["[FAIL] document bucket: AccessDeniedException"%string])
  /\
  (snd (Fixtures.refused_run Fixtures.OpenUpload) = Raised e /\
   stdout (fst (Fixtures.refused_run Fixtures.OpenUpload))
     = ["[SUCCESS] document bucket";
        "[FAIL] sample document upload: AccessDeniedException"]%string)
  /\
  (snd (Fixtures.refused_run Fixtures.OpenVectors) = Raised e /\
   stdout (fst (Fixtures.refused_run Fixtures.OpenVectors))
     = ["[SUCCESS] document bucket"; "[SUCCESS] sample document upload";
        "[FAIL] S3 Vectors bucket and index: AccessDeniedException"]%string)
  /\
  (snd (Fixtures.refused_run Fixtures.OpenRole) = Raised e /\
   stdout (fst (Fixtures.refused_run Fixtures.OpenRole))
     = ["[SUCCESS] document bucket"; "[SUCCESS] sample document upload";
        "[SUCCESS] S3 Vectors bucket and index";
        "[FAIL] Bedrock knowledge base role: AccessDeniedException"]%string)
  /\
  (snd (Fixtures.refused_run Fixtures.OpenKnowledgeBase) = Raised e /\
   stdout (fst (Fixtures.refused_run Fixtures.OpenKnowledgeBase))
     = ["[SUCCESS] document bucket"; "[SUCCESS] sample document upload";
        "[SUCCESS] S3 Vectors bucket and index";
        "[SUCCESS] Bedrock knowledge base role";
        "[FAIL] knowledge base: AccessDeniedException"]%string)
  /\
  (snd (Fixtures.refused_run Fixtures.OpenDataSource) = Raised e /\
   stdout (fst (Fixtures.refused_run Fixtures.OpenDataSource))
     = ["[SUCCESS] document bucket"; "[SUCCESS] sample document upload";
        "[SUCCESS] S3 Vectors bucket and index";
        "[SUCCESS] Bedrock knowledge base role"; "[SUCCESS] knowledge base";
        "[FAIL] data source: AccessDeniedException"]%string).
Proof.
  intros e. unfold Fixtures.refused_run.
  pose (fails := fun o =>
          provision_all_fails_fast (Fixtures.deny o) Fixtures.settings Fixtures.json_dumps
            Fixtures.path_exists Fixtures.rglob initial_world e).
  cbv zeta in fails.
  pose (doc := fun o => Infra.ensure_document_bucket (Fixtures.deny o) Fixtures.settings).
  pose (up := fun o => Infra.upload_sample_documents (Fixtures.deny o) Fixtures.settings
                         Fixtures.path_exists Fixtures.rglob).
  pose (vec := fun o => Infra.ensure_vector_bucket_and_index (Fixtures.deny o)
                          Fixtures.settings).
  pose (role := fun o => Infra.ensure_bedrock_kb_role (Fixtures.deny o) Fixtures.settings
                           Fixtures.json_dumps).
  pose (kbase := fun o => Infra.get_or_create_knowledge_base (Fixtures.deny o)
                            Fixtures.settings).
  pose (w1 := fun o => fst (doc o initial_world)).
  pose (w2 := fun o => fst (up o (succeeded "document bucket" (w1 o)))).
  pose (w3 := fun o => fst (vec o (succeeded "sample document upload" (w2 o)))).
  pose (w4 := fun o =>
          fst (role o "arn:aws:s3:::docs" "arn:aws:s3vectors:::bucket/vectors"
                 "arn:aws:s3vectors:::bucket/vectors/index/index"
                 (succeeded "S3 Vectors bucket and index" (w3 o)))%string).
  pose (w5 := fun o =>
          fst (kbase o "arn:aws:s3vectors:::bucket/vectors"
                 "arn:aws:s3vectors:::bucket/vectors/index/index"
                 "arn:aws:iam:::role/BedrockKnowledgeBaseRole"
                 (succeeded "Bedrock knowledge base role" (w4 o)))%string).
  split; [|split; [|split; [|split; [|split]]]].
  - rewrite (proj1 (fails Fixtures.OpenDocumentBucket)
               (w1 Fixtures.OpenDocumentBucket)); [split|]; vm_compute; reflexivity.
  - rewrite (proj1 (proj2 (fails Fixtures.OpenUpload))
               (w1 Fixtures.OpenUpload) "arn:aws:s3:::docs"%string
               (w2 Fixtures.OpenUpload)); [split| |]; vm_compute; reflexivity.
  - rewrite (proj1 (proj2 (proj2 (fails Fixtures.OpenVectors)))
               (w1 Fixtures.OpenVectors) "arn:aws:s3:::docs"%string
               (w2 Fixtures.OpenVectors) (w3 Fixtures.OpenVectors));
      [split| | |]; vm_compute; reflexivity.
  - rewrite (proj1 (proj2 (proj2 (proj2 (fails Fixtures.OpenRole))))
               (w1 Fixtures.OpenRole) "arn:aws:s3:::docs"%string
               (w2 Fixtures.OpenRole) (w3 Fixtures.OpenRole)
               "arn:aws:s3vectors:::bucket/vectors"%string
               "arn:aws:s3vectors:::bucket/vectors/index/index"%string
               (w4 Fixtures.OpenRole));
      [split| | | |]; vm_compute; reflexivity.
  - rewrite (proj1 (proj2 (proj2 (proj2 (proj2 (fails Fixtures.OpenKnowledgeBase)))))
               (w1 Fixtures.OpenKnowledgeBase) "arn:aws:s3:::docs"%string
               (w2 Fixtures.OpenKnowledgeBase) (w3 Fixtures.OpenKnowledgeBase)
               "arn:aws:s3vectors:::bucket/vectors"%string
               "arn:aws:s3vectors:::bucket/vectors/index/index"%string
               (w4 Fixtures.OpenKnowledgeBase)
               "arn:aws:iam:::role/BedrockKnowledgeBaseRole"%string
               (w5 Fixtures.OpenKnowledgeBase));
      [split| | | | |]; vm_compute; reflexivity.
  - rewrite (proj2 (proj2 (proj2 (proj2 (proj2 (fails Fixtures.OpenDataSource)))))
               (w1 Fixtures.OpenDataSource) "arn:aws:s3:::docs"%string
               (w2 Fixtures.OpenDataSource) (w3 Fixtures.OpenDataSource)
               "arn:aws:s3vectors:::bucket/vectors"%string
               "arn:aws:s3vectors:::bucket/vectors/index/index"%string
               (w4 Fixtures.OpenDataSource)
               "arn:aws:iam:::role/BedrockKnowledgeBaseRole"%string
               (w5 Fixtures.OpenDataSource) "KB1"%string
               (fst (Infra.get_or_create_data_source (Fixtures.deny Fixtures.OpenDataSource)
                       Fixtures.settings "KB1" "arn:aws:s3:::docs"
                       (succeeded "knowledge base" (w5 Fixtures.OpenDataSource)))));
      [split| | | | | |]; vm_compute; reflexivity.
Defined.

End InfraSpec.

(* ================================================================== *)
(** * More properties of sync.py                                       *)
(* ================================================================== *)

Module SyncMore.
Import Trace.
Local Open Scope list_scope.

Lemma count_cons (p : Event -> bool) (ev : Event) (evs : list Event) :
  count p (ev :: evs) = (if p ev then 1 else 0) + count p evs.
Proof. unfold count. simpl. now destruct (p ev). Qed.

Lemma count_app (p : Event -> bool) (a b : list Event) :
  count p (a ++ b) = count p a + count p b.
Proof. unfold count. now rewrite filter_app, length_app. Qed.

Lemma inject_succ (n : nat) :
  (inject_Z (Z.of_nat (S n)) == inject_Z (Z.of_nat n) + 1)%Q.
Proof. rewrite Nat2Z.inj_succ. unfold Z.succ. now rewrite inject_Z_plus. Qed.

Section Bounds.

Variable oracle : Oracle.
Variable float_str : Q -> string.
Variables kb ds jid : string.
Variables poll timeout : Q.
Variable on_update : option (IngestionStatus -> Job -> M unit).

Let loop := Sync.wait_for_sync_loop oracle float_str kb ds jid poll timeout on_update.

Hypothesis on_update_is_quiet : quiet on_update.

Lemma notified (job : Job) (w : World) :
  exists w',
    (match on_update with
     | Some f => f (status job) job
     | None => ret tt
     end) w = (w', Returned tt) /\ history w' = history w.
Proof.
  destruct on_update as [f|]; [apply on_update_is_quiet|].
  exists w. split; reflexivity.
Qed.

(** With a positive poll interval, the loop polls at most [n] times when
    fewer than [n] intervals are left before the timeout, and it ends. *)
Lemma loop_bounded (n : nat) :
  (0 < poll)%Q ->
  forall (fuel : nat) (waited : Q) (w : World),
    (timeout - waited < inject_Z (Z.of_nat n) * poll)%Q ->
    n < fuel ->
    exists w' r evs,
      loop fuel waited w = (w', r) /\
      history w' = history w ++ evs /\
      count is_poll evs <= n /\
      r <> OutOfFuel.
Proof.
  intros Hpos. induction n as [|n IH]; intros fuel waited w Hleft Hfuel.
  - destruct fuel as [|fuel]; [lia|].
    exists w, (Raised (TimeoutError (Sync.timeout_message float_str jid timeout))), [].
    split.
    + apply SyncSpec.loop_timeout.
      destruct (Qle_bool waited timeout) eqn:E; [|reflexivity].
      apply Qle_bool_iff in E.
      change (inject_Z (Z.of_nat 0)) with 0%Q in Hleft. lra.
    + rewrite app_nil_r. repeat split; [apply Nat.le_refl|discriminate].
  - destruct fuel as [|fuel]; [lia|].
    unfold loop. simpl. destruct (Qle_bool waited timeout) eqn:Hle.
    + unfold bind at 1. unfold call.
      destruct (oracle Job (history w) (GetIngestionJob kb ds jid)) as [err|job].
      * eexists _, _, [_]. split; [reflexivity|]. split; [reflexivity|].
        split; [rewrite count_cons; simpl; unfold count; simpl; lia|discriminate].
      * unfold bind at 1.
        destruct (notified job
                    (record_event (Called (GetIngestionJob kb ds jid) (inr job)) w))
          as [w1 [Hcb Hh]].
        rewrite Hcb. destruct (Sync.terminal (status job)).
        -- eexists _, _, [_]. split; [reflexivity|]. split; [simpl; now rewrite Hh|].
           split; [rewrite count_cons; simpl; unfold count; simpl; lia|discriminate].
        -- unfold bind, sleep.
           assert (Hpoll : Qle_bool 0 poll = true) by (apply Qle_bool_iff; lra).
           rewrite Hpoll.
           destruct (IH fuel (waited + poll)%Q (record_event (Slept poll) w1))
             as [w' [r [evs [Hrun [Hhist [Hcount Hr]]]]]].
           { rewrite inject_succ in Hleft. lra. }
           { lia. }
           fold loop. rewrite Hrun.
           exists w', r,
             (Called (GetIngestionJob kb ds jid) (inr job) :: Slept poll :: evs).
           split; [reflexivity|]. split.
           ++ rewrite Hhist. simpl. rewrite Hh. simpl. now rewrite <- !app_assoc.
           ++ split; [rewrite !count_cons; simpl; lia|exact Hr].
    + exists w, (Raised (TimeoutError (Sync.timeout_message float_str jid timeout))), [].
      rewrite app_nil_r. repeat split; [unfold count; simpl; lia|discriminate].
Qed.

(** On a job that never finishes, with a positive poll interval, the loop
    polls and sleeps once for every multiple of the interval that fits in
    the time left, that is [n + 1] times when [n] intervals fit and
    [n + 1] do not, and then raises the timeout error. *)
Lemma loop_exact (n : nat) :
  (0 < poll)%Q ->
  never_terminal oracle kb ds jid ->
  forall (fuel : nat) (waited : Q) (w : World),
    (waited + inject_Z (Z.of_nat n) * poll <= timeout)%Q ->
    (timeout < waited + inject_Z (Z.of_nat (S n)) * poll)%Q ->
    S n < fuel ->
    exists w' evs,
      loop fuel waited w
        = (w', Raised (TimeoutError (Sync.timeout_message float_str jid timeout))) /\
      history w' = history w ++ evs /\
      count is_poll evs = S n /\
      count is_sleep evs = S n /\
      count is_stop_request evs = 0.
Proof.
  intros Hpos Hnever.
  assert (Hpoll : Qle_bool 0 poll = true) by (apply Qle_bool_iff; lra).
  induction n as [|n IH]; intros fuel waited w Hfits Hnot Hfuel.
  - destruct fuel as [|[|fuel]]; try lia.
    destruct (SyncSpec.loop_round oracle float_str kb ds jid poll timeout on_update
                on_update_is_quiet (S fuel) waited w Hnever Hpoll)
      as [job [w1 [Hh Hr]]].
    { apply Qle_bool_iff. change (inject_Z (Z.of_nat 0)) with 0%Q in Hfits. lra. }
    unfold loop. rewrite Hr. rewrite SyncSpec.loop_timeout.
    + exists w1. eexists. split; [reflexivity|]. split; [exact Hh|].
      repeat split.
    + destruct (Qle_bool (waited + poll) timeout) eqn:E; [|reflexivity].
      apply Qle_bool_iff in E.
      change (inject_Z (Z.of_nat 1)) with 1%Q in Hnot. lra.
  - destruct fuel as [|fuel]; [lia|].
    destruct (SyncSpec.loop_round oracle float_str kb ds jid poll timeout on_update
                on_update_is_quiet fuel waited w Hnever Hpoll)
      as [job [w1 [Hh Hr]]].
    { apply Qle_bool_iff. rewrite inject_succ in Hfits. 
      assert (0 <= inject_Z (Z.of_nat n))%Q
        by (change 0%Q with (inject_Z 0); rewrite <- Zle_Qle; lia).
      nra. }
    destruct (IH fuel (waited + poll)%Q w1) as [w' [evs [Hrun [Hhist [Hp [Hs Hstop]]]]]].
    { rewrite inject_succ in Hfits. lra. }
    { rewrite (inject_succ (S n)) in Hnot. rewrite inject_succ in Hnot |- *. lra. }
    { lia. }
    unfold loop. rewrite Hr. fold loop. rewrite Hrun.
    exists w'.
    exists (Called (GetIngestionJob kb ds jid) (inr job) :: Slept poll :: evs).
    split; [reflexivity|]. split.
    + rewrite Hhist, Hh, <- app_assoc. reflexivity.
    + rewrite !count_cons. simpl. rewrite Hp, Hs, Hstop. repeat split; lia.
Qed.

(** On a job that never finishes, a poll interval of zero keeps the time
    waited at zero: every round polls again and the loop does not end. *)
Lemma loop_spins :
  (poll == 0)%Q ->
  never_terminal oracle kb ds jid ->
  forall (fuel : nat) (waited : Q) (w : World),
    Qle_bool waited timeout = true ->
    exists w' evs,
      loop fuel waited w = (w', OutOfFuel) /\
      history w' = history w ++ evs /\
      count is_poll evs = fuel.
Proof.
  intros Hzero Hnever.
  assert (Hpoll : Qle_bool 0 poll = true) by (apply Qle_bool_iff; lra).
  induction fuel as [|fuel IH]; intros waited w Hle.
  - exists w, []. rewrite app_nil_r. repeat split.
  - destruct (SyncSpec.loop_round oracle float_str kb ds jid poll timeout on_update
                on_update_is_quiet fuel waited w Hnever Hpoll Hle)
      as [job [w1 [Hh Hr]]].
    destruct (IH (waited + poll)%Q w1) as [w' [evs [Hrun [Hhist Hcount]]]].
    { apply Qle_bool_iff. apply Qle_bool_iff in Hle. lra. }
    unfold loop. rewrite Hr. fold loop. rewrite Hrun.
    exists w', (Called (GetIngestionJob kb ds jid) (inr job) :: Slept poll :: evs).
    split; [reflexivity|]. split.
    + rewrite Hhist, Hh, <- app_assoc. reflexivity.
    + rewrite !count_cons. simpl. now rewrite Hcount.
Qed.

(** When the loop returns a job, its last exchange is the poll that
    fetched that job, and every status fetched before was not terminal. *)
Lemma loop_returns_last (fuel : nat) :
  forall (waited : Q) (w w' : World) (job : Job),
    loop fuel waited w = (w', Returned job) ->
    exists before,
      history w'
        = history w ++ before ++ [Called (GetIngestionJob kb ds jid) (inr job)] /\
      forallb (fun s => negb (Sync.terminal s)) (fetched before) = true /\
      Sync.terminal (status job) = true.
Proof.
  induction fuel as [|fuel IH]; intros waited w w' job Hrun; [discriminate|].
  unfold loop in Hrun. simpl in Hrun.
  destruct (Qle_bool waited timeout); [|discriminate].
  unfold bind at 1 in Hrun. unfold call in Hrun.
  destruct (oracle Job (history w) (GetIngestionJob kb ds jid)) as [err|fetched_job];
    [discriminate|].
  unfold bind at 1 in Hrun.
  destruct (notified fetched_job
              (record_event (Called (GetIngestionJob kb ds jid) (inr fetched_job)) w))
    as [w1 [Hcb Hh]].
  rewrite Hcb in Hrun. destruct (Sync.terminal (status fetched_job)) eqn:Ht.
  - inversion Hrun; subst. exists []. split; [rewrite Hh; reflexivity|].
    split; [reflexivity|exact Ht].
  - unfold bind, sleep in Hrun. destruct (Qle_bool 0 poll); [|discriminate].
    apply IH in Hrun. destruct Hrun as [before [Hhist [Hnon Hterm]]].
    exists (Called (GetIngestionJob kb ds jid) (inr fetched_job) :: Slept poll :: before).
    split.
    + rewrite Hhist. simpl. rewrite Hh. simpl. now rewrite <- !app_assoc.
    + split; [|exact Hterm]. simpl. now rewrite Ht, Hnon.
Qed.

End Bounds.

(** The callback of [main] returns normally and makes no request. *)
Lemma on_update_makes_no_request (strftime_now : list Event -> string) :
  quiet (Some (Sync.on_update strftime_now)).
Proof.
  intros st job w. unfold Sync.on_update.
  destruct (Sync.status_differs st (last_status w)); eexists; split; reflexivity.
Qed.



(** X2: on a job that never reaches a terminal status, with a positive
    poll interval, [wait_for_sync] polls exactly [n + 1] times, [n] being
    the number of whole poll intervals in the timeout, sleeps after each
    poll, makes no stop request, and raises the timeout error. *)
Theorem wait_for_sync_polls_once_per_interval :
  forall (oracle : Oracle) (float_str : Q -> string) (kb ds jid : string)
         (poll timeout : Q) (on_update : option (IngestionStatus -> Job -> M unit))
         (n fuel : nat) (w : World),
    quiet on_update ->
    (0 < poll)%Q ->
    never_terminal oracle kb ds jid ->
    (inject_Z (Z.of_nat n) * poll <= timeout)%Q ->
    (timeout < inject_Z (Z.of_nat (S n)) * poll)%Q ->
    S n < fuel ->
    exists w' evs,
      Sync.wait_for_sync oracle float_str kb ds jid poll timeout on_update fuel w
        = (w', Raised (TimeoutError (Sync.timeout_message float_str jid timeout))) /\
      history w' = history w ++ evs /\
      count is_poll evs = S n /\
      count is_sleep evs = S n /\
      count is_stop_request evs = 0.
Proof.
  intros oracle float_str kb ds jid poll timeout on_update n fuel w
         Hq Hpos Hnever Hfits Hnot Hfuel.
  apply (loop_exact oracle float_str kb ds jid poll timeout on_update Hq n Hpos Hnever
           fuel 0%Q w); [lra|lra|exact Hfuel].
Qed.

(** A timeout of 50 seconds polled every 20 seconds: three polls. *)
Lemma wait_for_sync_polls_once_per_interval_witness :
  exists w' evs,
    Sync.wait_for_sync Fixtures.endless_job Fixtures.float_str "KB1" "DS1" "JOB1"
        20 50 None 10 initial_world
      = (w', Raised (TimeoutError (Sync.timeout_message Fixtures.float_str "JOB1" 50))) /\
    history w' = history initial_world ++ evs /\
    count is_poll evs = 3 /\
    count is_sleep evs = 3 /\
    count is_stop_request evs = 0.
Proof.
  apply (wait_for_sync_polls_once_per_interval Fixtures.endless_job Fixtures.float_str
           "KB1" "DS1" "JOB1" 20 50 None 2 10 initial_world).
  - exact I.
  - reflexivity.
  - intros h. exists (Fixtures.job_with IN_PROGRESS). split; reflexivity.
  - discriminate.
  - reflexivity.
  - lia.
Defined.

(** X3: with a poll interval of zero and a timeout that is not negative,
    [wait_for_sync] never ends on a job that never reaches a terminal
    status: the time waited stays at zero, so whatever number of rounds it
    is given, it uses them all polling, without a timeout error. *)
Theorem wait_for_sync_spins_on_zero_interval :
  forall (oracle : Oracle) (float_str : Q -> string) (kb ds jid : string)
         (poll timeout : Q) (on_update : option (IngestionStatus -> Job -> M unit))
         (fuel : nat) (w : World),
    quiet on_update ->
    (poll == 0)%Q ->
    (0 <= timeout)%Q ->
    never_terminal oracle kb ds jid ->
    exists w' evs,
      Sync.wait_for_sync oracle float_str kb ds jid poll timeout on_update fuel w
        = (w', OutOfFuel) /\
      history w' = history w ++ evs /\
      count is_poll evs = fuel.
Proof.
  intros oracle float_str kb ds jid poll timeout on_update fuel w Hq Hzero Htimeout Hnever.
  apply (loop_spins oracle float_str kb ds jid poll timeout on_update Hq Hzero Hnever).
  now apply Qle_bool_iff.
Qed.

Lemma wait_for_sync_spins_on_zero_interval_witness :
  exists w' evs,
    Sync.wait_for_sync Fixtures.endless_job Fixtures.float_str "KB1" "DS1" "JOB1"
        0 40 None 25 initial_world
      = (w', OutOfFuel) /\
    history w' = history initial_world ++ evs /\
    count is_poll evs = 25.
Proof.
  apply (wait_for_sync_spins_on_zero_interval Fixtures.endless_job Fixtures.float_str
           "KB1" "DS1" "JOB1" 0 40 None 25 initial_world).
  - exact I.
  - reflexivity.
  - discriminate.
  - intros h. exists (Fixtures.job_with IN_PROGRESS). split; reflexivity.
Defined.

(** X4: when [wait_for_sync] returns a job, the last exchange is the poll
    that fetched it, and every status fetched before it was not terminal:
    the first terminal status ends the wait. *)
Theorem wait_for_sync_returns_the_last_fetch :
  forall (oracle : Oracle) (float_str : Q -> string) (kb ds jid : string)
         (poll timeout : Q) (on_update : option (IngestionStatus -> Job -> M unit))
         (fuel : nat) (w w' : World) (job : Job),
    quiet on_update ->
    Sync.wait_for_sync oracle float_str kb ds jid poll timeout on_update fuel w
      = (w', Returned job) ->
    exists before,
      history w'
        = history w ++ before ++ [Called (GetIngestionJob kb ds jid) (inr job)] /\
      forallb (fun s => negb (Sync.terminal s)) (fetched before) = true /\
      Sync.terminal (status job) = true.
Proof.
  intros oracle float_str kb ds jid poll timeout on_update fuel w w' job Hq Hrun.
  exact (loop_returns_last oracle float_str kb ds jid poll timeout on_update Hq
           fuel 0%Q w w' job Hrun).
Qed.

Lemma wait_for_sync_returns_the_last_fetch_witness :
  exists before,
    history (fst (Sync.wait_for_sync Fixtures.five_polls Fixtures.float_str
                    "KB1" "DS1" "JOB1" 20 3600 None 10 initial_world))
      = history initial_world ++ before
          ++ [Called (GetIngestionJob "KB1" "DS1" "JOB1")
                (inr (Fixtures.job_with COMPLETE))] /\
    forallb (fun s => negb (Sync.terminal s)) (fetched before) = true /\
    Sync.terminal (status (Fixtures.job_with COMPLETE)) = true.
Proof.
  apply (wait_for_sync_returns_the_last_fetch Fixtures.five_polls Fixtures.float_str
           "KB1" "DS1" "JOB1" 20 3600 None 10 initial_world).
  - exact I.
  - vm_compute. reflexivity.
Defined.

(** X5: when the knowledge-base ID or the data-source ID is missing from
    the settings or is the empty string, [main] ends with [SystemExit] on a
    message (exit status 1) before anything is printed or requested. *)
Theorem main_refuses_missing_identifiers :
  forall (oracle : Oracle) (settings : Settings) (uuid4 strftime_now : list Event -> string)
         (float_str : Q -> string) (fuel : nat) (w : World),
    truthy (KNOWLEDGE_BASE_ID settings) = None \/ truthy (DATA_SOURCE_ID settings) = None ->
    exists msg,
      Sync.main oracle settings uuid4 strftime_now float_str fuel w
        = (w, Returned (Sync.ExitMessage msg)) /\
      Sync.exit_status (Sync.ExitMessage msg) = 1%Z.
Proof.
  intros oracle settings uuid4 strftime_now float_str fuel w Hmissing.
  unfold Sync.main.
  destruct (truthy (KNOWLEDGE_BASE_ID settings)) as [kb|],
           (truthy (DATA_SOURCE_ID settings)) as [ds|];
    try (destruct Hmissing; discriminate);
    eexists; split; reflexivity.
Qed.

(** An empty knowledge-base ID counts as missing. *)
Lemma main_refuses_missing_identifiers_witness :
  exists msg,
    Sync.main Fixtures.healthy Scenarios.unconfigured Fixtures.uuid4 Fixtures.strftime_now
        Fixtures.float_str 10 initial_world
      = (initial_world, Returned (Sync.ExitMessage msg)) /\
    Sync.exit_status (Sync.ExitMessage msg) = 1%Z.
Proof.
  apply (main_refuses_missing_identifiers Fixtures.healthy Scenarios.unconfigured
           Fixtures.uuid4 Fixtures.strftime_now Fixtures.float_str 10 initial_world).
  left. reflexivity.
Defined.

(** X6: an error response is not turned into an exit status.  When a poll
    is answered with an error, [wait_for_sync] raises it at once, without
    calling the callback or sleeping; and when the start request is
    answered with an error, [main] raises it, having printed one line and
    polled nothing: only [TimeoutError] is handled in [main]. *)
Theorem service_errors_escape_the_sync :
  forall (oracle : Oracle) (settings : Settings) (uuid4 strftime_now : list Event -> string)
         (float_str : Q -> string) (kb ds : string) (fuel : nat) (w : World)
         (err : ServiceError),
    (forall (jid : string) (poll timeout : Q)
            (on_update : option (IngestionStatus -> Job -> M unit)),
        (0 <= timeout)%Q ->
        oracle Job (history w) (GetIngestionJob kb ds jid) = inl err ->
        Sync.wait_for_sync oracle float_str kb ds jid poll timeout on_update (S fuel) w
          = (record_event (Called (GetIngestionJob kb ds jid) (inl err)) w,
             Raised (ClientError err)))
    /\
    (truthy (KNOWLEDGE_BASE_ID settings) = Some kb ->
     truthy (DATA_SOURCE_ID settings) = Some ds ->
     oracle string (history w) (StartIngestionJob kb ds (uuid4 (history w))) = inl err ->
     exists w',
       Sync.main oracle settings uuid4 strftime_now float_str fuel w
         = (w', Raised (ClientError err)) /\
       history w'
         = history w ++ [Called (StartIngestionJob kb ds (uuid4 (history w))) (inl err)] /\
       length (stdout w') = S (length (stdout w))).
Proof.
  intros oracle settings uuid4 strftime_now float_str kb ds fuel w err. split.
  - intros jid poll timeout on_update Htimeout Hpoll.
    unfold Sync.wait_for_sync. simpl.
    assert (Hle : Qle_bool 0 timeout = true) by (now apply Qle_bool_iff).
    rewrite Hle. unfold bind, call. now rewrite Hpoll.
  - intros Hkb Hds Hstart. unfold Sync.main. rewrite Hkb, Hds.
    unfold bind at 1. unfold print at 1.
    unfold bind at 1. unfold Sync.start_sync, call.
    change (history (print_line _ w)) with (history w). rewrite Hstart.
    eexists. split; [reflexivity|]. split; [reflexivity|].
    simpl. rewrite length_app. simpl. lia.
Qed.

Lemma service_errors_escape_the_sync_witness :
  Sync.wait_for_sync Scenarios.unreachable Fixtures.float_str "KB1" "DS1" "JOB1"
      20 3600 (Some (Sync.on_update Fixtures.strftime_now)) 1 initial_world
    = (record_event (Called (GetIngestionJob "KB1" "DS1" "JOB1") (inl Fixtures.denied))
         initial_world,
       Raised (ClientError Fixtures.denied))
  /\
  (exists w',
      Sync.main Scenarios.unreachable Fixtures.settings Fixtures.uuid4
          Fixtures.strftime_now Fixtures.float_str 0 initial_world
        = (w', Raised (ClientError Fixtures.denied)) /\
      history w'
        = history initial_world
            ++ [Called (StartIngestionJob "KB1" "DS1"
                          (Fixtures.uuid4 (history initial_world)))
                  (inl Fixtures.denied)] /\
      length (stdout w') = S (length (stdout initial_world))).
Proof.
  destruct (service_errors_escape_the_sync Scenarios.unreachable Fixtures.settings
              Fixtures.uuid4 Fixtures.strftime_now Fixtures.float_str "KB1" "DS1" 0
              initial_world Fixtures.denied) as [Hpoll Hstart].
  split.
  - apply Hpoll; [discriminate|reflexivity].
  - apply Hstart; reflexivity.
Defined.

(** X7: when the job never reaches a terminal status, [main], which polls
    every 20 seconds for at most 3600, polls 181 times, prints the message
    of the timeout error as its last line and ends with
    [SystemExit(1)]. *)
Theorem main_exits_with_one_on_timeout :
  forall (oracle : Oracle) (settings : Settings) (uuid4 strftime_now : list Event -> string)
         (float_str : Q -> string) (kb ds jid : string) (fuel : nat) (w : World),
    truthy (KNOWLEDGE_BASE_ID settings) = Some kb ->
    truthy (DATA_SOURCE_ID settings) = Some ds ->
    oracle string (history w) (StartIngestionJob kb ds (uuid4 (history w))) = inr jid ->
    never_terminal oracle kb ds jid ->
    181 < fuel ->
    exists w' evs,
      Sync.main oracle settings uuid4 strftime_now float_str fuel w
        = (w', Returned (Sync.ExitCode 1)) /\
      history w'
        = history w
            ++ Called (StartIngestionJob kb ds (uuid4 (history w))) (inr jid) :: evs /\
      count is_poll evs = 181 /\
      last (stdout w') EmptyString
        = ("Ingestion job " ++ jid ++ " did not finish within "
             ++ float_str 3600%Q ++ " seconds")%string.
Proof.
  intros oracle settings uuid4 strftime_now float_str kb ds jid fuel w
         Hkb Hds Hstart Hnever Hfuel.
  unfold Sync.main. rewrite Hkb, Hds.
  unfold bind at 1. unfold print at 1.
  unfold bind at 1. unfold Sync.start_sync, call.
  change (history (print_line _ w)) with (history w). rewrite Hstart.
  unfold bind at 1. unfold print at 1.
  unfold bind at 1. unfold Sync.set_last_status at 1.
  unfold try_except.
  match goal with
  | |- context [Sync.wait_for_sync _ _ _ _ _ _ _ _ _ ?polling] =>
      destruct (wait_for_sync_polls_once_per_interval oracle float_str kb ds jid
                  Sync.default_poll_seconds Sync.default_timeout_seconds
                  (Some (Sync.on_update strftime_now)) 180 fuel polling)
        as [w' [evs [Hrun [Hh [Hpolls _]]]]]
  end.
  - apply on_update_makes_no_request.
  - reflexivity.
  - exact Hnever.
  - vm_compute. discriminate.
  - reflexivity.
  - exact Hfuel.
  - rewrite Hrun. cbn [find isinstance fst]. unfold bind, print, ret.
    eexists _, evs. split; [reflexivity|]. split; [|split].
    + simpl. rewrite Hh. simpl. now rewrite <- app_assoc.
    + exact Hpolls.
    + simpl stdout. apply last_last.
Qed.

Lemma main_exits_with_one_on_timeout_witness :
  exists w' evs,
    Sync.main Fixtures.endless_job Fixtures.settings Fixtures.uuid4 Fixtures.strftime_now
        Fixtures.float_str 200 initial_world
      = (w', Returned (Sync.ExitCode 1)) /\
    history w'
      = history initial_world
          ++ Called (StartIngestionJob "KB1" "DS1" (Fixtures.uuid4 (history initial_world)))
               (inr "JOB1"%string) :: evs /\
    count is_poll evs = 181 /\
    last (stdout w') EmptyString
      = ("Ingestion job " ++ "JOB1" ++ " did not finish within "
           ++ Fixtures.float_str 3600%Q ++ " seconds")%string.
Proof.
  apply (main_exits_with_one_on_timeout Fixtures.endless_job Fixtures.settings
           Fixtures.uuid4 Fixtures.strftime_now Fixtures.float_str "KB1" "DS1" "JOB1"
           200 initial_world).
  - reflexivity.
  - reflexivity.
  - reflexivity.
  - intros h. exists (Fixtures.job_with IN_PROGRESS). split; reflexivity.
  - lia.
Defined.

End SyncMore.

(* ================================================================== *)
(** * Footprints of computations                                       *)
(* ================================================================== *)

Module Footprints.
Import Trace Observe.
Local Open Scope list_scope.

Lemma footprint_ret {A} (p : Event -> bool) (a : A) : footprint p (ret a).
Proof. intros w. exists []. simpl. now rewrite app_nil_r. Qed.

Lemma footprint_raise {A} (p : Event -> bool) (e : exn) : footprint p (@raise A e).
Proof. intros w. exists []. simpl. now rewrite app_nil_r. Qed.

Lemma footprint_print (p : Event -> bool) (line : string) : footprint p (print line).
Proof. intros w. exists []. simpl. now rewrite app_nil_r. Qed.

Lemma footprint_call (p : Event -> bool) (oracle : Oracle) {R} (c : Call R) :
  (forall r, p (Called c r) = true) -> footprint p (call oracle c).
Proof.
  intros Hp w. exists [Called c (oracle R (history w) c)]. unfold call.
  destruct (oracle R (history w) c) eqn:Ho; simpl; rewrite Hp; auto.
Qed.

Lemma footprint_bind {A B} (p : Event -> bool) (m : M A) (k : A -> M B) :
  footprint p m -> (forall a, footprint p (k a)) -> footprint p (bind m k).
Proof.
  intros Hm Hk w. unfold bind. destruct (Hm w) as [evs [Hh Hp]].
  destruct (m w) as [w1 [a|e|]]; simpl in Hh.
  - destruct (Hk a w1) as [evs' [Hh' Hp']]. exists (evs ++ evs').
    rewrite Hh', Hh, app_assoc. split; [reflexivity|].
    rewrite forallb_app. now rewrite Hp, Hp'.
  - exists evs. auto.
  - exists evs. auto.
Qed.

Lemma footprint_for_each {A} (p : Event -> bool) (xs : list A) (body : A -> M unit) :
  (forall x, footprint p (body x)) -> footprint p (for_each xs body).
Proof.
  intros Hbody. induction xs as [|x xs IH]; simpl.
  - apply footprint_ret.
  - apply footprint_bind; [apply Hbody|intros _; exact IH].
Qed.

Lemma footprint_try_except {A B} (p : Event -> bool) (body : M A)
    (handlers : list (exc_type * (exn -> M B))) (orelse : A -> M B) :
  footprint p body ->
  (forall t h e, In (t, h) handlers -> footprint p (h e)) ->
  (forall a, footprint p (orelse a)) ->
  footprint p (try_except body handlers orelse).
Proof.
  intros Hbody Hhandlers Horelse w. unfold try_except.
  destruct (Hbody w) as [evs [Hh Hp]].
  destruct (body w) as [w1 [a|e|]]; simpl in Hh.
  - destruct (Horelse a w1) as [evs' [Hh' Hp']]. exists (evs ++ evs').
    rewrite Hh', Hh, app_assoc. split; [reflexivity|].
    rewrite forallb_app. now rewrite Hp, Hp'.
  - destruct (find (fun h => isinstance e (fst h)) handlers) as [[t h]|] eqn:Hfind.
    + apply find_some in Hfind. destruct Hfind as [Hin _].
      destruct (Hhandlers t h e Hin w1) as [evs' [Hh' Hp']]. exists (evs ++ evs').
      rewrite Hh', Hh, app_assoc. split; [reflexivity|].
      rewrite forallb_app. now rewrite Hp, Hp'.
    + exists evs. auto.
  - exists evs. auto.
Qed.

(** A footprint can be read off a run. *)
Lemma footprint_run {A} (p : Event -> bool) (m : M A) (w w' : World) (out : Outcome A) :
  footprint p m -> m w = (w', out) ->
  exists evs, history w' = history w ++ evs /\ all p evs.
Proof. intros Hm Hrun. destruct (Hm w) as [evs H]. rewrite Hrun in H. now exists evs. Qed.

Lemma silent_ret {A} (a : A) : silent (ret a).
Proof. intros w. reflexivity. Qed.

Lemma silent_raise {A} (e : exn) : silent (@raise A e).
Proof. intros w. reflexivity. Qed.

Lemma silent_call (oracle : Oracle) {R} (c : Call R) : silent (call oracle c).
Proof. intros w. unfold call. now destruct (oracle R (history w) c). Qed.

Lemma silent_bind {A B} (m : M A) (k : A -> M B) :
  silent m -> (forall a, silent (k a)) -> silent (bind m k).
Proof.
  intros Hm Hk w. unfold bind. specialize (Hm w).
  destruct (m w) as [w1 [a|e|]]; simpl in Hm; [|exact Hm|exact Hm].
  now rewrite Hk.
Qed.

Lemma silent_for_each {A} (xs : list A) (body : A -> M unit) :
  (forall x, silent (body x)) -> silent (for_each xs body).
Proof.
  intros Hbody. induction xs as [|x xs IH]; simpl.
  - apply silent_ret.
  - apply silent_bind; [apply Hbody|intros _; exact IH].
Qed.

Lemma silent_try_except {A B} (body : M A)
    (handlers : list (exc_type * (exn -> M B))) (orelse : A -> M B) :
  silent body ->
  (forall t h e, In (t, h) handlers -> silent (h e)) ->
  (forall a, silent (orelse a)) ->
  silent (try_except body handlers orelse).
Proof.
  intros Hbody Hhandlers Horelse w. unfold try_except. specialize (Hbody w).
  destruct (body w) as [w1 [a|e|]]; simpl in Hbody; [now rewrite Horelse| |exact Hbody].
  destruct (find (fun h => isinstance e (fst h)) handlers) as [[t h]|] eqn:Hfind;
    [|exact Hbody].
  apply find_some in Hfind. destruct Hfind as [Hin _].
  now rewrite (Hhandlers t h e Hin).
Qed.

Lemma phases_nil (shapes : list (list Event -> Prop)) :
  Forall (fun shape => shape []) shapes -> phases shapes [].
Proof.
  induction 1 as [|shape rest Hshape _ IH]; simpl; [reflexivity|].
  exists [], []. auto.
Qed.

Lemma phases_app (s1 s2 : list (list Event -> Prop)) (a b : list Event) :
  phases s1 a -> phases s2 b -> phases (s1 ++ s2) (a ++ b).
Proof.
  revert a. induction s1 as [|shape rest IH]; intros a Ha Hb; simpl in *.
  - subst a. exact Hb.
  - destruct Ha as [segment [later [-> [Hs Hl]]]].
    exists segment, (later ++ b). rewrite app_assoc. auto.
Qed.

Lemma phases_one_shape (shape : list Event -> Prop) (evs : list Event) :
  shape evs -> phases [shape] evs.
Proof. intros H. exists evs, []. rewrite app_nil_r. simpl. auto. Qed.

End Footprints.

(* ================================================================== *)
(** * More properties of cleanup.py                                    *)
(* ================================================================== *)

Module CleanupMore.
Import Trace Observe PySpec Footprints.
Local Open Scope list_scope.

(** One round of a [for] loop. *)
Lemma for_each_cons {A} (x : A) (xs : list A) (body : A -> M unit) (w : World) :
  for_each (x :: xs) body w
  = match body x w with
    | (w1, Returned _) => for_each xs body w1
    | (w1, Raised e) => (w1, Raised e)
    | (w1, OutOfFuel) => (w1, OutOfFuel)
    end.
Proof. reflexivity. Qed.

Section Steps.

Variable oracle : Oracle.
Variable settings : Settings.

(** The outcome of a deletion answered with [r], for a step that reads
    "not found" as the class [absent] and, when [lenient], accepts a
    conflict. *)
Let outcome (absent : client_exception) (lenient : bool) (r : ServiceError + unit)
    : option bool :=
  match r with
  | inr _ => Some true
  | inl err =>
      if client_exception_eqb (error_class err) absent then None
      else if lenient && client_exception_eqb (error_class err) ConflictException
           then Some true
           else Some false
  end.

Lemma delete_knowledge_base_run (knowledge_base_id : string) (w : World) :
  exists w',
    Cleanup.delete_knowledge_base oracle knowledge_base_id w
      = (w', Returned (outcome ResourceNotFoundException true
                         (oracle unit (history w) (DeleteKnowledgeBase knowledge_base_id)))) /\
    history w'
      = history w
          ++ [Called (DeleteKnowledgeBase knowledge_base_id)
                (oracle unit (history w) (DeleteKnowledgeBase knowledge_base_id))].
Proof.
  unfold Cleanup.delete_knowledge_base, bind, print, try_except, call. simpl.
  destruct (oracle unit (history w) _) as [[[] code msg]|[]]; simpl;
    eexists; split; reflexivity.
Qed.

Lemma delete_vector_index_run (w : World) :
  let request := DeleteIndex (VECTOR_BUCKET_NAME settings) (VECTOR_INDEX_NAME settings) in
  exists w',
    Cleanup.delete_vector_index oracle settings w
      = (w', Returned (outcome NotFoundException false
                         (oracle unit (history w) request))) /\
    history w' = history w ++ [Called request (oracle unit (history w) request)].
Proof.
  unfold Cleanup.delete_vector_index, bind, print, try_except, call. simpl.
  destruct (oracle unit (history w) _) as [[[] code msg]|[]]; simpl;
    eexists; split; reflexivity.
Qed.

Lemma delete_vector_bucket_run (w : World) :
  let request := DeleteVectorBucket (VECTOR_BUCKET_NAME settings) in
  exists w',
    Cleanup.delete_vector_bucket oracle settings w
      = (w', Returned (outcome NotFoundException false
                         (oracle unit (history w) request))) /\
    history w' = history w ++ [Called request (oracle unit (history w) request)].
Proof.
  unfold Cleanup.delete_vector_bucket, bind, print, try_except, call. simpl.
  destruct (oracle unit (history w) _) as [[[] code msg]|[]]; simpl;
    eexists; split; reflexivity.
Qed.

Lemma delete_document_bucket_run (w : World) :
  let request := DeleteBucket (DOCUMENT_S3_BUCKET settings) in
  exists w',
    Cleanup.delete_document_bucket oracle settings w
      = (w', Returned
               match oracle unit (history w) request with
               | inr _ => Some true
               | inl err =>
                   if code_is (error_code err) "NoSuchBucket" then None else Some false
               end) /\
    history w' = history w ++ [Called request (oracle unit (history w) request)].
Proof.
  unfold Cleanup.delete_document_bucket, bind, print, try_except, call. simpl.
  destruct (oracle unit (history w) _) as [[cls code msg]|[]]; simpl.
  - destruct (code_is code "NoSuchBucket"); simpl;
      [|destruct (code_is code "BucketNotEmpty"); simpl];
      eexists; split; reflexivity.
  - eexists; split; reflexivity.
Qed.

(** The keyword arguments of the [update_data_source] request. *)
Let retain (info : Cleanup.DataSourceInfo) : UpdateDataSourceArgs :=
  {| upd_knowledgeBaseId := Cleanup.knowledge_base_id info;
     upd_dataSourceId := Cleanup.data_source_id info;
     upd_name := Cleanup.name info;
     upd_dataSourceConfiguration := Cleanup.configuration info;
     upd_dataDeletionPolicy := "RETAIN";
     upd_description := Cleanup.description info |}.

Lemma delete_data_source_run (info : Cleanup.DataSourceInfo) (w : World) :
  let update := UpdateDataSource (retain info) in
  let delete := DeleteDataSource (Cleanup.knowledge_base_id info)
                  (Cleanup.data_source_id info) in
  let r1 := oracle unit (history w) update in
  let r2 := oracle unit (history w ++ [Called update r1]) delete in
  exists w',
    Cleanup.delete_data_source oracle info w
      = (w', Returned (outcome ResourceNotFoundException true r2)) /\
    history w' = history w ++ [Called update r1; Called delete r2].
Proof.
  cbv zeta. unfold retain.
  unfold Cleanup.delete_data_source, bind, print, try_except, call. simpl.
  destruct (oracle unit (history w) _) as [[[] ucode umsg]|[]]; simpl;
    match goal with
    | |- context [oracle unit ?h ?c] =>
        destruct (oracle unit h c) as [[[] code msg]|[]]
    end; simpl; eexists; (split; [reflexivity|]); simpl;
    rewrite <- app_assoc; reflexivity.
Qed.

(** The loop that deletes the inline policies, when every deletion
    succeeds. *)
Lemma inline_policies_deleted (role_name : string) (names : list string) :
  (forall h p, oracle unit h (DeleteRolePolicy role_name p) = inr tt) ->
  forall w, exists w',
    for_each names (fun policy_name =>
      bind (call oracle (DeleteRolePolicy role_name policy_name)) (fun _ =>
      print ("[cleanup] インラインポリシー削除: " ++ policy_name)%string)) w
      = (w', Returned tt) /\
    history w'
      = history w
          ++ map (fun p => Called (DeleteRolePolicy role_name p) (inr tt)) names.
Proof.
  intros Hdelete. induction names as [|p names IH]; intros w.
  - exists w. simpl. now rewrite app_nil_r.
  - rewrite for_each_cons.
    match goal with
    | |- context [bind (call oracle ?c) ?k w] =>
        assert (Hstep : bind (call oracle c) k w
                        = (print_line ("[cleanup] インラインポリシー削除: " ++ p)%string
                             (record_event (Called c (inr tt)) w), Returned tt))
          by (unfold bind, call, print; now rewrite Hdelete);
        rewrite Hstep
    end.
    match goal with
    | |- context [for_each names _ ?w1] => destruct (IH w1) as [w' [Hrun Hh]]
    end.
    exists w'. split; [exact Hrun|].
    rewrite Hh. simpl. now rewrite <- app_assoc.
Qed.

(** The loop that detaches the managed policies, when every request
    succeeds. *)
Lemma managed_policies_detached (role_name : string) (attached : list AttachedPolicy) :
  (forall h a, oracle unit h (DetachRolePolicy role_name a) = inr tt) ->
  forall w, exists w',
    for_each attached (fun policy =>
      bind (call oracle (DetachRolePolicy role_name (PolicyArn policy))) (fun _ =>
      print ("[cleanup] マネージドポリシーをデタッチ: " ++ PolicyName policy)%string)) w
      = (w', Returned tt) /\
    history w'
      = history w
          ++ map (fun a => Called (DetachRolePolicy role_name (PolicyArn a)) (inr tt))
               attached.
Proof.
  intros Hdetach. induction attached as [|a attached IH]; intros w.
  - exists w. simpl. now rewrite app_nil_r.
  - rewrite for_each_cons.
    match goal with
    | |- context [bind (call oracle ?c) ?k w] =>
        assert (Hstep : bind (call oracle c) k w
                        = (print_line ("[cleanup] マネージドポリシーをデタッチ: "
                                         ++ PolicyName a)%string
                             (record_event (Called c (inr tt)) w), Returned tt))
          by (unfold bind, call, print; now rewrite Hdetach);
        rewrite Hstep
    end.
    match goal with
    | |- context [for_each attached _ ?w1] => destruct (IH w1) as [w' [Hrun Hh]]
    end.
    exists w'. split; [exact Hrun|].
    rewrite Hh. simpl. now rewrite <- app_assoc.
Qed.

Lemma delete_iam_role_footprint :
  footprint is_role_request (Cleanup.delete_iam_role oracle settings).
Proof.
  unfold Cleanup.delete_iam_role.
  apply footprint_bind; [apply footprint_print|intros _].
  apply footprint_try_except.
  - apply footprint_bind.
    + apply footprint_try_except.
      * apply footprint_bind; [apply footprint_call; reflexivity|intros names].
        apply footprint_for_each. intros p.
        apply footprint_bind; [apply footprint_call; reflexivity|intros _].
        apply footprint_print.
      * intros t h e [Heq|[]]. injection Heq as <- <-.
        apply footprint_bind; [apply footprint_print|intros _; apply footprint_ret].
      * intros _. apply footprint_ret.
    + intros [|]; [apply footprint_ret|].
      apply footprint_bind; [apply footprint_call; reflexivity|intros attached].
      apply footprint_bind.
      * apply footprint_for_each. intros a.
        apply footprint_bind; [apply footprint_call; reflexivity|intros _].
        apply footprint_print.
      * intros _. apply footprint_bind; [apply footprint_call; reflexivity|intros _].
        apply footprint_ret.
  - intros t h e [Heq|[Heq|[]]]; injection Heq as <- <-;
      repeat first [apply footprint_bind | apply footprint_print
                   | apply footprint_ret | intro].
  - intros [|]; repeat first [apply footprint_bind | apply footprint_print
                             | apply footprint_ret | intro].
Qed.

End Steps.

(** X8: a resource the service reports absent is not a failure: each
    deletion step returns [None] when its delete request is answered with
    "not found" ([ResourceNotFoundException] for the data source and the
    knowledge base, [NotFoundException] for the vector index and bucket, the
    code [NoSuchBucket] for the document bucket), and [delete_iam_role]
    returns [None], after that one request, when the listing of the inline
    policies is answered with [NoSuchEntityException]. *)
Theorem absent_resources_are_left_unset :
  forall (oracle : Oracle) (settings : Settings) (w : World) (err : ServiceError),
    (forall info : Cleanup.DataSourceInfo,
        (forall h, oracle unit h (DeleteDataSource (Cleanup.knowledge_base_id info)
                                    (Cleanup.data_source_id info)) = inl err) ->
        error_class err = ResourceNotFoundException ->
        exists w', Cleanup.delete_data_source oracle info w = (w', Returned None))
    /\
    (forall knowledge_base_id : string,
        oracle unit (history w) (DeleteKnowledgeBase knowledge_base_id) = inl err ->
        error_class err = ResourceNotFoundException ->
        exists w',
          Cleanup.delete_knowledge_base oracle knowledge_base_id w = (w', Returned None))
    /\
    (oracle unit (history w)
       (DeleteIndex (VECTOR_BUCKET_NAME settings) (VECTOR_INDEX_NAME settings)) = inl err ->
     error_class err = NotFoundException ->
     exists w', Cleanup.delete_vector_index oracle settings w = (w', Returned None))
    /\
    (oracle unit (history w) (DeleteVectorBucket (VECTOR_BUCKET_NAME settings)) = inl err ->
     error_class err = NotFoundException ->
     exists w', Cleanup.delete_vector_bucket oracle settings w = (w', Returned None))
    /\
    (oracle unit (history w) (DeleteBucket (DOCUMENT_S3_BUCKET settings)) = inl err ->
     code_is (error_code err) "NoSuchBucket" = true ->
     exists w', Cleanup.delete_document_bucket oracle settings w = (w', Returned None))
    /\
    (oracle (option (list string)) (history w)
       (ListRolePolicies (BEDROCK_ROLE_NAME settings)) = inl err ->
     error_class err = NoSuchEntityException ->
     exists w',
       Cleanup.delete_iam_role oracle settings w = (w', Returned None) /\
       history w'
         = history w ++ [Called (ListRolePolicies (BEDROCK_ROLE_NAME settings)) (inl err)]).
Proof.
  intros oracle settings w err. repeat split.
  - intros info Hdelete Hcls.
    destruct (delete_data_source_run oracle info w) as [w' [Hrun _]].
    cbv zeta in Hrun. rewrite Hdelete in Hrun. rewrite Hcls in Hrun. now exists w'.
  - intros kb Hdelete Hcls.
    destruct (delete_knowledge_base_run oracle kb w) as [w' [Hrun _]].
    rewrite Hdelete, Hcls in Hrun. now exists w'.
  - intros Hdelete Hcls.
    destruct (delete_vector_index_run oracle settings w) as [w' [Hrun _]].
    rewrite Hdelete, Hcls in Hrun. now exists w'.
  - intros Hdelete Hcls.
    destruct (delete_vector_bucket_run oracle settings w) as [w' [Hrun _]].
    rewrite Hdelete, Hcls in Hrun. now exists w'.
  - intros Hdelete Hcode.
    destruct (delete_document_bucket_run oracle settings w) as [w' [Hrun _]].
    rewrite Hdelete, Hcode in Hrun. now exists w'.
  - intros Hlist Hcls. destruct err as [cls code msg]. simpl in Hcls. subst cls.
    unfold Cleanup.delete_iam_role, bind, print, try_except, call. simpl.
    rewrite Hlist. simpl. eexists. split; reflexivity.
Qed.

(** An account in which nothing exists. *)
Lemma absent_resources_are_left_unset_witness :
  (exists w',
      Cleanup.delete_data_source Scenarios.empty_account Scenarios.data_source
        initial_world = (w', Returned None))
  /\
  (exists w',
      Cleanup.delete_knowledge_base Scenarios.empty_account "KB1" initial_world
        = (w', Returned None))
  /\
  (exists w',
      Cleanup.delete_vector_index Scenarios.empty_account Fixtures.settings initial_world
        = (w', Returned None))
  /\
  (exists w',
      Cleanup.delete_vector_bucket Scenarios.empty_account Fixtures.settings initial_world
        = (w', Returned None))
  /\
  (exists w',
      Cleanup.delete_document_bucket Scenarios.empty_account Fixtures.settings
        initial_world = (w', Returned None))
  /\
  (exists w',
      Cleanup.delete_iam_role Scenarios.empty_account Fixtures.settings initial_world
        = (w', Returned None) /\
      history w'
        = history initial_world
            ++ [Called (ListRolePolicies "BedrockKnowledgeBaseRole")
                  (inl (Scenarios.missing NoSuchEntityException "NoSuchEntity"))]).
Proof.
  pose (absent := fun err =>
          absent_resources_are_left_unset Scenarios.empty_account Fixtures.settings
            initial_world err).
  split; [|split; [|split; [|split; [|split]]]].
  - apply (proj1 (absent (Scenarios.missing ResourceNotFoundException
                            "ResourceNotFoundException")));
      [intros h|]; reflexivity.
  - apply (proj1 (proj2 (absent (Scenarios.missing ResourceNotFoundException
                                   "ResourceNotFoundException"))));
      reflexivity.
  - apply (proj1 (proj2 (proj2 (absent (Scenarios.missing NotFoundException
                                          "NotFoundException")))));
      reflexivity.
  - apply (proj1 (proj2 (proj2 (proj2 (absent (Scenarios.missing NotFoundException
                                                 "NotFoundException"))))));
      reflexivity.
  - apply (proj1 (proj2 (proj2 (proj2 (proj2
             (absent (Scenarios.missing OtherClientError "NoSuchBucket")))))));
      reflexivity.
  - apply (proj2 (proj2 (proj2 (proj2 (proj2
             (absent (Scenarios.missing NoSuchEntityException "NoSuchEntity")))))));
      reflexivity.
Defined.

(** X9: the deletion of the knowledge base, of the vector index, of the
    vector bucket and of the document bucket returns [True] when its delete
    request succeeds, and [False] when the request is answered with an error
    that is neither "not found" nor, for the knowledge base, a conflict; for
    the document bucket, with any error code other than [NoSuchBucket],
    [BucketNotEmpty] included.  In each case the request is made once. *)
Theorem deletion_outcomes :
  forall (oracle : Oracle) (settings : Settings) (w : World),
    (forall knowledge_base_id : string,
        let request := DeleteKnowledgeBase knowledge_base_id in
        exists w' result,
          Cleanup.delete_knowledge_base oracle knowledge_base_id w = (w', Returned result) /\
          history w' = history w ++ [Called request (oracle unit (history w) request)] /\
          (oracle unit (history w) request = inr tt -> result = Some true) /\
          (forall err,
              oracle unit (history w) request = inl err ->
              error_class err <> ResourceNotFoundException ->
              error_class err <> ConflictException ->
              result = Some false))
    /\
    (let request := DeleteIndex (VECTOR_BUCKET_NAME settings) (VECTOR_INDEX_NAME settings) in
     exists w' result,
       Cleanup.delete_vector_index oracle settings w = (w', Returned result) /\
       history w' = history w ++ [Called request (oracle unit (history w) request)] /\
       (oracle unit (history w) request = inr tt -> result = Some true) /\
       (forall err,
           oracle unit (history w) request = inl err ->
           error_class err <> NotFoundException ->
           result = Some false))
    /\
    (let request := DeleteVectorBucket (VECTOR_BUCKET_NAME settings) in
     exists w' result,
       Cleanup.delete_vector_bucket oracle settings w = (w', Returned result) /\
       history w' = history w ++ [Called request (oracle unit (history w) request)] /\
       (oracle unit (history w) request = inr tt -> result = Some true) /\
       (forall err,
           oracle unit (history w) request = inl err ->
           error_class err <> NotFoundException ->
           result = Some false))
    /\
    (let request := DeleteBucket (DOCUMENT_S3_BUCKET settings) in
     exists w' result,
       Cleanup.delete_document_bucket oracle settings w = (w', Returned result) /\
       history w' = history w ++ [Called request (oracle unit (history w) request)] /\
       (oracle unit (history w) request = inr tt -> result = Some true) /\
       (forall err,
           oracle unit (history w) request = inl err ->
           code_is (error_code err) "NoSuchBucket" = false ->
           result = Some false)).
Proof.
  intros oracle settings w. split; [|split; [|split]].
  - intros kb. cbv zeta.
    destruct (delete_knowledge_base_run oracle kb w) as [w' [Hrun Hh]].
    eexists w', _. split; [exact Hrun|]. split; [exact Hh|]. split.
    + intros ->. reflexivity.
    + intros [cls code msg] -> Hn Hc. simpl in Hn, Hc.
      destruct cls; simpl; congruence.
  - cbv zeta. destruct (delete_vector_index_run oracle settings w) as [w' [Hrun Hh]].
    eexists w', _. split; [exact Hrun|]. split; [exact Hh|]. split.
    + intros ->. reflexivity.
    + intros [cls code msg] -> Hn. simpl in Hn. destruct cls; simpl; congruence.
  - cbv zeta. destruct (delete_vector_bucket_run oracle settings w) as [w' [Hrun Hh]].
    eexists w', _. split; [exact Hrun|]. split; [exact Hh|]. split.
    + intros ->. reflexivity.
    + intros [cls code msg] -> Hn. simpl in Hn. destruct cls; simpl; congruence.
  - cbv zeta. destruct (delete_document_bucket_run oracle settings w) as [w' [Hrun Hh]].
    eexists w', _. split; [exact Hrun|]. split; [exact Hh|]. split.
    + intros ->. reflexivity.
    + intros err -> Hcode. now rewrite Hcode.
Qed.

(** A bucket that is not empty, and services that accept every request. *)
Lemma deletion_outcomes_witness :
  (exists w',
      Cleanup.delete_document_bucket Fixtures.bucket_not_empty Fixtures.settings
        initial_world = (w', Returned (Some false)))
  /\
  (exists w',
      Cleanup.delete_knowledge_base Fixtures.healthy "KB1" initial_world
        = (w', Returned (Some true))).
Proof.
  split.
  - destruct (proj2 (proj2 (proj2 (deletion_outcomes Fixtures.bucket_not_empty
                                     Fixtures.settings initial_world))))
      as [w' [result [Hrun [_ [_ Hfalse]]]]].
    exists w'. rewrite Hrun.
    rewrite (Hfalse (Fixtures.error OtherClientError "BucketNotEmpty"));
      reflexivity.
  - destruct (proj1 (deletion_outcomes Fixtures.healthy Fixtures.settings initial_world)
                "KB1"%string) as [w' [result [Hrun [_ [Htrue _]]]]].
    exists w'. rewrite Hrun. rewrite Htrue; reflexivity.
Defined.

(** X10: [delete_data_source] makes two requests, in this order and
    whatever the first one is answered with: an [update_data_source] that
    sets [dataDeletionPolicy] to RETAIN and repeats the name, the
    configuration and the description (if any) of the data source, then the
    [delete_data_source].  It returns in every case. *)
Theorem delete_data_source_retains_before_deleting :
  forall (oracle : Oracle) (info : Cleanup.DataSourceInfo) (w : World),
    exists w' result r1 r2,
      Cleanup.delete_data_source oracle info w = (w', Returned result) /\
      history w'
        = history w
            ++ [Called (UpdateDataSource
                          {| upd_knowledgeBaseId := Cleanup.knowledge_base_id info;
                             upd_dataSourceId := Cleanup.data_source_id info;
                             upd_name := Cleanup.name info;
                             upd_dataSourceConfiguration := Cleanup.configuration info;
                             upd_dataDeletionPolicy := "RETAIN";
                             upd_description := Cleanup.description info |}) r1;
                Called (DeleteDataSource (Cleanup.knowledge_base_id info)
                          (Cleanup.data_source_id info)) r2].
Proof.
  intros oracle info w.
  destruct (delete_data_source_run oracle info w) as [w' [Hrun Hh]].
  cbv zeta in Hrun, Hh. eexists w', _, _, _. split; [exact Hrun|exact Hh].
Qed.

(** X11: when every IAM request succeeds, [delete_iam_role] returns
    [True] after these requests, in this order: the listing of the inline
    policies, the deletion of each of them, the listing of the attached
    policies, the detachment of each of them, and only then the deletion of
    the role. *)
Theorem delete_iam_role_empties_the_role_first :
  forall (oracle : Oracle) (settings : Settings) (w : World)
         (names : option (list string)) (attached : option (list AttachedPolicy)),
    let role_name := BEDROCK_ROLE_NAME settings in
    (forall h, oracle _ h (ListRolePolicies role_name) = inr names) ->
    (forall h p, oracle unit h (DeleteRolePolicy role_name p) = inr tt) ->
    (forall h, oracle _ h (ListAttachedRolePolicies role_name) = inr attached) ->
    (forall h a, oracle unit h (DetachRolePolicy role_name a) = inr tt) ->
    (forall h, oracle unit h (DeleteRole role_name) = inr tt) ->
    exists w',
      Cleanup.delete_iam_role oracle settings w = (w', Returned (Some true)) /\
      history w'
        = history w
            ++ [Called (ListRolePolicies role_name) (inr names)]
            ++ map (fun p => Called (DeleteRolePolicy role_name p) (inr tt))
                 (get_or_empty names)
            ++ [Called (ListAttachedRolePolicies role_name) (inr attached)]
            ++ map (fun a => Called (DetachRolePolicy role_name (PolicyArn a)) (inr tt))
                 (get_or_empty attached)
            ++ [Called (DeleteRole role_name) (inr tt)].
Proof.
  intros oracle settings w names attached role_name Hlist Hdelete Hattached Hdetach Hrole.
  unfold Cleanup.delete_iam_role. fold role_name.
  unfold bind at 1. unfold print at 1.
  unfold try_except at 1. unfold bind at 1. unfold try_except at 1.
  unfold bind at 1. unfold call at 1. rewrite Hlist.
  match goal with
  | |- context [for_each (get_or_empty names) _ ?w1] =>
      destruct (inline_policies_deleted oracle role_name (get_or_empty names) Hdelete w1)
        as [w2 [Hloop1 Hh1]]
  end.
  rewrite Hloop1. unfold ret at 1.
  unfold bind at 1. unfold call at 1. rewrite Hattached.
  unfold bind at 1.
  match goal with
  | |- context [for_each (get_or_empty attached) _ ?w3] =>
      destruct (managed_policies_detached oracle role_name (get_or_empty attached)
                  Hdetach w3) as [w4 [Hloop2 Hh2]]
  end.
  rewrite Hloop2. unfold bind at 1. unfold call at 1. rewrite Hrole.
  unfold ret at 1. unfold bind, print, ret.
  eexists. split; [reflexivity|].
  simpl. rewrite Hh2. simpl. rewrite Hh1. simpl.
  rewrite <- !app_assoc. reflexivity.
Qed.

Lemma delete_iam_role_empties_the_role_first_witness :
  exists w',
    Cleanup.delete_iam_role Fixtures.healthy Fixtures.settings initial_world
      = (w', Returned (Some true)) /\
    history w'
      = history initial_world
          ++ [Called (ListRolePolicies "BedrockKnowledgeBaseRole")
                (inr (Some ["S3Access"; "S3VectorsAccess"; "BedrockModelAccess"]%string))]
          ++ map (fun p => Called (DeleteRolePolicy "BedrockKnowledgeBaseRole" p) (inr tt))
               (get_or_empty (Some ["S3Access"; "S3VectorsAccess";
                                    "BedrockModelAccess"]%string))
          ++ [Called (ListAttachedRolePolicies "BedrockKnowledgeBaseRole")
                (inr (Some []))]
          ++ map (fun a => Called (DetachRolePolicy "BedrockKnowledgeBaseRole"
                                     (PolicyArn a)) (inr tt))
               (get_or_empty (Some []))
          ++ [Called (DeleteRole "BedrockKnowledgeBaseRole") (inr tt)].
Proof.
  apply (delete_iam_role_empties_the_role_first Fixtures.healthy Fixtures.settings
           initial_world
           (Some ["S3Access"; "S3VectorsAccess"; "BedrockModelAccess"]%string)
           (Some []));
    intros; reflexivity.
Defined.

(** X12: no error response makes a step of the teardown raise: the six
    deletion steps, the purge of the document bucket and the final report
    return in every world, whatever the services answer. *)
Theorem teardown_steps_never_raise :
  forall (oracle : Oracle) (settings : Settings),
    (forall info, always_returns (Cleanup.delete_data_source oracle info)) /\
    (forall kb, always_returns (Cleanup.delete_knowledge_base oracle kb)) /\
    always_returns (Cleanup.delete_vector_index oracle settings) /\
    always_returns (Cleanup.delete_vector_bucket oracle settings) /\
    always_returns (Cleanup.empty_document_bucket oracle settings) /\
    always_returns (Cleanup.delete_document_bucket oracle settings) /\
    always_returns (Cleanup.delete_iam_role oracle settings) /\
    (forall summary, always_returns (Cleanup.report summary)).
Proof.
  intros oracle settings. repeat split.
  - apply CleanupSpec.delete_data_source_returns.
  - apply CleanupSpec.delete_knowledge_base_returns.
  - apply CleanupSpec.delete_vector_index_returns.
  - apply CleanupSpec.delete_vector_bucket_returns.
  - intros w. destruct (CleanupSpec.empty_document_bucket_trace oracle settings w)
      as [w' [evs [n [Hrun _]]]]. now exists w', n.
  - apply CleanupSpec.delete_document_bucket_returns.
  - apply CleanupSpec.delete_iam_role_returns.
  - apply CleanupSpec.report_returns.
Qed.

(** ** The teardown as a whole *)

Lemma bind_assoc {A B C} (m : M A) (f : A -> M B) (g : B -> M C) (w : World) :
  bind (bind m f) g w = bind m (fun a => bind (f a) g) w.
Proof. unfold bind. destruct (m w) as [w1 [a|e|]]; reflexivity. Qed.

Lemma bind_ext {A B} (m : M A) (k k' : A -> M B) (w : World) :
  (forall a w1, k a w1 = k' a w1) -> bind m k w = bind m k' w.
Proof. intros H. unfold bind. destruct (m w) as [w1 [a|e|]]; auto. Qed.

(** A computation that returns, with its footprint. *)
Lemma run_with_footprint {A} (p : Event -> bool) (m : M A) (w : World) :
  always_returns m -> footprint p m ->
  exists w' a evs, m w = (w', Returned a) /\ history w' = history w ++ evs /\ all p evs.
Proof.
  intros Hret Hfoot. destruct (Hret w) as [w' [a Hrun]].
  destruct (footprint_run p m w w' _ Hfoot Hrun) as [evs [Hh Hp]].
  now exists w', a, evs.
Qed.

Lemma nothing_of_no_kind (evs : list Event) : all (fun _ => false) evs -> evs = [].
Proof. destruct evs; [reflexivity|discriminate]. Qed.

Lemma phases_forall (q : Event -> bool) (shapes : list (list Event -> Prop)) :
  Forall (fun shape : list Event -> Prop => forall segment, shape segment -> all q segment)
    shapes ->
  forall evs, phases shapes evs -> all q evs.
Proof.
  induction 1 as [|shape rest Hshape _ IH]; intros evs; simpl.
  - intros ->. reflexivity.
  - intros [segment [later [-> [Hs Hl]]]]. unfold all. rewrite forallb_app.
    rewrite (Hshape segment Hs). exact (IH later Hl).
Qed.

Lemma one_is_all (p q : Event -> bool) :
  (forall ev, p ev = true -> q ev = true) ->
  forall segment, one p segment -> all q segment.
Proof.
  intros Hpq segment [ev [-> Hp]]. unfold all. simpl. now rewrite (Hpq ev Hp).
Qed.

Lemma all_is_all (p q : Event -> bool) :
  (forall ev, p ev = true -> q ev = true) ->
  forall segment, all p segment -> all q segment.
Proof.
  intros Hpq segment Hp. apply forallb_forall. intros ev Hin.
  apply Hpq. unfold all in Hp. rewrite forallb_forall in Hp. now apply Hp.
Qed.

(** The steps that follow the knowledge base make no request to the
    knowledge-base service. *)
Lemma later_shapes_outside (evs : list Event) :
  phases later_shapes evs -> all (outside is_knowledge_base_service) evs.
Proof.
  apply phases_forall. unfold later_shapes.
  repeat constructor;
    first [apply one_is_all | apply all_is_all];
    intros [R c r|P c r|q]; try discriminate; try reflexivity;
    destruct c; try discriminate; reflexivity.
Qed.

Section Teardown.

Variable oracle : Oracle.
Variable settings : Settings.

Lemma cleanup_all_split (w : World) :
  Cleanup.cleanup_all oracle settings w
  = bind (knowledge_base_steps oracle settings) (later_steps oracle settings) w.
Proof.
  unfold Cleanup.cleanup_all, knowledge_base_steps.
  rewrite bind_assoc. apply bind_ext. intros _ w1. cbv zeta.
  rewrite bind_assoc. apply bind_ext. intros [kb summary0] w2.
  reflexivity.
Qed.

Lemma guarded_lookup_footprint {A B} (p : Event -> bool) (lookup : M A)
    (handler : exn -> M B) (orelse : A -> M B) :
  footprint p lookup ->
  (forall e, footprint p (handler e)) ->
  (forall a, footprint p (orelse a)) ->
  footprint p (try_except lookup [(T_ValueError, handler)] orelse).
Proof.
  intros Hlookup Hhandler Horelse. apply footprint_try_except; [exact Hlookup| |exact Horelse].
  intros t h e [Heq|[]]. injection Heq as <- <-. apply Hhandler.
Qed.

Lemma resolve_knowledge_base_id_footprint :
  footprint is_knowledge_base_service (Cleanup.resolve_knowledge_base_id oracle settings).
Proof.
  unfold Cleanup.resolve_knowledge_base_id.
  destruct (truthy (KNOWLEDGE_BASE_ID settings)) as [kb|]; [|apply footprint_raise].
  apply footprint_try_except.
  - apply footprint_call. reflexivity.
  - intros t h e [Heq|[]]. injection Heq as <- <-.
    apply footprint_bind; [apply footprint_print|intros _; apply footprint_ret].
  - intros _. apply footprint_bind; [apply footprint_print|intros _; apply footprint_ret].
Qed.

Lemma resolve_data_source_footprint (knowledge_base_id : string) :
  footprint is_knowledge_base_service
    (Cleanup.resolve_data_source oracle settings knowledge_base_id).
Proof.
  unfold Cleanup.resolve_data_source.
  destruct (truthy (DATA_SOURCE_ID settings)) as [ds|]; [|apply footprint_raise].
  apply footprint_try_except.
  - apply footprint_call. reflexivity.
  - intros t h e [Heq|[]]. injection Heq as <- <-.
    apply footprint_bind; [apply footprint_print|intros _; apply footprint_ret].
  - intros data. cbv zeta.
    apply footprint_bind; [apply footprint_print|intros _; apply footprint_ret].
Qed.

Lemma delete_data_source_footprint (info : Cleanup.DataSourceInfo) :
  footprint is_knowledge_base_service (Cleanup.delete_data_source oracle info).
Proof.
  intros w. destruct (delete_data_source_run oracle info w) as [w' [Hrun Hh]].
  cbv zeta in Hrun, Hh. rewrite Hrun. simpl fst. eexists. split; [exact Hh|reflexivity].
Qed.

Lemma delete_knowledge_base_footprint (knowledge_base_id : string) :
  footprint is_knowledge_base_service (Cleanup.delete_knowledge_base oracle knowledge_base_id).
Proof.
  intros w. destruct (delete_knowledge_base_run oracle knowledge_base_id w) as [w' [Hrun Hh]].
  rewrite Hrun. simpl fst. eexists. split; [exact Hh|reflexivity].
Qed.

Lemma knowledge_base_steps_footprint :
  footprint is_knowledge_base_service (knowledge_base_steps oracle settings).
Proof.
  unfold knowledge_base_steps.
  apply footprint_bind; [apply footprint_print|intros _]. cbv zeta.
  apply footprint_bind.
  { apply guarded_lookup_footprint; [apply resolve_knowledge_base_id_footprint| |].
    - intros e. apply footprint_bind; [apply footprint_print|intros _; apply footprint_ret].
    - intros a. apply footprint_ret. }
  intros [kb summary0].
  destruct (truthy kb) as [knowledge_base_id|].
  - apply footprint_bind.
    { apply guarded_lookup_footprint; [apply resolve_data_source_footprint| |].
      - intros e. apply footprint_bind; [apply footprint_print|intros _; apply footprint_ret].
      - intros a. apply footprint_ret. }
    intros [info summary1].
    apply footprint_bind.
    { destruct info as [info|].
      - apply footprint_bind; [apply delete_data_source_footprint|].
        intros r. apply footprint_ret.
      - apply footprint_bind; [apply footprint_print|intros _; apply footprint_ret]. }
    intros summary2.
    apply footprint_bind; [apply delete_knowledge_base_footprint|].
    intros r. apply footprint_ret.
  - apply footprint_bind; [apply footprint_print|intros _; apply footprint_ret].
Qed.

(** A lookup guarded against [ValueError] returns or raises the
    [ClientError] of an error response. *)
Lemma guarded_lookup_outcome {A B} (lookup : M A)
    (handler : exn -> M B) (orelse : A -> M B) :
  returns_or_client_error lookup \/ (exists message, lookup = raise (ValueError message)) ->
  (forall e, returns_or_client_error (handler e)) ->
  (forall a, returns_or_client_error (orelse a)) ->
  returns_or_client_error (try_except lookup [(T_ValueError, handler)] orelse).
Proof.
  intros [Hlookup|[message ->]] Hhandler Horelse w; unfold try_except.
  - destruct (Hlookup w) as [w1 [[a Ha]|[err He]]].
    + rewrite Ha. apply Horelse.
    + rewrite He. simpl. exists w1. right. now exists err.
  - simpl. apply Hhandler.
Qed.

Lemma knowledge_base_steps_outcome :
  returns_or_client_error (knowledge_base_steps oracle settings).
Proof.
  unfold knowledge_base_steps.
  apply client_error_bind; [apply client_error_of_return, always_returns_print|intros _].
  cbv zeta. apply client_error_bind.
  { unfold Cleanup.resolve_knowledge_base_id.
    destruct (truthy (KNOWLEDGE_BASE_ID settings)) as [kb|];
      eapply guarded_lookup_outcome.
    - left. apply client_error_try_except; [apply client_error_call| |].
      + intros t h e [Heq|[]]. injection Heq as <- <-.
        apply client_error_of_return. CleanupSpec.returns.
      + intros a. apply client_error_of_return. CleanupSpec.returns.
    - intros e. apply client_error_of_return. CleanupSpec.returns.
    - intros a. apply client_error_of_return. CleanupSpec.returns.
    - right. eexists. reflexivity.
    - intros e. apply client_error_of_return. CleanupSpec.returns.
    - intros a. apply client_error_of_return. CleanupSpec.returns. }
  intros [kb summary0].
  destruct (truthy kb) as [knowledge_base_id|];
    [|apply client_error_of_return; CleanupSpec.returns].
  apply client_error_bind.
  { unfold Cleanup.resolve_data_source.
    destruct (truthy (DATA_SOURCE_ID settings)) as [ds|];
      eapply guarded_lookup_outcome.
    - left. apply client_error_try_except; [apply client_error_call| |].
      + intros t h e [Heq|[]]. injection Heq as <- <-.
        apply client_error_of_return. CleanupSpec.returns.
      + intros a. apply client_error_of_return. cbv zeta. CleanupSpec.returns.
    - intros e. apply client_error_of_return. CleanupSpec.returns.
    - intros a. apply client_error_of_return. CleanupSpec.returns.
    - right. eexists. reflexivity.
    - intros e. apply client_error_of_return. CleanupSpec.returns.
    - intros a. apply client_error_of_return. CleanupSpec.returns. }
  intros [info summary1]. apply client_error_of_return.
  apply always_returns_bind.
  { destruct info as [info|]; [|CleanupSpec.returns].
    apply always_returns_bind;
      [apply CleanupSpec.delete_data_source_returns|CleanupSpec.returns]. }
  intros summary2.
  apply always_returns_bind;
    [apply CleanupSpec.delete_knowledge_base_returns|CleanupSpec.returns].
Qed.

Lemma purge_pages_footprint (pages : PageStream ObjectPage) :
  forall (deleted : Z) (w : World),
    exists evs,
      history (fst (Cleanup.purge_pages oracle settings pages deleted w))
        = history w ++ evs /\
      all is_document_exchange evs.
Proof.
  induction pages as [|err|page rest IH]; intros deleted w.
  - exists []. simpl. now rewrite app_nil_r.
  - eexists [_]. simpl. split; reflexivity.
  - simpl. destruct (get_or_empty (Contents page)) as [|key keys].
    + match goal with
      | |- context [Cleanup.purge_pages oracle settings rest deleted ?w1] =>
          destruct (IH deleted w1) as [evs [Hh Hp]]
      end.
      eexists (_ :: evs). rewrite Hh. simpl. rewrite <- app_assoc. split; [reflexivity|].
      exact Hp.
    + unfold Cleanup._chunk_delete, call.
      match goal with
      | |- context [oracle unit ?h ?c] => destruct (oracle unit h c) as [err|[]]
      end.
      * eexists [_; _]. simpl. rewrite <- app_assoc. split; reflexivity.
      * match goal with
        | |- context [Cleanup.purge_pages oracle settings rest ?n ?w1] =>
            destruct (IH n w1) as [evs [Hh Hp]]
        end.
        eexists (_ :: _ :: evs). rewrite Hh. simpl. rewrite <- !app_assoc.
        split; [reflexivity|]. exact Hp.
Qed.

Lemma empty_document_bucket_footprint :
  footprint is_document_exchange (Cleanup.empty_document_bucket oracle settings).
Proof.
  intros w. unfold Cleanup.empty_document_bucket, Cleanup.purge_try, call.
  set (w0 := print_line _ w).
  destruct (oracle (PageStream ObjectPage) (history w0)
              (ListObjectsV2 (DOCUMENT_S3_BUCKET settings))) as [err|pages].
  - cbn [isinstance]. unfold bind, print, ret.
    destruct (code_is (response_code (ClientError err)) "NoSuchBucket");
      eexists [_]; split; reflexivity.
  - match goal with
    | |- context [Cleanup.purge_pages oracle settings pages ?n ?w1] =>
        destruct (purge_pages_footprint pages n w1) as [evs [Hh Hp]];
        destruct (Cleanup.purge_pages oracle settings pages n w1) as [w' [d out]]
    end.
    simpl fst in Hh. simpl in Hh.
    exists (Called (ListObjectsV2 (DOCUMENT_S3_BUCKET settings)) (inr pages) :: evs).
    split; [|exact Hp].
    destruct out as [[]|e|].
    + unfold bind, print, ret. destruct (Z.eqb d 0); simpl; rewrite Hh;
        now rewrite <- app_assoc.
    + destruct (isinstance e T_ClientError); [|simpl; rewrite Hh; now rewrite <- app_assoc].
      unfold bind, print, ret.
      destruct (code_is (response_code e) "NoSuchBucket"); simpl; rewrite Hh;
        now rewrite <- app_assoc.
    + simpl. rewrite Hh. now rewrite <- app_assoc.
Qed.

Lemma report_footprint (summary : Cleanup.CleanupSummary) :
  footprint (fun _ => false) (Cleanup.report summary).
Proof.
  unfold Cleanup.report. apply footprint_for_each. intros [key label]. cbv zeta.
  destruct (Cleanup.is_True _); [apply footprint_print|].
  destruct (Cleanup.is_False _); apply footprint_print.
Qed.

(** Each of the later steps returns, and the summary holds what each of
    them returned. *)
Lemma later_steps_run (summary : Cleanup.CleanupSummary) (w : World) :
  exists w1 r1 w2 r2 w3 n w4 r4 w5 r5 w',
    Cleanup.delete_vector_index oracle settings w = (w1, Returned r1) /\
    Cleanup.delete_vector_bucket oracle settings w1 = (w2, Returned r2) /\
    Cleanup.empty_document_bucket oracle settings w2 = (w3, Returned n) /\
    Cleanup.delete_document_bucket oracle settings w3 = (w4, Returned r4) /\
    Cleanup.delete_iam_role oracle settings w4 = (w5, Returned r5) /\
    later_steps oracle settings summary w
      = (w', Returned
               (Cleanup.set_iam_role_deleted r5
                  (Cleanup.set_document_bucket_deleted r4
                     (Cleanup.set_documents_deleted n
                        (Cleanup.set_vector_bucket_deleted r2
                           (Cleanup.set_vector_index_deleted r1 summary)))))) /\
    history w' = history w5.
Proof.
  destruct (CleanupSpec.delete_vector_index_returns oracle settings w) as [w1 [r1 H1]].
  destruct (CleanupSpec.delete_vector_bucket_returns oracle settings w1) as [w2 [r2 H2]].
  destruct (CleanupSpec.empty_document_bucket_trace oracle settings w2)
    as [w3 [evs [n [H3 _]]]].
  destruct (CleanupSpec.delete_document_bucket_returns oracle settings w3) as [w4 [r4 H4]].
  destruct (CleanupSpec.delete_iam_role_returns oracle settings w4) as [w5 [r5 H5]].
  set (final := Cleanup.set_iam_role_deleted r5
                  (Cleanup.set_document_bucket_deleted r4
                     (Cleanup.set_documents_deleted n
                        (Cleanup.set_vector_bucket_deleted r2
                           (Cleanup.set_vector_index_deleted r1 summary))))).
  destruct (run_with_footprint (fun _ => false) (Cleanup.report final) w5
              (CleanupSpec.report_returns final) (report_footprint final))
    as [w6 [[] [evs6 [H6 [Hh6 Hp6]]]]].
  apply nothing_of_no_kind in Hp6. subst evs6. rewrite app_nil_r in Hh6.
  exists w1, r1, w2, r2, w3, n, w4, r4, w5, r5.
  eexists. repeat (split; [eassumption|]).
  unfold later_steps.
  unfold bind at 1. rewrite H1. cbv zeta.
  unfold bind at 1. rewrite H2.
  unfold bind at 1. rewrite H3.
  unfold bind at 1. rewrite H4.
  unfold bind at 1. rewrite H5.
  fold final. unfold bind at 1. rewrite H6.
  unfold bind, print, ret. split; [reflexivity|]. simpl. exact Hh6.
Qed.

(** The later steps are made in their order, each of them once. *)
Lemma later_steps_phases (summary : Cleanup.CleanupSummary) (w : World) :
  exists w' s evs,
    later_steps oracle settings summary w = (w', Returned s) /\
    history w' = history w ++ evs /\
    phases later_shapes evs /\
    Cleanup.knowledge_base_deleted s = Cleanup.knowledge_base_deleted summary /\
    Cleanup.data_source_deleted s = Cleanup.data_source_deleted summary.
Proof.
  destruct (later_steps_run summary w)
    as (w1 & r1 & w2 & r2 & w3 & n & w4 & r4 & w5 & r5 & w' & H1 & H2 & H3 & H4 & H5
        & Hrun & Hh).
  destruct (delete_vector_index_run oracle settings w) as [w1' [H1' Hh1]].
  rewrite H1 in H1'. injection H1' as <- _.
  destruct (delete_vector_bucket_run oracle settings w1) as [w2' [H2' Hh2]].
  rewrite H2 in H2'. injection H2' as <- _.
  destruct (footprint_run _ _ _ _ _ empty_document_bucket_footprint H3) as [e3 [Hh3 Hp3]].
  destruct (delete_document_bucket_run oracle settings w3) as [w4' [H4' Hh4]].
  rewrite H4 in H4'. injection H4' as <- _.
  destruct (footprint_run _ _ _ _ _ (delete_iam_role_footprint oracle settings) H5)
    as [e5 [Hh5 Hp5]].
  eexists w', _, _. split; [exact Hrun|].
  split; [rewrite Hh, Hh5, Hh4, Hh3, Hh2, Hh1; rewrite <- !app_assoc; reflexivity|].
  split; [|split; reflexivity].
  unfold later_shapes.
  eexists [_], _. split; [reflexivity|]. split; [eexists; split; reflexivity|].
  eexists [_], _. split; [reflexivity|]. split; [eexists; split; reflexivity|].
  eexists e3, _. split; [reflexivity|]. split; [exact Hp3|].
  eexists [_], _. split; [reflexivity|]. split; [eexists; split; reflexivity|].
  apply phases_one_shape. exact Hp5.
Qed.

(** What the two lookups and the deletions that depend on them come to in
    three cases: no knowledge-base ID, a knowledge base reported absent,
    and no data-source ID. *)
Lemma knowledge_base_steps_unconfigured (w : World) :
  truthy (KNOWLEDGE_BASE_ID settings) = None ->
  exists w0,
    knowledge_base_steps oracle settings w
      = (w0, Returned (Cleanup.set_knowledge_base_deleted (Some false)
                         Cleanup.empty_summary)) /\
    history w0 = history w.
Proof.
  intros Hkb. unfold knowledge_base_steps, Cleanup.resolve_knowledge_base_id.
  rewrite Hkb. eexists. split; reflexivity.
Qed.

Lemma knowledge_base_steps_absent (w : World) (kb : string) (err : ServiceError) :
  truthy (KNOWLEDGE_BASE_ID settings) = Some kb ->
  oracle unit (history w) (GetKnowledgeBase kb) = inl err ->
  error_class err = ResourceNotFoundException ->
  exists w0,
    knowledge_base_steps oracle settings w = (w0, Returned Cleanup.empty_summary) /\
    history w0 = history w ++ [Called (GetKnowledgeBase kb) (inl err)].
Proof.
  destruct err as [cls code msg]. intros Hkb Hget Hcls. simpl in Hcls. subst cls.
  unfold knowledge_base_steps, Cleanup.resolve_knowledge_base_id. rewrite Hkb.
  unfold bind, print, try_except, call. simpl. rewrite Hget. simpl.
  eexists. split; reflexivity.
Qed.

Lemma knowledge_base_steps_without_data_source (w : World) (kb : string) :
  truthy (KNOWLEDGE_BASE_ID settings) = Some kb ->
  truthy (DATA_SOURCE_ID settings) = None ->
  oracle unit (history w) (GetKnowledgeBase kb) = inr tt ->
  exists w0 r answer,
    knowledge_base_steps oracle settings w
      = (w0, Returned (Cleanup.set_knowledge_base_deleted r
                         (Cleanup.set_data_source_deleted (Some false)
                            Cleanup.empty_summary))) /\
    history w0
      = history w ++ [Called (GetKnowledgeBase kb) (inr tt);
                      Called (DeleteKnowledgeBase kb) answer].
Proof.
  intros Hkb Hds Hget. pose proof (CleanupSpec.truthy_Some _ _ Hkb) as Hkb'.
  unfold knowledge_base_steps, Cleanup.resolve_knowledge_base_id,
    Cleanup.resolve_data_source.
  rewrite Hkb, Hds.
  unfold bind at 1. unfold print at 1. cbv zeta.
  unfold bind at 1. unfold try_except at 1. unfold try_except at 1. unfold call at 1.
  cbn [history print_line]. rewrite Hget.
  cbn [record_event]. unfold bind at 1. unfold print at 1. unfold ret at 1.
  unfold ret at 1. cbv beta iota. rewrite Hkb'.
  unfold bind at 1. unfold try_except at 1. unfold raise at 1.
  cbn [find isinstance fst snd]. unfold bind at 1. unfold print at 1. unfold ret at 1.
  cbv beta iota. unfold bind at 1. unfold bind at 1. unfold print at 1. unfold ret at 1.
  match goal with
  | |- context [bind (Cleanup.delete_knowledge_base oracle kb) _ ?w1] =>
      destruct (delete_knowledge_base_run oracle kb w1) as [w0 [Hrun Hh]];
      unfold bind; rewrite Hrun
  end.
  eexists w0, _, _. split; [reflexivity|].
  rewrite Hh. simpl. rewrite <- app_assoc. reflexivity.
Qed.

Lemma empty_document_bucket_absent (w : World) (err : ServiceError) :
  oracle (PageStream ObjectPage) (history w) (ListObjectsV2 (DOCUMENT_S3_BUCKET settings))
    = inr (PagesError err) ->
  code_is (error_code err) "NoSuchBucket" = true ->
  exists w', Cleanup.empty_document_bucket oracle settings w = (w', Returned 0%Z).
Proof.
  intros Hlist Hcode. unfold Cleanup.empty_document_bucket, Cleanup.purge_try, call.
  cbn [history print_line]. rewrite Hlist. cbn [Cleanup.purge_pages isinstance response_code].
  rewrite Hcode. eexists. reflexivity.
Qed.

Lemma delete_iam_role_absent (w : World) (err : ServiceError) :
  oracle (option (list string)) (history w)
    (ListRolePolicies (BEDROCK_ROLE_NAME settings)) = inl err ->
  error_class err = NoSuchEntityException ->
  exists w', Cleanup.delete_iam_role oracle settings w = (w', Returned None).
Proof.
  destruct err as [cls code msg]. intros Hlist Hcls. simpl in Hcls. subst cls.
  unfold Cleanup.delete_iam_role, bind, print, try_except, call. simpl.
  rewrite Hlist. simpl. eexists. reflexivity.
Qed.

(** The exit status [main] returns after a teardown that reported a
    failure, and after one that reported none. *)
Lemma main_after_failure (argv : list string) (w w' : World)
    (s : Cleanup.CleanupSummary) (key : string) :
  Cleanup.cleanup_all oracle settings w = (w', Returned s) ->
  In key (Cleanup.failures s) ->
  exists w'', Cleanup.main oracle settings argv w = (w'', Returned 1%Z).
Proof.
  intros Hrun Hin. unfold Cleanup.main, bind at 1. rewrite Hrun.
  destruct (Cleanup.failures s); [contradiction|]. eexists. reflexivity.
Qed.

End Teardown.


(** X14: when the configured knowledge base is reported absent,
    [cleanup_all] makes no other request to the knowledge-base service: it
    neither looks up nor deletes the data source, does not delete the
    knowledge base, leaves both of their outcomes unset, and goes on with
    the later steps. *)
Theorem absent_knowledge_base_skips_the_data_source :
  forall (oracle : Oracle) (settings : Settings) (w : World) (kb : string)
         (err : ServiceError),
    truthy (KNOWLEDGE_BASE_ID settings) = Some kb ->
    oracle unit (history w) (GetKnowledgeBase kb) = inl err ->
    error_class err = ResourceNotFoundException ->
    exists w' s evs,
      Cleanup.cleanup_all oracle settings w = (w', Returned s) /\
      Cleanup.knowledge_base_deleted s = None /\
      Cleanup.data_source_deleted s = None /\
      history w' = history w ++ Called (GetKnowledgeBase kb) (inl err) :: evs /\
      all (outside is_knowledge_base_service) evs /\
      phases later_shapes evs.
Proof.
  intros oracle settings w kb [cls code msg] Hkb Hget Hcls. simpl in Hcls. subst cls.
  rewrite cleanup_all_split. unfold bind at 1.
  assert (Hsteps : exists w0,
             knowledge_base_steps oracle settings w = (w0, Returned Cleanup.empty_summary) /\
             history w0
               = history w
                   ++ [Called (GetKnowledgeBase kb)
                         (inl {| error_class := ResourceNotFoundException;
                                 error_code := code; error_str := msg |})]).
  { unfold knowledge_base_steps, Cleanup.resolve_knowledge_base_id. rewrite Hkb.
    unfold bind, print, try_except, call. simpl. rewrite Hget. simpl.
    eexists. split; reflexivity. }
  destruct Hsteps as [w0 [Hsteps Hh0]]. rewrite Hsteps.
  destruct (later_steps_phases oracle settings Cleanup.empty_summary w0)
    as [w' [s [evs [Hlater [Hh [Hphases [Hk Hd]]]]]]].
  exists w', s, evs. split; [exact Hlater|].
  split; [exact Hk|]. split; [exact Hd|].
  split; [rewrite Hh, Hh0; now rewrite <- app_assoc|].
  split; [now apply later_shapes_outside|exact Hphases].
Qed.

Lemma absent_knowledge_base_skips_the_data_source_witness :
  exists w' s evs,
    Cleanup.cleanup_all Scenarios.empty_account Fixtures.settings initial_world
      = (w', Returned s) /\
    Cleanup.knowledge_base_deleted s = None /\
    Cleanup.data_source_deleted s = None /\
    history w'
      = history initial_world
          ++ Called (GetKnowledgeBase "KB1")
               (inl (Scenarios.missing ResourceNotFoundException
                       "ResourceNotFoundException")) :: evs /\
    all (outside is_knowledge_base_service) evs /\
    phases later_shapes evs.
Proof.
  apply (absent_knowledge_base_skips_the_data_source Scenarios.empty_account
           Fixtures.settings initial_world "KB1");
    reflexivity.
Defined.

(** X15: tearing down what does not exist is not a failure.  When the
    knowledge base, the vector index, the vector bucket, the document bucket
    and the IAM role are all reported absent, [cleanup_all] returns the
    summary it started from, every outcome unset and no document counted,
    and [main] returns the exit status 0. *)
Theorem teardown_of_nothing_succeeds :
  forall (oracle : Oracle) (settings : Settings) (w : World) (kb : string)
         (argv : list string),
    truthy (KNOWLEDGE_BASE_ID settings) = Some kb ->
    nothing_exists oracle settings ->
    (exists w',
        Cleanup.cleanup_all oracle settings w = (w', Returned Cleanup.empty_summary)) /\
    (exists w', Cleanup.main oracle settings argv w = (w', Returned 0%Z)).
Proof.
  intros oracle settings w kb argv Hkb (Hget & Hindex & Hvectors & Hlist & Hbucket & Hrole).
  assert (Hrun : exists w',
             Cleanup.cleanup_all oracle settings w = (w', Returned Cleanup.empty_summary)).
  { rewrite cleanup_all_split. unfold bind at 1.
    destruct (Hget (history w) kb) as [err [Ho Hcls]].
    destruct (knowledge_base_steps_absent oracle settings w kb err Hkb Ho Hcls)
      as [w0 [Hsteps _]].
    rewrite Hsteps.
    destruct (later_steps_run oracle settings Cleanup.empty_summary w0)
      as (w1 & r1 & w2 & r2 & w3 & n & w4 & r4 & w5 & r5 & w' & H1 & H2 & H3 & H4 & H5
          & Hlater & _).
    exists w'. rewrite Hlater.
    destruct (delete_vector_index_run oracle settings w0) as [w1' [H1' _]].
    destruct (Hindex (history w0)) as [e1 [Ho1 Hc1]].
    rewrite Ho1, Hc1, H1 in H1'. injection H1' as _ ->.
    destruct (delete_vector_bucket_run oracle settings w1) as [w2' [H2' _]].
    destruct (Hvectors (history w1)) as [e2 [Ho2 Hc2]].
    rewrite Ho2, Hc2, H2 in H2'. injection H2' as _ ->.
    destruct (Hlist (history w2)) as [e3 [Ho3 Hc3]].
    destruct (empty_document_bucket_absent oracle settings w2 e3 Ho3 Hc3) as [w3' H3'].
    rewrite H3 in H3'. injection H3' as _ ->.
    destruct (delete_document_bucket_run oracle settings w3) as [w4' [H4' _]].
    destruct (Hbucket (history w3)) as [e4 [Ho4 Hc4]].
    rewrite Ho4, Hc4, H4 in H4'. injection H4' as _ ->.
    destruct (Hrole (history w4)) as [e5 [Ho5 Hc5]].
    destruct (delete_iam_role_absent oracle settings w4 e5 Ho5 Hc5) as [w5' H5'].
    rewrite H5 in H5'. injection H5' as _ ->.
    reflexivity. }
  split; [exact Hrun|].
  destruct Hrun as [w' Hrun]. unfold Cleanup.main, bind at 1. rewrite Hrun.
  eexists. reflexivity.
Qed.

Lemma teardown_of_nothing_succeeds_witness :
  (exists w',
      Cleanup.cleanup_all Scenarios.empty_account Fixtures.settings initial_world
        = (w', Returned Cleanup.empty_summary)) /\
  (exists w',
      Cleanup.main Scenarios.empty_account Fixtures.settings [] initial_world
        = (w', Returned 0%Z)).
Proof.
  apply (teardown_of_nothing_succeeds Scenarios.empty_account Fixtures.settings
           initial_world "KB1" []).
  - reflexivity.
  - repeat split; intros; eexists; split; reflexivity.
Defined.

(** X16: without a knowledge-base ID in the settings, [cleanup_all] does
    not raise: it records the knowledge base as failed, leaves the data
    source unset, makes no request to the knowledge-base service, still
    runs the later steps, and [main] returns the exit status 1. *)
Theorem missing_knowledge_base_id_is_a_failure :
  forall (oracle : Oracle) (settings : Settings) (w : World) (argv : list string),
    truthy (KNOWLEDGE_BASE_ID settings) = None ->
    exists w' s evs,
      Cleanup.cleanup_all oracle settings w = (w', Returned s) /\
      Cleanup.knowledge_base_deleted s = Some false /\
      Cleanup.data_source_deleted s = None /\
      history w' = history w ++ evs /\
      all (outside is_knowledge_base_service) evs /\
      phases later_shapes evs /\
      exists w'', Cleanup.main oracle settings argv w = (w'', Returned 1%Z).
Proof.
  intros oracle settings w argv Hkb.
  destruct (knowledge_base_steps_unconfigured oracle settings w Hkb) as [w0 [Hsteps Hh0]].
  destruct (later_steps_phases oracle settings
              (Cleanup.set_knowledge_base_deleted (Some false) Cleanup.empty_summary) w0)
    as [w' [s [evs [Hlater [Hh [Hphases [Hk Hd]]]]]]].
  assert (Hrun : Cleanup.cleanup_all oracle settings w = (w', Returned s)).
  { rewrite cleanup_all_split. unfold bind at 1. now rewrite Hsteps. }
  exists w', s, evs. split; [exact Hrun|].
  split; [exact Hk|]. split; [exact Hd|].
  split; [now rewrite Hh, Hh0|].
  split; [now apply later_shapes_outside|]. split; [exact Hphases|].
  apply (main_after_failure oracle settings argv w w' s "knowledge_base_deleted" Hrun).
  apply CleanupSpec.failures_loop_In. split; [discriminate|].
  unfold Cleanup.dict_items. rewrite Hk. left. reflexivity.
Qed.

Lemma missing_knowledge_base_id_is_a_failure_witness :
  exists w' s evs,
    Cleanup.cleanup_all Fixtures.healthy Scenarios.unconfigured initial_world
      = (w', Returned s) /\
    Cleanup.knowledge_base_deleted s = Some false /\
    Cleanup.data_source_deleted s = None /\
    history w' = history initial_world ++ evs /\
    all (outside is_knowledge_base_service) evs /\
    phases later_shapes evs /\
    exists w'',
      Cleanup.main Fixtures.healthy Scenarios.unconfigured [] initial_world
        = (w'', Returned 1%Z).
Proof.
  apply (missing_knowledge_base_id_is_a_failure Fixtures.healthy Scenarios.unconfigured
           initial_world []).
  reflexivity.
Defined.

(** X17: without a data-source ID in the settings, and with a knowledge
    base that exists, [cleanup_all] records the data source as failed
    without a request about it, and still deletes the knowledge base: its
    requests to the knowledge-base service are the lookup of the knowledge
    base and its deletion.  [main] returns the exit status 1. *)
Theorem missing_data_source_id_is_a_failure :
  forall (oracle : Oracle) (settings : Settings) (w : World) (kb : string)
         (argv : list string),
    truthy (KNOWLEDGE_BASE_ID settings) = Some kb ->
    truthy (DATA_SOURCE_ID settings) = None ->
    oracle unit (history w) (GetKnowledgeBase kb) = inr tt ->
    exists w' s answer evs,
      Cleanup.cleanup_all oracle settings w = (w', Returned s) /\
      Cleanup.data_source_deleted s = Some false /\
      history w'
        = history w
            ++ [Called (GetKnowledgeBase kb) (inr tt);
                Called (DeleteKnowledgeBase kb) answer]
            ++ evs /\
      all (outside is_knowledge_base_service) evs /\
      exists w'', Cleanup.main oracle settings argv w = (w'', Returned 1%Z).
Proof.
  intros oracle settings w kb argv Hkb Hds Hget.
  destruct (knowledge_base_steps_without_data_source oracle settings w kb Hkb Hds Hget)
    as [w0 [r [answer [Hsteps Hh0]]]].
  destruct (later_steps_phases oracle settings
              (Cleanup.set_knowledge_base_deleted r
                 (Cleanup.set_data_source_deleted (Some false) Cleanup.empty_summary)) w0)
    as [w' [s [evs [Hlater [Hh [Hphases [Hk Hd]]]]]]].
  assert (Hrun : Cleanup.cleanup_all oracle settings w = (w', Returned s)).
  { rewrite cleanup_all_split. unfold bind at 1. now rewrite Hsteps. }
  exists w', s, answer, evs. split; [exact Hrun|].
  split; [exact Hd|].
  split; [rewrite Hh, Hh0; now rewrite <- app_assoc|].
  split; [now apply later_shapes_outside|].
  apply (main_after_failure oracle settings argv w w' s "data_source_deleted" Hrun).
  apply CleanupSpec.failures_loop_In. split; [discriminate|].
  unfold Cleanup.dict_items. rewrite Hd. right. left. reflexivity.
Qed.

Lemma missing_data_source_id_is_a_failure_witness :
  exists w' s answer evs,
    Cleanup.cleanup_all Fixtures.healthy Scenarios.without_data_source initial_world
      = (w', Returned s) /\
    Cleanup.data_source_deleted s = Some false /\
    history w'
      = history initial_world
          ++ [Called (GetKnowledgeBase "KB1") (inr tt);
              Called (DeleteKnowledgeBase "KB1") answer]
          ++ evs /\
    all (outside is_knowledge_base_service) evs /\
    exists w'',
      Cleanup.main Fixtures.healthy Scenarios.without_data_source [] initial_world
        = (w'', Returned 1%Z).
Proof.
  apply (missing_data_source_id_is_a_failure Fixtures.healthy
           Scenarios.without_data_source initial_world "KB1" []);
    reflexivity.
Defined.

End CleanupMore.

(* ================================================================== *)
(** * More properties of infra.py                                      *)
(* ================================================================== *)

Module InfraMore.
Import Trace Observe PySpec Footprints.
Local Open Scope list_scope.

Lemma all_map {A} (p : Event -> bool) (f : A -> Event) (l : list A) :
  (forall x, p (f x) = true) -> all p (map f l).
Proof.
  intros Hp. unfold all. induction l as [|x l IH]; simpl; [reflexivity|].
  now rewrite Hp, IH.
Qed.

(** Use the answer [H] to the next request, and bring the history back to
    the form [history w ++ events]. *)
Ltac answered H :=
  rewrite H;
  cbn [find isinstance is_client_error client_exception_eqb error_class fst snd
       history record_event ret];
  rewrite <- ?app_assoc; cbn [app].

(** X18: [ensure_document_bucket] creates the bucket only when
    [head_bucket] reports it missing.  A bucket that answers is left alone;
    an error with the code 404, NoSuchBucket or NotFound is followed by one
    [create_bucket], which carries the region as its location constraint
    except in us-east-1, and whose error, if any, is raised; any other
    error of [head_bucket] is raised without a [create_bucket]. *)
Theorem ensure_document_bucket_creates_only_a_missing_bucket :
  forall (oracle : Oracle) (settings : Settings) (w : World),
    let bucket := DOCUMENT_S3_BUCKET settings in
    let constraint :=
      if String.eqb (AWS_REGION settings) "us-east-1" then None
      else Some (AWS_REGION settings) in
    let arn := ("arn:aws:s3:::" ++ bucket)%string in
    let ensure := Infra.ensure_document_bucket oracle settings in
    (oracle unit (history w) (HeadBucket bucket) = inr tt ->
     exists w',
       ensure w = (w', Returned arn) /\
       history w' = history w ++ [Called (HeadBucket bucket) (inr tt)])
    /\
    (forall err,
        oracle unit (history w) (HeadBucket bucket) = inl err ->
        bucket_is_missing err = false ->
        exists w',
          ensure w = (w', Raised (ClientError err)) /\
          history w' = history w ++ [Called (HeadBucket bucket) (inl err)])
    /\
    (forall err,
        oracle unit (history w) (HeadBucket bucket) = inl err ->
        bucket_is_missing err = true ->
        let answer :=
          oracle unit (history w ++ [Called (HeadBucket bucket) (inl err)])
            (CreateBucket bucket constraint) in
        exists w',
          ensure w
            = (w', match answer with
                   | inr _ => Returned arn
                   | inl refusal => Raised (ClientError refusal)
                   end) /\
          history w'
            = history w ++ [Called (HeadBucket bucket) (inl err);
                            Called (CreateBucket bucket constraint) answer]).
Proof.
  intros oracle settings w. cbv zeta.
  unfold Infra.ensure_document_bucket, bucket_is_missing.
  split; [|split].
  - intros Hhead. unfold bind, try_except, call. rewrite Hhead.
    eexists. split; reflexivity.
  - intros err Hhead Hcode. unfold bind, try_except, call. rewrite Hhead.
    cbn [find isinstance fst snd response_code]. rewrite Hcode.
    eexists. split; reflexivity.
  - intros err Hhead Hcode. unfold bind, try_except, call. rewrite Hhead.
    cbn [find isinstance fst snd response_code]. rewrite Hcode.
    cbn [negb history record_event].
    destruct (oracle unit (history w ++ [Called (HeadBucket (DOCUMENT_S3_BUCKET settings))
                                           (inl err)]) _) as [refusal|[]];
      eexists; (split; [reflexivity|]); cbn [history record_event];
      rewrite <- app_assoc; reflexivity.
Qed.

(** A bucket that is missing, in us-east-1. *)
Lemma ensure_document_bucket_creates_only_a_missing_bucket_witness :
  exists w',
    Infra.ensure_document_bucket Scenarios.fresh_account Scenarios.us_east_1 initial_world
      = (w', Returned "arn:aws:s3:::docs"%string) /\
    history w'
      = history initial_world
          ++ [Called (HeadBucket "docs")
                (inl (Scenarios.missing OtherClientError "404"));
              Called (CreateBucket "docs" None) (inr tt)].
Proof.
  apply (proj2 (proj2 (ensure_document_bucket_creates_only_a_missing_bucket
                         Scenarios.fresh_account Scenarios.us_east_1 initial_world))
           (Scenarios.missing OtherClientError "404"));
    reflexivity.
Defined.

(** ** The vector bucket and its index *)

(** X19: [ensure_vector_bucket_and_index] creates what is reported
    absent and nothing else.  A bucket and an index that answer are only
    fetched; an error of [get_vector_bucket] other than
    [NotFoundException] is raised at once; and when both are reported
    absent, each is created and then fetched again, the index as float32
    vectors of the configured dimension under the cosine metric, and the
    ARNs returned are those of the second fetches. *)
Theorem ensure_vector_bucket_and_index_creates_what_is_absent :
  forall (oracle : Oracle) (settings : Settings) (w : World),
    let bucket := VECTOR_BUCKET_NAME settings in
    let index := VECTOR_INDEX_NAME settings in
    let ensure := Infra.ensure_vector_bucket_and_index oracle settings in
    (forall b i,
        oracle string (history w) (GetVectorBucket bucket) = inr b ->
        oracle string (history w ++ [Called (GetVectorBucket bucket) (inr b)])
          (GetIndex bucket index) = inr i ->
        exists w',
          ensure w = (w', Returned (b, i)) /\
          history w'
            = history w ++ [Called (GetVectorBucket bucket) (inr b);
                            Called (GetIndex bucket index) (inr i)])
    /\
    (forall err,
        oracle string (history w) (GetVectorBucket bucket) = inl err ->
        error_class err <> NotFoundException ->
        exists w',
          ensure w = (w', Raised (ClientError err)) /\
          history w' = history w ++ [Called (GetVectorBucket bucket) (inl err)])
    /\
    (forall err b err' i,
        let e1 := Called (GetVectorBucket bucket) (inl err) in
        let e2 := Called (CreateVectorBucket bucket) (inr tt) in
        let e3 := Called (GetVectorBucket bucket) (inr b) in
        let e4 := Called (GetIndex bucket index) (inl err') in
        let e5 := Called (CreateIndex bucket index "float32"
                            (BEDROCK_EMBEDDING_DIMENSION settings) "cosine") (inr tt) in
        let e6 := Called (GetIndex bucket index) (inr i) in
        error_class err = NotFoundException ->
        error_class err' = NotFoundException ->
        oracle string (history w) (GetVectorBucket bucket) = inl err ->
        oracle unit (history w ++ [e1]) (CreateVectorBucket bucket) = inr tt ->
        oracle string (history w ++ [e1; e2]) (GetVectorBucket bucket) = inr b ->
        oracle string (history w ++ [e1; e2; e3]) (GetIndex bucket index) = inl err' ->
        oracle unit (history w ++ [e1; e2; e3; e4])
          (CreateIndex bucket index "float32" (BEDROCK_EMBEDDING_DIMENSION settings)
             "cosine") = inr tt ->
        oracle string (history w ++ [e1; e2; e3; e4; e5]) (GetIndex bucket index) = inr i ->
        exists w',
          ensure w = (w', Returned (b, i)) /\
          history w' = history w ++ [e1; e2; e3; e4; e5; e6]).
Proof.
  intros oracle settings w. cbv zeta.
  unfold Infra.ensure_vector_bucket_and_index.
  split; [|split].
  - intros b i Hb Hi. unfold bind, try_except, call. rewrite Hb.
    cbn [history record_event ret]. rewrite Hi.
    eexists. split; [reflexivity|]. cbn [history record_event].
    now rewrite <- app_assoc.
  - intros [cls code msg] Hb Hcls. simpl in Hcls.
    unfold bind, try_except, call. rewrite Hb.
    destruct cls; try contradiction; eexists; split; reflexivity.
  - intros [cls code msg] b [cls' code' msg'] i Hcls Hcls' H1 H2 H3 H4 H5 H6.
    simpl in Hcls, Hcls'. subst cls cls'.
    unfold bind, try_except, call.
    answered H1. answered H2. answered H3. answered H4. answered H5. answered H6.
    eexists. split; [reflexivity|]. cbn [history record_event].
    rewrite <- !app_assoc. reflexivity.
Qed.

(** An account in which neither the bucket nor the index exists yet. *)
Lemma ensure_vector_bucket_and_index_creates_what_is_absent_witness :
  exists w',
    Infra.ensure_vector_bucket_and_index Scenarios.fresh_account Fixtures.settings
      initial_world
      = (w', Returned ("arn:aws:s3vectors:::bucket/vectors",
                       "arn:aws:s3vectors:::bucket/vectors/index/index")%string) /\
    history w'
      = history initial_world
          ++ [Called (GetVectorBucket "vectors")
                (inl (Scenarios.missing NotFoundException "NotFoundException"));
              Called (CreateVectorBucket "vectors") (inr tt);
              Called (GetVectorBucket "vectors")
                (inr "arn:aws:s3vectors:::bucket/vectors"%string);
              Called (GetIndex "vectors" "index")
                (inl (Scenarios.missing NotFoundException "NotFoundException"));
              Called (CreateIndex "vectors" "index" "float32" 1024 "cosine") (inr tt);
              Called (GetIndex "vectors" "index")
                (inr "arn:aws:s3vectors:::bucket/vectors/index/index"%string)].
Proof.
  apply (proj2 (proj2 (ensure_vector_bucket_and_index_creates_what_is_absent
                         Scenarios.fresh_account Fixtures.settings initial_world))
           (Scenarios.missing NotFoundException "NotFoundException")
           "arn:aws:s3vectors:::bucket/vectors"%string
           (Scenarios.missing NotFoundException "NotFoundException")
           "arn:aws:s3vectors:::bucket/vectors/index/index"%string);
    reflexivity.
Defined.

(** ** The role *)

(** X20: [ensure_bedrock_kb_role] writes the three inline policies
    S3Access, S3VectorsAccess and BedrockModelAccess, in this order, both
    when the role exists and when it has just been created, and returns the
    ARN of the role that answered.  The role is created only when
    [get_role] reports [NoSuchEntityException]; any other error of
    [get_role] is raised before a policy is written. *)
Theorem ensure_bedrock_kb_role_always_writes_the_policies :
  forall (oracle : Oracle) (settings : Settings) (json_dumps : json -> string)
         (d vb vi : string) (w : World),
    let role_name := BEDROCK_ROLE_NAME settings in
    let ensure := Infra.ensure_bedrock_kb_role oracle settings json_dumps d vb vi in
    (forall h name document,
        oracle unit h (PutRolePolicy role_name name document) = inr tt) ->
    (forall arn,
        oracle string (history w) (GetRole role_name) = inr arn ->
        exists w' evs,
          ensure w = (w', Returned arn) /\
          history w' = history w ++ Called (GetRole role_name) (inr arn) :: evs /\
          all is_put_role_policy evs /\
          filter_map policy_written evs
            = ["S3Access"; "S3VectorsAccess"; "BedrockModelAccess"]%string)
    /\
    (forall err arn,
        let create :=
          CreateRole role_name (json_dumps Infra.trust_policy)
            "Role for Bedrock Knowledge Base to access S3 and models" in
        oracle string (history w) (GetRole role_name) = inl err ->
        error_class err = NoSuchEntityException ->
        oracle string (history w ++ [Called (GetRole role_name) (inl err)]) create
          = inr arn ->
        exists w' evs,
          ensure w = (w', Returned arn) /\
          history w'
            = history w ++ Called (GetRole role_name) (inl err)
                :: Called create (inr arn) :: evs /\
          all is_put_role_policy evs /\
          filter_map policy_written evs
            = ["S3Access"; "S3VectorsAccess"; "BedrockModelAccess"]%string)
    /\
    (forall err,
        oracle string (history w) (GetRole role_name) = inl err ->
        error_class err <> NoSuchEntityException ->
        exists w',
          ensure w = (w', Raised (ClientError err)) /\
          history w' = history w ++ [Called (GetRole role_name) (inl err)]).
Proof.
  intros oracle settings json_dumps d vb vi w. cbv zeta. intros Hput.
  unfold Infra.ensure_bedrock_kb_role.
  split; [|split].
  - intros arn Hget. unfold bind, try_except, call. rewrite Hget.
    cbn [ret]. rewrite !Hput.
    eexists _, [_; _; _]. split; [reflexivity|]. cbn [history record_event].
    rewrite <- !app_assoc. repeat split.
  - intros [cls code msg] arn Hget Hcls Hcreate. simpl in Hcls. subst cls.
    unfold bind, try_except, call. rewrite Hget.
    cbn [find isinstance is_client_error client_exception_eqb error_class fst snd
         history record_event].
    rewrite Hcreate. rewrite !Hput.
    eexists _, [_; _; _]. split; [reflexivity|]. cbn [history record_event].
    rewrite <- !app_assoc. repeat split.
  - intros [cls code msg] Hget Hcls. simpl in Hcls.
    unfold bind, try_except, call. rewrite Hget.
    destruct cls; try contradiction; eexists; split; reflexivity.
Qed.

(** A role that does not exist yet. *)
Lemma ensure_bedrock_kb_role_always_writes_the_policies_witness :
  exists w' evs,
    Infra.ensure_bedrock_kb_role Scenarios.fresh_account Fixtures.settings
        Fixtures.json_dumps "arn:aws:s3:::docs" "vb" "vi" initial_world
      = (w', Returned "arn:aws:iam:::role/BedrockKnowledgeBaseRole"%string) /\
    history w'
      = history initial_world
          ++ Called (GetRole "BedrockKnowledgeBaseRole")
               (inl (Scenarios.missing NoSuchEntityException "NoSuchEntity"))
          :: Called (CreateRole "BedrockKnowledgeBaseRole"
                       (Fixtures.json_dumps Infra.trust_policy)
                       "Role for Bedrock Knowledge Base to access S3 and models")
               (inr "arn:aws:iam:::role/BedrockKnowledgeBaseRole"%string)
          :: evs /\
    all is_put_role_policy evs /\
    filter_map policy_written evs
      = ["S3Access"; "S3VectorsAccess"; "BedrockModelAccess"]%string.
Proof.
  apply (proj1 (proj2 (ensure_bedrock_kb_role_always_writes_the_policies
                         Scenarios.fresh_account Fixtures.settings Fixtures.json_dumps
                         "arn:aws:s3:::docs" "vb" "vi" initial_world
                         ltac:(intros; reflexivity)))
           (Scenarios.missing NoSuchEntityException "NoSuchEntity")
           "arn:aws:iam:::role/BedrockKnowledgeBaseRole"%string);
    reflexivity.
Defined.

(** ** The listings *)

(** The loop over the pages stops at the first summary with the wanted
    name: the pages after it are not fetched. *)
Lemma find_by_name_finds (listing : Call (PageStream (list Summary))) (wanted : string)
    (before : list (list Summary)) (page : list Summary)
    (rest : PageStream (list Summary)) (s : Summary) :
  Forall (fun p => find (named wanted) p = None) before ->
  find (named wanted) page = Some s ->
  forall w, exists w',
    Infra.find_by_name listing wanted (pages_then before (PagesCons page rest)) w
      = (w', Returned (Some (summary_id s))) /\
    history w' = history w ++ delivered listing (before ++ [page]) /\
    stdout w' = stdout w.
Proof.
  intros Hbefore Hpage. unfold named in *.
  induction Hbefore as [|p before Hp _ IH]; intros w; simpl.
  - rewrite Hpage. eexists. repeat split.
  - rewrite Hp. destruct (IH (record_event (Paged listing (inr p)) w)) as [w' [Hrun [Hh Hs]]].
    exists w'. split; [exact Hrun|]. split; [|exact Hs].
    rewrite Hh. simpl. now rewrite <- app_assoc.
Qed.

(** The loop reaches the end of a listing that has no summary with the
    wanted name. *)
Lemma find_by_name_misses (listing : Call (PageStream (list Summary))) (wanted : string)
    (pages : list (list Summary)) :
  Forall (fun p => find (named wanted) p = None) pages ->
  forall w, exists w',
    Infra.find_by_name listing wanted (pages_then pages PagesEnd) w = (w', Returned None) /\
    history w' = history w ++ delivered listing pages.
Proof.
  intros Hpages. unfold named in *.
  induction Hpages as [|p pages Hp _ IH]; intros w; simpl.
  - eexists. split; [reflexivity|]. now rewrite app_nil_r.
  - rewrite Hp. destruct (IH (record_event (Paged listing (inr p)) w)) as [w' [Hrun Hh]].
    exists w'. split; [exact Hrun|]. rewrite Hh. simpl. now rewrite <- app_assoc.
Qed.

(** X21: [get_or_create_knowledge_base] returns the identifier of the
    first listed knowledge base that has the configured name, after reading
    the listing up to its page and no further, and without a create
    request.  When the listing ends without that name, it makes one
    [create_knowledge_base] request, for the configured name and embedding
    model and the role and vector store it was given, and returns the
    identifier in the answer, or raises its error. *)
Theorem get_or_create_knowledge_base_reuses_the_first_match :
  forall (oracle : Oracle) (settings : Settings) (vb vi role : string) (w : World),
    let wanted := KNOWLEDGE_BASE_NAME settings in
    let get_or_create := Infra.get_or_create_knowledge_base oracle settings vb vi role in
    (forall before page rest s,
        let pages := pages_then before (PagesCons page rest) in
        oracle _ (history w) ListKnowledgeBases = inr pages ->
        Forall (fun p => find (named wanted) p = None) before ->
        find (named wanted) page = Some s ->
        exists w',
          get_or_create w = (w', Returned (summary_id s)) /\
          history w'
            = history w ++ Called ListKnowledgeBases (inr pages)
                :: delivered ListKnowledgeBases (before ++ [page]))
    /\
    (forall all_pages,
        let pages := pages_then all_pages PagesEnd in
        let create :=
          CreateKnowledgeBase wanted role (BEDROCK_EMBEDDING_MODEL_ARN settings) vb vi in
        let read := Called ListKnowledgeBases (inr pages)
                      :: delivered ListKnowledgeBases all_pages in
        let answer := oracle string (history w ++ read) create in
        oracle _ (history w) ListKnowledgeBases = inr pages ->
        Forall (fun p => find (named wanted) p = None) all_pages ->
        exists w',
          get_or_create w
            = (w', match answer with
                   | inr id => Returned id
                   | inl err => Raised (ClientError err)
                   end) /\
          history w' = history w ++ read ++ [Called create answer]).
Proof.
  intros oracle settings vb vi role w. cbv zeta.
  unfold Infra.get_or_create_knowledge_base. split.
  - intros before page rest s Hlist Hbefore Hpage.
    unfold bind at 1. unfold call at 1. rewrite Hlist.
    match goal with
    | |- context [bind _ _ ?w1] =>
        destruct (find_by_name_finds ListKnowledgeBases _ before page rest s
                    Hbefore Hpage w1) as [w' [Hrun [Hh _]]]
    end.
    unfold bind. rewrite Hrun. exists w'. split; [reflexivity|].
    rewrite Hh. cbn [history record_event]. now rewrite <- app_assoc.
  - intros all_pages Hlist Hpages.
    unfold bind at 1. unfold call at 1. rewrite Hlist.
    match goal with
    | |- context [bind _ _ ?w1] =>
        destruct (find_by_name_misses ListKnowledgeBases _ all_pages Hpages w1)
          as [w' [Hrun Hh]]
    end.
    unfold bind. rewrite Hrun. unfold call. rewrite Hh.
    cbn [history record_event]. rewrite <- !app_assoc. cbn [app].
    match goal with
    | |- context [oracle string ?h ?c] => destruct (oracle string h c) as [err|id]
    end; eexists; (split; [reflexivity|]); cbn [history record_event];
      rewrite Hh; cbn [history record_event]; rewrite <- !app_assoc; reflexivity.
Qed.

(** The knowledge base is on the second page; the listing would fail on
    its third page. *)
Lemma get_or_create_knowledge_base_reuses_the_first_match_witness :
  exists w',
    Infra.get_or_create_knowledge_base Scenarios.provisioned Fixtures.settings
        "vb" "vi" "role" initial_world
      = (w', Returned "KB1"%string) /\
    Trace.count (fun ev => match ev with Paged _ _ => true | _ => false end) (history w')
      = 2%nat.
Proof.
  destruct (proj1 (get_or_create_knowledge_base_reuses_the_first_match
                     Scenarios.provisioned Fixtures.settings "vb" "vi" "role"
                     initial_world)
              [ [ {| summary_name := Some "other"%string; summary_id := "KB0" |} ] ]
              [ {| summary_name := None; summary_id := "KB9" |};
                {| summary_name := Some "s3-vectors-rag-hands-on"%string;
                   summary_id := "KB1" |} ]
              (PagesError Fixtures.denied)
              {| summary_name := Some "s3-vectors-rag-hands-on"%string;
                 summary_id := "KB1" |}
              eq_refl
              ltac:(repeat constructor)
              eq_refl) as [w' [Hrun Hh]].
  exists w'. split; [exact Hrun|]. rewrite Hh. reflexivity.
Defined.

(** X22: [get_or_create_data_source] returns the identifier of the first
    listed data source named s3-sample-documents, without a create request
    and without reading the listing further.  When the listing of the
    knowledge base ends without that name, it makes one
    [create_data_source] request, for that name, the document bucket it was
    given and the configured prefix, and returns the identifier in the
    answer, or raises its error. *)
Theorem get_or_create_data_source_reuses_the_first_match :
  forall (oracle : Oracle) (settings : Settings) (kb d : string) (w : World),
    let wanted := "s3-sample-documents"%string in
    let get_or_create := Infra.get_or_create_data_source oracle settings kb d in
    (forall before page rest s,
        let pages := pages_then before (PagesCons page rest) in
        oracle _ (history w) (ListDataSources kb) = inr pages ->
        Forall (fun p => find (named wanted) p = None) before ->
        find (named wanted) page = Some s ->
        exists w',
          get_or_create w = (w', Returned (summary_id s)) /\
          history w'
            = history w ++ Called (ListDataSources kb) (inr pages)
                :: delivered (ListDataSources kb) (before ++ [page]))
    /\
    (forall all_pages,
        let pages := pages_then all_pages PagesEnd in
        let create :=
          CreateDataSource kb wanted "Sample documents uploaded from data/input" d
            (DOCUMENT_S3_PREFIX settings) in
        let read := Called (ListDataSources kb) (inr pages)
                      :: delivered (ListDataSources kb) all_pages in
        let answer := oracle string (history w ++ read) create in
        oracle _ (history w) (ListDataSources kb) = inr pages ->
        Forall (fun p => find (named wanted) p = None) all_pages ->
        exists w',
          get_or_create w
            = (w', match answer with
                   | inr id => Returned id
                   | inl err => Raised (ClientError err)
                   end) /\
          history w' = history w ++ read ++ [Called create answer]).
Proof.
  intros oracle settings kb d w. cbv zeta.
  unfold Infra.get_or_create_data_source. split.
  - intros before page rest s Hlist Hbefore Hpage.
    unfold bind at 1. unfold call at 1. rewrite Hlist.
    match goal with
    | |- context [bind _ _ ?w1] =>
        destruct (find_by_name_finds (ListDataSources kb) _ before page rest s
                    Hbefore Hpage w1) as [w' [Hrun [Hh _]]]
    end.
    unfold bind. rewrite Hrun. exists w'. split; [reflexivity|].
    rewrite Hh. cbn [history record_event]. now rewrite <- app_assoc.
  - intros all_pages Hlist Hpages.
    unfold bind at 1. unfold call at 1. rewrite Hlist.
    match goal with
    | |- context [bind _ _ ?w1] =>
        destruct (find_by_name_misses (ListDataSources kb) _ all_pages Hpages w1)
          as [w' [Hrun Hh]]
    end.
    unfold bind. rewrite Hrun. unfold call. rewrite Hh.
    cbn [history record_event]. rewrite <- !app_assoc. cbn [app].
    match goal with
    | |- context [oracle string ?h ?c] => destruct (oracle string h c) as [err|id]
    end; eexists; (split; [reflexivity|]); cbn [history record_event];
      rewrite Hh; cbn [history record_event]; rewrite <- !app_assoc; reflexivity.
Qed.

(** A knowledge base without data sources: one is created. *)
Lemma get_or_create_data_source_reuses_the_first_match_witness :
  exists w',
    Infra.get_or_create_data_source Fixtures.healthy Fixtures.settings
        "KB1" "arn:aws:s3:::docs" initial_world
      = (w', Returned "DS1"%string) /\
    history w'
      = history initial_world
          ++ (Called (ListDataSources "KB1") (inr (PagesCons [] PagesEnd))
                :: delivered (ListDataSources "KB1") [[]])
          ++ [Called (CreateDataSource "KB1" "s3-sample-documents"
                        "Sample documents uploaded from data/input"
                        "arn:aws:s3:::docs" "knowledge-base/documents/")
                (inr "DS1"%string)].
Proof.
  apply (proj2 (get_or_create_data_source_reuses_the_first_match
                  Fixtures.healthy Fixtures.settings "KB1" "arn:aws:s3:::docs"
                  initial_world)
           [[]]).
  - reflexivity.
  - repeat constructor.
Defined.

(** ** The sample documents *)

Lemma replace_double_slash_step (c : ascii) (rest : string) :
  Infra.replace_double_slash (String c rest)
  = if Ascii.eqb c "/" then
      match rest with
      | String c' rest' =>
          if Ascii.eqb c' "/" then String "/" (Infra.replace_double_slash rest')
          else String c (Infra.replace_double_slash rest)
      | EmptyString => String c EmptyString
      end
    else String c (Infra.replace_double_slash rest).
Proof.
  destruct c as [[] [] [] [] [] [] [] []]; try reflexivity.
  destruct rest as [|c' rest']; [reflexivity|].
  destruct c' as [[] [] [] [] [] [] [] []]; reflexivity.
Qed.

Lemma has_double_slash_step (c : ascii) (rest : string) :
  has_double_slash (String c rest)
  = if Ascii.eqb c "/" then
      match rest with
      | String c' _ => if Ascii.eqb c' "/" then true else has_double_slash rest
      | EmptyString => false
      end
    else has_double_slash rest.
Proof.
  destruct c as [[] [] [] [] [] [] [] []]; try reflexivity.
  destruct rest as [|c' rest']; [reflexivity|].
  destruct c' as [[] [] [] [] [] [] [] []]; reflexivity.
Qed.

Lemma replace_double_slash_without_double_slash (s : string) :
  has_double_slash s = false -> Infra.replace_double_slash s = s.
Proof.
  induction s as [|c rest IH]; [reflexivity|].
  rewrite has_double_slash_step, replace_double_slash_step.
  destruct (Ascii.eqb c "/").
  - destruct rest as [|c' rest']; [reflexivity|].
    destruct (Ascii.eqb c' "/"); [discriminate|].
    intros H. now rewrite (IH H).
  - intros H. now rewrite (IH H).
Qed.

Lemma uploads_succeed (oracle : Oracle) (settings : Settings) (entries : list DirEntry) :
  (forall h p k, oracle unit h (UploadFile p (DOCUMENT_S3_BUCKET settings) k) = inr tt) ->
  forall w, exists w',
    for_each entries (fun path =>
      if negb (entry_is_file path) then ret tt
      else
        call oracle
          (UploadFile (entry_path path) (DOCUMENT_S3_BUCKET settings)
             (Infra.replace_double_slash
                (DOCUMENT_S3_PREFIX settings ++ entry_relative path)))) w
      = (w', Returned tt) /\
    history w' = history w ++ map (upload_of settings) (filter entry_is_file entries) /\
    stdout w' = stdout w.
Proof.
  intros Hup. induction entries as [|entry entries IH]; intros w.
  - exists w. simpl. rewrite app_nil_r. auto.
  - cbn [for_each filter]. unfold bind at 1.
    destruct (entry_is_file entry); cbn [negb].
    + unfold call at 1. rewrite Hup.
      match goal with
      | |- context [for_each entries _ ?w1] => destruct (IH w1) as [w' [Hrun [Hh Hs]]]
      end.
      exists w'. split; [exact Hrun|]. split; [|exact Hs].
      rewrite Hh. cbn [history record_event map]. now rewrite <- app_assoc.
    + unfold ret at 1. apply IH.
Qed.



(** ** Provisioning what exists *)

Section Existing.

Variable oracle : Oracle.
Variable settings : Settings.
Variable json_dumps : json -> string.
Variable path_exists : string -> bool.
Variable rglob : string -> list DirEntry.
Variable vb vi role kb ds : string.

Hypothesis exists_already : everything_exists oracle settings path_exists vb vi role kb ds.

(** The step has returned [v] without a create request and without
    printing. *)
Let found {A} (step : M A) (v : A) (w : World) : Prop :=
  exists w' evs,
    step w = (w', Returned v) /\
    history w' = history w ++ evs /\
    all (outside is_create) evs /\
    stdout w' = stdout w.

Lemma ensure_document_bucket_found (w : World) :
  found (Infra.ensure_document_bucket oracle settings)
    ("arn:aws:s3:::" ++ DOCUMENT_S3_BUCKET settings)%string w.
Proof.
  destruct exists_already as (Hhead & _).
  unfold found, Infra.ensure_document_bucket, bind, try_except, call. rewrite Hhead.
  eexists _, [_]. repeat split.
Qed.

Lemma upload_sample_documents_found (w : World) :
  found (Infra.upload_sample_documents oracle settings path_exists rglob) tt w.
Proof.
  destruct exists_already as (_ & Hdir & Hup & _).
  unfold found, Infra.upload_sample_documents. rewrite Hdir. cbn [negb].
  destruct (uploads_succeed oracle settings (rglob (LOCAL_DATA_DIR settings)) Hup w)
    as [w' [Hrun [Hh Hs]]].
  exists w', (map (upload_of settings) (filter entry_is_file (rglob (LOCAL_DATA_DIR settings)))).
  split; [exact Hrun|]. split; [exact Hh|]. split; [|exact Hs].
  apply all_map. reflexivity.
Qed.

Lemma ensure_vector_bucket_and_index_found (w : World) :
  found (Infra.ensure_vector_bucket_and_index oracle settings) (vb, vi) w.
Proof.
  destruct exists_already as (_ & _ & _ & Hvb & Hvi & _).
  unfold found, Infra.ensure_vector_bucket_and_index, bind, try_except, call.
  rewrite Hvb. cbn [ret]. rewrite Hvi.
  eexists _, [_; _]. split; [reflexivity|]. cbn [history record_event].
  rewrite <- !app_assoc. repeat split.
Qed.

Lemma ensure_bedrock_kb_role_found (d : string) (w : World) :
  found (Infra.ensure_bedrock_kb_role oracle settings json_dumps d vb vi) role w.
Proof.
  destruct exists_already as (_ & _ & _ & _ & _ & Hrole & Hput & _).
  unfold found, Infra.ensure_bedrock_kb_role, bind, try_except, call.
  rewrite Hrole. cbn [ret]. rewrite !Hput.
  eexists _, [_; _; _; _]. split; [reflexivity|]. cbn [history record_event].
  rewrite <- !app_assoc. repeat split.
Qed.

Lemma get_or_create_knowledge_base_found (w : World) :
  found (Infra.get_or_create_knowledge_base oracle settings vb vi role) kb w.
Proof.
  destruct exists_already as (_ & _ & _ & _ & _ & _ & _ & Hkbs & _).
  destruct (Hkbs (history w)) as (before & page & rest & s & Hlist & Hbefore & Hpage & <-).
  unfold found, Infra.get_or_create_knowledge_base.
  unfold bind at 1. unfold call at 1. rewrite Hlist.
  match goal with
  | |- context [bind _ _ ?w1] =>
      destruct (find_by_name_finds ListKnowledgeBases _ before page rest s
                  Hbefore Hpage w1) as [w' [Hrun [Hh Hs]]]
  end.
  unfold bind. rewrite Hrun.
  exists w', (Called ListKnowledgeBases (inr (pages_then before (PagesCons page rest)))
                :: delivered ListKnowledgeBases (before ++ [page])).
  split; [reflexivity|].
  split; [rewrite Hh; cbn [history record_event]; now rewrite <- app_assoc|].
  split; [|exact Hs].
  unfold all. cbn [forallb]. apply all_map. reflexivity.
Qed.

Lemma get_or_create_data_source_found (d : string) (w : World) :
  found (Infra.get_or_create_data_source oracle settings kb d) ds w.
Proof.
  destruct exists_already as (_ & _ & _ & _ & _ & _ & _ & _ & Hdss).
  destruct (Hdss (history w)) as (before & page & rest & s & Hlist & Hbefore & Hpage & <-).
  unfold found, Infra.get_or_create_data_source.
  unfold bind at 1. unfold call at 1. rewrite Hlist.
  match goal with
  | |- context [bind _ _ ?w1] =>
      destruct (find_by_name_finds (ListDataSources kb) _ before page rest s
                  Hbefore Hpage w1) as [w' [Hrun [Hh Hs]]]
  end.
  unfold bind. rewrite Hrun.
  exists w', (Called (ListDataSources kb) (inr (pages_then before (PagesCons page rest)))
                :: delivered (ListDataSources kb) (before ++ [page])).
  split; [reflexivity|].
  split; [rewrite Hh; cbn [history record_event]; now rewrite <- app_assoc|].
  split; [|exact Hs].
  unfold all. cbn [forallb]. apply all_map. reflexivity.
Qed.

Lemma provision_all_found (w : World) :
  exists w' evs,
    Infra.provision_all oracle settings json_dumps path_exists rglob w
      = (w', Returned {| Infra.knowledge_base_id := kb;
                         Infra.data_source_id := ds;
                         Infra.vector_bucket_arn := vb;
                         Infra.vector_index_arn := vi |}) /\
    history w' = history w ++ evs /\
    all (outside is_create) evs /\
    stdout w'
      = stdout w ++ [ "[SUCCESS] document bucket";
                      "[SUCCESS] sample document upload";
                      "[SUCCESS] S3 Vectors bucket and index";
                      "[SUCCESS] Bedrock knowledge base role";
                      "[SUCCESS] knowledge base";
                      "[SUCCESS] data source" ]%string.
Proof.
  destruct (ensure_document_bucket_found w) as (w1 & e1 & H1 & Hh1 & Hp1 & Hs1).
  destruct (upload_sample_documents_found (succeeded "document bucket" w1))
    as (w2 & e2 & H2 & Hh2 & Hp2 & Hs2).
  destruct (ensure_vector_bucket_and_index_found (succeeded "sample document upload" w2))
    as (w3 & e3 & H3 & Hh3 & Hp3 & Hs3).
  destruct (ensure_bedrock_kb_role_found
              ("arn:aws:s3:::" ++ DOCUMENT_S3_BUCKET settings)%string
              (succeeded "S3 Vectors bucket and index" w3))
    as (w4 & e4 & H4 & Hh4 & Hp4 & Hs4).
  destruct (get_or_create_knowledge_base_found (succeeded "Bedrock knowledge base role" w4))
    as (w5 & e5 & H5 & Hh5 & Hp5 & Hs5).
  destruct (get_or_create_data_source_found
              ("arn:aws:s3:::" ++ DOCUMENT_S3_BUCKET settings)%string
              (succeeded "knowledge base" w5))
    as (w6 & e6 & H6 & Hh6 & Hp6 & Hs6).
  exists (succeeded "data source" w6), (e1 ++ e2 ++ e3 ++ e4 ++ e5 ++ e6).
  split; [|split; [|split]].
  - unfold Infra.provision_all, bind.
    rewrite InfraSpec._provision_document_bucket_run, H1.
    rewrite InfraSpec._provision_sample_documents_run, H2.
    rewrite InfraSpec._provision_vector_bucket_and_index_run, H3.
    rewrite InfraSpec._provision_bedrock_kb_role_run, H4.
    rewrite InfraSpec._provision_knowledge_base_run, H5.
    rewrite InfraSpec._provision_data_source_run, H6.
    reflexivity.
  - unfold succeeded in *. cbn [history print_line] in *.
    rewrite Hh6, Hh5, Hh4, Hh3, Hh2, Hh1. rewrite <- !app_assoc. reflexivity.
  - unfold all in *. rewrite !forallb_app.
    now rewrite Hp1, Hp2, Hp3, Hp4, Hp5, Hp6.
  - unfold succeeded in *. cbn [stdout print_line] in *.
    rewrite Hs6, Hs5, Hs4, Hs3, Hs2, Hs1. rewrite <- !app_assoc. reflexivity.
Qed.

End Existing.

(** X24: provisioning what exists creates nothing.  When the document
    bucket, the local directory, the vector bucket, the index and the role
    are there and the listings show the knowledge base and the data source,
    [provision_all] returns their identifiers without a single create
    request, and prints the six success lines in the order of the steps. *)
Theorem provision_all_creates_nothing_that_exists :
  forall (oracle : Oracle) (settings : Settings) (json_dumps : json -> string)
         (path_exists : string -> bool) (rglob : string -> list DirEntry)
         (vb vi role kb ds : string) (w : World),
    everything_exists oracle settings path_exists vb vi role kb ds ->
    exists w' evs,
      Infra.provision_all oracle settings json_dumps path_exists rglob w
        = (w', Returned {| Infra.knowledge_base_id := kb;
                           Infra.data_source_id := ds;
                           Infra.vector_bucket_arn := vb;
                           Infra.vector_index_arn := vi |}) /\
      history w' = history w ++ evs /\
      all (outside is_create) evs /\
      stdout w'
        = stdout w ++ [ "[SUCCESS] document bucket";
                        "[SUCCESS] sample document upload";
                        "[SUCCESS] S3 Vectors bucket and index";
                        "[SUCCESS] Bedrock knowledge base role";
                        "[SUCCESS] knowledge base";
                        "[SUCCESS] data source" ]%string.
Proof.
  intros oracle settings json_dumps path_exists rglob vb vi role kb ds w Hexists.
  exact (provision_all_found oracle settings json_dumps path_exists rglob
           vb vi role kb ds Hexists w).
Qed.

Lemma provision_all_creates_nothing_that_exists_witness :
  exists w' evs,
    Infra.provision_all Scenarios.provisioned Fixtures.settings Fixtures.json_dumps
        Fixtures.path_exists Fixtures.rglob initial_world
      = (w', Returned {| Infra.knowledge_base_id := "KB1";
                         Infra.data_source_id := "DS1";
                         Infra.vector_bucket_arn := "arn:aws:s3vectors:::bucket/vectors";
                         Infra.vector_index_arn :=
                           "arn:aws:s3vectors:::bucket/vectors/index/index" |}) /\
    history w' = history initial_world ++ evs /\
    all (outside is_create) evs /\
    stdout w'
      = stdout initial_world
          ++ [ "[SUCCESS] document bucket";
               "[SUCCESS] sample document upload";
               "[SUCCESS] S3 Vectors bucket and index";
               "[SUCCESS] Bedrock knowledge base role";
               "[SUCCESS] knowledge base";
               "[SUCCESS] data source" ]%string.
Proof.
  apply (provision_all_creates_nothing_that_exists Scenarios.provisioned
           Fixtures.settings Fixtures.json_dumps Fixtures.path_exists Fixtures.rglob
           "arn:aws:s3vectors:::bucket/vectors"
           "arn:aws:s3vectors:::bucket/vectors/index/index"
           "arn:aws:iam:::role/BedrockKnowledgeBaseRole" "KB1" "DS1" initial_world).
  repeat split; try (intros; reflexivity).
  - intros h.
    exists [ [ {| summary_name := Some "other"%string; summary_id := "KB0" |} ] ],
      [ {| summary_name := None; summary_id := "KB9" |};
        {| summary_name := Some "s3-vectors-rag-hands-on"%string; summary_id := "KB1" |} ],
      (PagesError Fixtures.denied),
      {| summary_name := Some "s3-vectors-rag-hands-on"%string; summary_id := "KB1" |}.
    repeat split. repeat constructor.
  - intros h.
    exists [],
      [ {| summary_name := Some "s3-sample-documents"%string; summary_id := "DS1" |} ],
      PagesEnd,
      {| summary_name := Some "s3-sample-documents"%string; summary_id := "DS1" |}.
    repeat split. constructor.
Defined.

End InfraMore.

(* ================================================================== *)
(** * Properties of chatbot.py                                         *)
(* ================================================================== *)

Module ChatbotMore.
Import Chatbot.
Local Open Scope list_scope.

Section Queries.

Variable char : Type.
Variable lit : string -> list char.
Variable ellipsis : char.
Variable exception : Type.
Variable str_exception : exception -> list char.
Variable BEDROCK_RESPONSE_MODEL_ARN : list char.
Variable json_dumps : dict char -> list char.
Variable runtime :
  list (Request char) -> Request char -> exception + Response char.

Local Abbreviation reference_line := (Chatbot.reference_line char lit ellipsis).
Local Abbreviation _print_response := (Chatbot._print_response char lit ellipsis).
Local Abbreviation run_scenario :=
  (Chatbot.run_scenario char lit ellipsis exception str_exception
     BEDROCK_RESPONSE_MODEL_ARN json_dumps runtime).
Local Abbreviation run_scenarios :=
  (Chatbot.run_scenarios char lit ellipsis exception str_exception
     BEDROCK_RESPONSE_MODEL_ARN json_dumps runtime).
Local Abbreviation scenarios := (Chatbot.scenarios char lit).
Local Abbreviation references := (Chatbot.references char).
Local Abbreviation request_of := (Chatbot.request_of char BEDROCK_RESPONSE_MODEL_ARN).

Lemma asked_print (line : list char) (s : Session char) :
  asked char (print char line s) = asked char s.
Proof. reflexivity. Qed.

Lemma printed_print (line : list char) (s : Session char) :
  printed char (print char line s) = printed char s ++ [line].
Proof. reflexivity. Qed.

Lemma references_printed (refs : list (Reference char)) :
  forall s : Session char,
    let s' := fold_left (fun s reference => print char (reference_line reference) s) refs s in
    asked char s' = asked char s /\
    printed char s' = printed char s ++ map reference_line refs.
Proof.
  induction refs as [|r refs IH]; intros s; simpl.
  - now rewrite app_nil_r.
  - destruct (IH (print char (reference_line r) s)) as [Ha Hp].
    split; [exact Ha|]. rewrite Hp. simpl. now rewrite <- app_assoc.
Qed.

Lemma citations_printed (cs : list (Citation char)) :
  forall s : Session char,
    let s' :=
      fold_left
        (fun s citation =>
           fold_left (fun s reference => print char (reference_line reference) s)
             (get_or (retrievedReferences char citation) []) s)
        cs s in
    asked char s' = asked char s /\
    printed char s'
      = printed char s
          ++ map reference_line
               (flat_map (fun citation => get_or (retrievedReferences char citation) []) cs).
Proof.
  induction cs as [|c cs IH]; intros s; simpl.
  - now rewrite app_nil_r.
  - match goal with
    | |- context [fold_left _ cs ?s1] => destruct (IH s1) as [Ha Hp]
    end.
    destruct (references_printed (get_or (retrievedReferences char c) []) s) as [Ha1 Hp1].
    split; [now rewrite Ha|].
    rewrite Hp, Hp1, map_app. now rewrite <- app_assoc.
Qed.

Lemma _print_response_run (label : list char) (response : Response char)
    (s : Session char) :
  asked char (_print_response label response s) = asked char s /\
  printed char (_print_response label response s)
    = printed char s
        ++ (lit "=== " ++ label ++ lit " ===")
        :: (get_or (output_text char response) (lit "(no answer)")
              :: (if nonempty (get_or (citations char response) [])
                  then lit "Sources:" :: map reference_line (references response)
                  else [lit "(no citations returned)"]))
        ++ [[]].
Proof.
  unfold Chatbot._print_response, Chatbot.references.
  destruct (get_or (citations char response) []) as [|c cs].
  - simpl. split; [reflexivity|]. rewrite <- !app_assoc. reflexivity.
  - cbv zeta.
    match goal with
    | |- context [fold_left _ (c :: cs) ?s1] =>
        destruct (citations_printed (c :: cs) s1) as [Ha Hp]
    end.
    cbn [nonempty]. rewrite asked_print, printed_print, Ha, Hp.
    rewrite !asked_print, !printed_print.
    split; [reflexivity|]. rewrite <- !app_assoc. reflexivity.
Qed.

(** A round of the loop asks the request of its scenario, whatever the
    answer, and prints a block that opens with the label and closes with an
    empty line. *)
Lemma run_scenario_run (knowledge_base_id : list char) (scenario : QueryScenario char)
    (s : Session char) :
  asked char (run_scenario knowledge_base_id scenario s)
    = asked char s ++ [request_of knowledge_base_id scenario] /\
  exists middle,
    printed char (run_scenario knowledge_base_id scenario s)
      = printed char s
          ++ (lit "=== " ++ label char scenario ++ lit " ===") :: middle ++ [[]].
Proof.
  unfold Chatbot.run_scenario, ask_knowledge_base.
  fold (request_of knowledge_base_id scenario).
  destruct (runtime (asked char s) (request_of knowledge_base_id scenario))
    as [exc|response].
  - split; [destruct (given (metadata_filter char scenario)); reflexivity|].
    destruct (given (metadata_filter char scenario)) as [f|].
    + exists [lit "Query failed: " ++ str_exception exc; lit "Filter used: " ++ json_dumps f].
      rewrite !printed_print. cbn [printed]. rewrite <- !app_assoc. reflexivity.
    + exists [lit "Query failed: " ++ str_exception exc].
      rewrite !printed_print. cbn [printed]. rewrite <- !app_assoc. reflexivity.
  - destruct (_print_response_run (label char scenario) response
                {| asked := asked char s ++ [request_of knowledge_base_id scenario];
                   printed := printed char s |}) as [Ha Hp].
    split; [rewrite Ha; reflexivity|].
    exists (get_or (output_text char response) (lit "(no answer)")
              :: (if nonempty (get_or (citations char response) [])
                  then lit "Sources:" :: map reference_line (references response)
                  else [lit "(no citations returned)"])).
    rewrite Hp. reflexivity.
Qed.

Lemma rounds_run (knowledge_base_id : list char) (scs : list (QueryScenario char)) :
  forall s : Session char,
    let s' := fold_left (fun s scenario => run_scenario knowledge_base_id scenario s) scs s in
    asked char s' = asked char s ++ map (request_of knowledge_base_id) scs /\
    exists blocks,
      printed char s' = printed char s ++ concat blocks /\
      Forall2
        (fun scenario block =>
           exists middle,
             block = (lit "=== " ++ label char scenario ++ lit " ===") :: middle ++ [[]])
        scs blocks.
Proof.
  induction scs as [|sc scs IH]; intros s; simpl.
  - rewrite app_nil_r. split; [reflexivity|]. exists []. simpl. rewrite app_nil_r.
    split; [reflexivity|constructor].
  - destruct (IH (run_scenario knowledge_base_id sc s)) as [Ha [blocks [Hp Hblocks]]].
    destruct (run_scenario_run knowledge_base_id sc s) as [Ha1 [middle Hp1]].
    split.
    + rewrite Ha, Ha1. now rewrite <- app_assoc.
    + exists (((lit "=== " ++ label char sc ++ lit " ===") :: middle ++ [[]]) :: blocks).
      split.
      * rewrite Hp, Hp1. simpl. now rewrite <- app_assoc.
      * constructor; [now exists middle|exact Hblocks].
Qed.

(** X25: [_print_response] makes no request and prints the label between
    === marks, the answer or "(no answer)", then either "(no citations
    returned)" or "Sources:" followed by one line for each reference of
    each citation, in their order, and an empty line.  The line of a
    reference shows its text in full when that has at most 120 characters,
    and otherwise its first 120 characters followed by an ellipsis. *)
Theorem print_response_prints_one_line_per_reference :
  forall (label : list char) (response : Response char) (s : Session char),
    asked char (_print_response label response s) = asked char s /\
    printed char (_print_response label response s)
      = printed char s
          ++ (lit "=== " ++ label ++ lit " ===")
          :: (get_or (output_text char response) (lit "(no answer)")
                :: (if nonempty (get_or (citations char response) [])
                    then lit "Sources:" :: map reference_line (references response)
                    else [lit "(no citations returned)"]))
          ++ [[]]
    /\
    (forall ref uri : list char,
        reference_line {| content_text := Some ref; s3_uri := Some uri |}
        = lit "  - " ++ uri ++ lit ": "
            ++ (if Nat.leb (length ref) MAX_REFERENCE_PREVIEW_LENGTH then ref
                else firstn MAX_REFERENCE_PREVIEW_LENGTH ref ++ [ellipsis])).
Proof.
  intros label response s.
  destruct (_print_response_run label response s) as [Ha Hp].
  split; [exact Ha|]. split; [exact Hp|].
  intros ref uri. unfold Chatbot.reference_line. cbn [get_or content_text s3_uri].
  destruct (Nat.leb_spec (length ref) MAX_REFERENCE_PREVIEW_LENGTH) as [Hle|Hlt].
  - rewrite firstn_all2 by exact Hle.
    destruct (Nat.ltb_spec MAX_REFERENCE_PREVIEW_LENGTH (length ref)) as [Hlt|_]; [lia|].
    now rewrite app_nil_r.
  - destruct (Nat.ltb_spec MAX_REFERENCE_PREVIEW_LENGTH (length ref)) as [_|Hle]; [|lia].
    reflexivity.
Qed.

(** X26: [run_scenarios] asks its six queries in their order whatever
    the service answers: a query that fails does not keep the later ones
    from being asked.  Every request is for the given knowledge base and
    four results, none of them overrides the search type, the hybrid-search
    scenario included, and the first one has no filter.  After the heading,
    each scenario prints a block that opens with its label and closes with
    an empty line.  Without a knowledge-base ID the script asks nothing. *)
Theorem run_scenarios_asks_every_query :
  forall (knowledge_base_id : list char) (s : Session char),
    let s' := run_scenarios knowledge_base_id s in
    asked char s' = asked char s ++ map (request_of knowledge_base_id) scenarios /\
    length scenarios = 6%nat /\
    Forall
      (fun scenario =>
         number_of_results char scenario = 4%Z /\
         ~ In "overrideSearchType"%string
             (map fst (vectorSearchConfiguration char
                         (request_of knowledge_base_id scenario))))
      scenarios /\
    map (fun scenario =>
           map fst (vectorSearchConfiguration char (request_of knowledge_base_id scenario)))
      scenarios
      = [ ["numberOfResults"];
          ["numberOfResults"; "filter"];
          ["numberOfResults"; "filter"];
          ["numberOfResults"; "filter"];
          ["numberOfResults"; "filter"];
          ["numberOfResults"; "filter"] ]%string /\
    (exists blocks,
        printed char s'
          = printed char s
              ++ (lit "Running scripted knowledge base checks" ++ [ellipsis])
              :: concat blocks /\
        Forall2
          (fun scenario block =>
             exists middle,
               block = (lit "=== " ++ label char scenario ++ lit " ===") :: middle ++ [[]])
          scenarios blocks) /\
    (forall kb_id,
        given kb_id = None ->
        exists message,
          main char lit ellipsis exception str_exception BEDROCK_RESPONSE_MODEL_ARN
            json_dumps runtime kb_id s
          = (s, Some message)).
Proof.
  intros knowledge_base_id s. cbv zeta.
  unfold Chatbot.run_scenarios.
  match goal with
  | |- context [fold_left _ scenarios ?s1] =>
      destruct (rounds_run knowledge_base_id scenarios s1) as [Ha [blocks [Hp Hblocks]]]
  end.
  split; [exact Ha|]. split; [reflexivity|].
  split.
  { unfold Chatbot.scenarios. repeat constructor;
      cbn; intros H; repeat (destruct H as [H|H]; [discriminate|]); exact H. }
  split; [reflexivity|]. split.
  - exists blocks. split; [|exact Hblocks].
    rewrite Hp. cbn [print printed]. rewrite <- app_assoc. reflexivity.
  - intros kb_id Hnone. unfold main. rewrite Hnone. eexists. reflexivity.
Qed.

End Queries.

(** No knowledge-base ID, and an empty one. *)
Lemma run_scenarios_asks_every_query_witness :
  let unanswered : list (Request ascii) -> Request ascii -> unit + Response ascii :=
    fun _ _ => inl tt in
  let start := {| asked := []; printed := [] |} in
  (exists message,
      main ascii list_ascii_of_string "."%char unit (fun _ => []) [] (fun _ => [])
        unanswered None start = (start, Some message)) /\
  (exists message,
      main ascii list_ascii_of_string "."%char unit (fun _ => []) [] (fun _ => [])
        unanswered (Some []) start = (start, Some message)).
Proof.
  split.
  - apply (proj2 (proj2 (proj2 (proj2 (proj2
             (run_scenarios_asks_every_query ascii list_ascii_of_string "."%char unit
                (fun _ => []) [] (fun _ => []) (fun _ _ => inl tt) []
                {| asked := []; printed := [] |}))))) None).
    reflexivity.
  - apply (proj2 (proj2 (proj2 (proj2 (proj2
             (run_scenarios_asks_every_query ascii list_ascii_of_string "."%char unit
                (fun _ => []) [] (fun _ => []) (fun _ _ => inl tt) []
                {| asked := []; printed := [] |}))))) (Some [])).
    reflexivity.
Defined.

End ChatbotMore.
